(** * rkt common/cgroup: a shallow embedding of cgroup.go

    The development follows the Go source function by function.  Go values
    are modelled as follows:
    - [string] is a Rocq [string] (a sequence of bytes);
    - [int] and [int64] are [Z], with two's complement wrap-around written
      out where a conversion can leave the range ([int] is 64 bits wide, as
      on the amd64 and arm64 targets of rkt);
    - a slice is a [list], [append] is [++];
    - [map[int][]string] and [map[string]string] are stdpp [gmap]s; a
      [map[int][]string] lives in a store and is passed by reference, and
      the order in which [range] visits a map is chosen by the environment;
    - [error] is an inductive type that keeps the structure built by
      [errors.New], [fmt.Errorf] and [errwrap.Wrap];
    - kernel and file-system calls are answered by an oracle that sees the
      history of calls, and every call is logged in a trace. *)

From Stdlib Require Import ZArith QArith Qround Lqa Ascii String DecimalString DecimalZ Lia.
From stdpp Require Import gmap strings list fin_maps.

Local Open Scope string_scope.
Local Open Scope list_scope.
Local Open Scope Z_scope.

(** ** Machine integers *)

Module GoInt.

Definition wrap (w z : Z) : Z := (z + 2 ^ (w - 1)) mod 2 ^ w - 2 ^ (w - 1).

Definition int64 (z : Z) : Z := wrap 64 z.

(** Width of Go's [int] on the 64-bit targets. *)
Definition intSize : Z := 64.

Definition int (z : Z) : Z := wrap intSize z.

Definition MaxInt64 : Z := 2 ^ 63 - 1.
Definition MinInt64 : Z := - 2 ^ 63.

Definition inInt64 (z : Z) : Prop := MinInt64 <= z <= MaxInt64.

End GoInt.

(** ** strconv and strings *)

Module strconv.

(** [strconv.Itoa]: the decimal rendering of an integer. *)
Definition Itoa (i : Z) : string := NilZero.string_of_int (Z.to_int i).

(** The inverse reading, used to state that [Itoa] loses nothing. *)
Definition decimalValue (s : string) : option Z :=
  option_map Z.of_int (NilZero.int_of_string s).

End strconv.

Module Strings.

Fixpoint HasPrefix (s prefix : string) {struct prefix} : bool :=
  match prefix, s with
  | EmptyString, _ => true
  | String c p, String d t => if Ascii.eqb c d then HasPrefix t p else false
  | String _ _, EmptyString => false
  end.

Fixpoint dropBytes (n : nat) (s : string) : string :=
  match n, s with
  | O, _ => s
  | S k, String _ t => dropBytes k t
  | S _, EmptyString => EmptyString
  end.

(** [strings.Cut]-like helper: the text before and after the first
    occurrence of a non-empty separator. *)
Fixpoint cut (s sep : string) : option (string * string) :=
  match s with
  | EmptyString => None
  | String c t =>
      if HasPrefix s sep then Some (EmptyString, dropBytes (String.length sep) s)
      else match cut t sep with
           | Some (b, a) => Some (String c b, a)
           | None => None
           end
  end.

Fixpoint explode (s : string) : list string :=
  match s with
  | EmptyString => []
  | String c t => String c EmptyString :: explode t
  end.

(** The loop of [strings.genSplit] for a non-empty separator: [n] is the
    number of substrings still allowed (negative: no limit). *)
Fixpoint splitLoop (fuel : nat) (s sep : string) (n : Z) : list string :=
  match fuel with
  | O => [s]
  | S f =>
      if n =? 1 then [s]
      else match cut s sep with
           | Some (b, a) => b :: splitLoop f a sep (n - 1)
           | None => [s]
           end
  end.

(** [strings.SplitN]. *)
Definition SplitN (s sep : string) (n : Z) : list string :=
  if n =? 0 then []
  else match sep with
       | EmptyString =>
           if n <? 0 then explode s
           else take (Z.to_nat n) (explode s)
       | _ => splitLoop (String.length s) s sep n
       end.

(** [strings.Split]. *)
Definition Split (s sep : string) : list string := SplitN s sep (-1).

(** [strings.Join]. *)
Fixpoint Join (elems : list string) (sep : string) : string :=
  match elems with
  | [] => EmptyString
  | [e] => e
  | e :: rest => e +:+ sep +:+ Join rest sep
  end.

(** The ASCII white space of [unicode.IsSpace]. *)
Definition isSpace (c : ascii) : bool :=
  let n := Ascii.N_of_ascii c in
  ((9 <=? n) && (n <=? 13))%N || (n =? 32)%N.

Fixpoint TrimLeft (s : string) : string :=
  match s with
  | String c t => if isSpace c then TrimLeft t else s
  | EmptyString => EmptyString
  end.

Fixpoint TrimRight (s : string) : string :=
  match s with
  | EmptyString => EmptyString
  | String c t =>
      match TrimRight t with
      | EmptyString => if isSpace c then EmptyString else String c EmptyString
      | t' => String c t'
      end
  end.

(** [strings.TrimSpace]. *)
Definition TrimSpace (s : string) : string := TrimRight (TrimLeft s).

End Strings.

(** ** Errors *)

(** An operand of a formatting verb. *)
Inductive fmtArg : Type :=
| AString (s : string)
| AInt (i : Z)
| AQuantity (amount : Q).      (* the text of a resource quantity *)

(** Go's [error] values as the package builds and receives them. *)
Inductive error : Type :=
| Errno (n : Z)                              (* syscall.Errno *)
| PathError (op path : string) (n : Z)       (* *os.PathError *)
| ErrTooLong                                 (* bufio.ErrTooLong *)
| errorString (s : string)                   (* errors.New *)
| Errorf (format : string) (args : list fmtArg) (* fmt.Errorf *)
| wrappedError (outer inner : error).        (* errwrap.Wrap *)

Module syscall.
Definition ENOENT : Z := 2.
Definition EBUSY : Z := 16.
Definition MS_RDONLY : Z := 1.
Definition MS_NOSUID : Z := 2.
Definition MS_NODEV : Z := 4.
Definition MS_NOEXEC : Z := 8.
Definition MS_REMOUNT : Z := 32.
Definition MS_BIND : Z := 4096.
Definition MS_STRICTATIME : Z := 16777216.
End syscall.

Module os.
(** [os.IsNotExist]. *)
Definition IsNotExist (err : option error) : bool :=
  match err with
  | Some (Errno n) => n =? syscall.ENOENT
  | Some (PathError _ _ n) => n =? syscall.ENOENT
  | _ => false
  end.
End os.

(** [err != syscall.EBUSY] compares the interface value with the errno. *)
Definition isEBUSY (err : error) : bool :=
  match err with
  | Errno n => n =? syscall.EBUSY
  | _ => false
  end.

(** ** Resource quantities and unit options *)

Module resource.

(** Modelled from the spec: the Resource Quantity of
    k8s.io/kubernetes/pkg/api/resource, a package outside these sources: an
    immutable decimal amount, read in whole units by [Value] and in
    milli-units by [MilliValue], both rounding away from zero and both
    delivered as an [int64]. *)
Record Quantity : Type := { amount : Q }.

Definition roundUp (x : Q) : Z :=
  if Qle_bool 0 x then Qceiling x else Qfloor x.

Definition Value (q : Quantity) : Z := GoInt.int64 (roundUp (amount q)).

Definition MilliValue (q : Quantity) : Z :=
  GoInt.int64 (roundUp (amount q * inject_Z 1000)).

(** Modelled from the spec: the defined maximum milli-value,
    [int64(((1 << 63) - 1) / 1000)] in the resource package. *)
Definition MaxMilliValue : Z := (2 ^ 63 - 1) / 1000.

(** A quantity of [n] milli-units, and one of [n] whole units (bytes). *)
Definition ofMilli (n : Z) : Quantity := {| amount := n # 1000 |}.
Definition ofUnits (n : Z) : Quantity := {| amount := inject_Z n |}.

End resource.

Module unit.

(** [unit.UnitOption] of go-systemd. *)
Record UnitOption : Type :=
  { Section_ : string; Name : string; Value : string }.

Definition NewUnitOption (section name value : string) : UnitOption :=
  {| Section_ := section; Name := name; Value := value |}.

End unit.

Import resource unit.

Definition addIsolatorFunc : Type :=
  list UnitOption -> Quantity -> list UnitOption * option error.

Definition Cgroup2fsMagicNumber : Z := 0x63677270.

Definition addCpuLimit : addIsolatorFunc := fun opts limit =>
  if resource.Value limit >? MaxMilliValue then
    ([], Some (Errorf "cpu limit exceeds the maximum millivalue: %v"
                 [AQuantity (amount limit)]))
  else
    let quota :=
      strconv.Itoa (GoInt.int (MilliValue limit ÷ 10)) +:+ "%" in
    (opts ++ [NewUnitOption "Service" "CPUQuota" quota], None).

Definition addMemoryLimit : addIsolatorFunc := fun opts limit =>
  (opts ++ [NewUnitOption "Service" "MemoryLimit"
              (strconv.Itoa (GoInt.int (resource.Value limit)))], None).

Definition isolatorFuncs : gmap string addIsolatorFunc :=
  {[ "cpu" := addCpuLimit; "memory" := addMemoryLimit ]}.

Definition v1CgroupControllerRWFiles : gmap string (list string) :=
  {[ "memory" := ["memory.limit_in_bytes"];
     "cpu" := ["cpu.cfs_quota_us"];
     "devices" := ["devices.allow"; "devices.deny"] ]}.

(** ** path/filepath *)

Module filepath.

Definition slash : string := "/".

(** One step of the component loop of [Clean]: [stack] holds the kept
    elements, innermost last. *)
Definition cleanStep (rooted : bool) (stack : list string) (elem : string)
  : list string :=
  if String.eqb elem EmptyString then stack
  else if String.eqb elem "." then stack
  else if String.eqb elem ".." then
    match last stack with
    | Some top =>
        if String.eqb top ".." then stack ++ [elem] else removelast stack
    | None => if rooted then stack else stack ++ [elem]
    end
  else stack ++ [elem].

(** [filepath.Clean] on a slash-separated path. *)
Definition Clean (path : string) : string :=
  match path with
  | EmptyString => "."
  | String c _ =>
      let rooted := Ascii.eqb c "/"%char in
      let stack := foldl (cleanStep rooted) [] (Strings.Split path slash) in
      let body := Strings.Join stack slash in
      if rooted then slash +:+ body
      else match body with EmptyString => "." | _ => body end
  end.

(** [filepath.Join]: leading empty elements are dropped, the rest is joined
    and cleaned. *)
Fixpoint Join (elem : list string) : string :=
  match elem with
  | [] => EmptyString
  | EmptyString :: rest => Join rest
  | _ :: _ => Clean (Strings.Join elem slash)
  end.

(** The prefix of [path] up to and including its last slash. *)
Fixpoint uptoLastSlash (path : string) : string :=
  match path with
  | EmptyString => EmptyString
  | String c t =>
      match uptoLastSlash t with
      | EmptyString =>
          if Ascii.eqb c "/"%char then String c EmptyString else EmptyString
      | t' => String c t'
      end
  end.

(** [filepath.Dir]. *)
Definition Dir (path : string) : string := Clean (uptoLastSlash path).

End filepath.

(** ** bufio *)

Definition newline : ascii := "010"%char.
Definition nl : string := String newline EmptyString.
Definition dquote : string := String "034"%char EmptyString.

Module bufio.

(** An [io.Reader]: the bytes it delivers and the error, if any, that ends
    the stream instead of EOF. *)
Record Reader : Type := { rd_data : string; rd_err : option error }.

Definition MaxScanTokenSize : Z := 65536.

Fixpoint dropCR (s : string) : string :=
  match s with
  | EmptyString => EmptyString
  | String c EmptyString =>
      if Ascii.eqb c "013"%char then EmptyString else s
  | String c t => String c (dropCR t)
  end.

Fixpoint dropFinalEmpty (l : list string) : list string :=
  match l with
  | [] => []
  | [EmptyString] => []
  | x :: r => x :: dropFinalEmpty r
  end.

(** The raw lines of [data]: a final empty line is not a token. *)
Definition rawLines (data : string) : list string :=
  dropFinalEmpty (Strings.Split data nl).

(** Tokens delivered before a line that overflows the buffer. *)
Fixpoint untilTooLong (ls : list string) : list string * bool :=
  match ls with
  | [] => ([], false)
  | l :: r =>
      if MaxScanTokenSize <=? Z.of_nat (String.length l) then ([], true)
      else let '(ts, b) := untilTooLong r in (l :: ts, b)
  end.

(** A [bufio.Scanner] with the default [ScanLines] split function, run to
    its end: the texts for which [Scan] returns true, and the final
    [Err()]. *)
Definition scan (f : Reader) : list string * option error :=
  let '(ts, long) := untilTooLong (rawLines (rd_data f)) in
  (map dropCR ts, if long then Some ErrTooLong else rd_err f).

End bufio.

(** ** fmt.Sscanf with the format of the controller table *)

Module fmt.

(** The four operands after the call: an operand the scan did not reach
    keeps the zero value it was declared with. *)
Record scanned : Type :=
  { controller : string; hierarchy : Z; num : Z; enabled : Z;
    assigned : nat; scanErr : option error }.

Fixpoint SkipSpace (s : string) : error + string :=
  match s with
  | EmptyString => inr EmptyString
  | String c t =>
      if Ascii.eqb c newline then inl (errorString "unexpected newline")
      else if Strings.isSpace c then SkipSpace t
      else inr s
  end.

(** The longest prefix without white space, and the rest. *)
Fixpoint token (s : string) : string * string :=
  match s with
  | EmptyString => (EmptyString, EmptyString)
  | String c t =>
      if Strings.isSpace c then (EmptyString, s)
      else let '(tok, rest) := token t in (String c tok, rest)
  end.

(** Verb [%s]. *)
Definition scanString (s : string) : error + (string * string) :=
  match SkipSpace s with
  | inl e => inl e
  | inr EmptyString => inl (errorString "unexpected EOF")
  | inr s1 => inr (token s1)
  end.

Definition isDigit (c : ascii) : bool :=
  let n := Ascii.N_of_ascii c in ((48 <=? n) && (n <=? 57))%N.

Fixpoint digits (s : string) : string * string :=
  match s with
  | EmptyString => (EmptyString, EmptyString)
  | String c t =>
      if isDigit c then let '(d, rest) := digits t in (String c d, rest)
      else (EmptyString, s)
  end.

Fixpoint digitsValue (acc : Z) (d : string) : Z :=
  match d with
  | EmptyString => acc
  | String c t =>
      digitsValue (10 * acc + (Z.of_N (Ascii.N_of_ascii c) - 48)) t
  end.

(** Verb [%d] into an [int]: optional sign, decimal digits, range check of
    [strconv.ParseInt]. *)
Definition scanInt (s : string) : error + (Z * string) :=
  match SkipSpace s with
  | inl e => inl e
  | inr EmptyString => inl (errorString "unexpected EOF")
  | inr (String c t as s1) =>
      let '(neg, s2) :=
        if Ascii.eqb c "-"%char then (true, t)
        else if Ascii.eqb c "+"%char then (false, t)
        else (false, s1) in
      match s2 with
      | EmptyString => inl (errorString "unexpected EOF")
      | _ =>
          match digits s2 with
          | (EmptyString, _) => inl (errorString "expected integer")
          | (d, rest) =>
              let v := if neg then - digitsValue 0 d else digitsValue 0 d in
              if (GoInt.MinInt64 <=? v) && (v <=? GoInt.MaxInt64)
              then inr (v, rest)
              else inl (errorString "value out of range")
          end
      end
  end.

(** A space of the format: end of input, or at least one space. *)
Definition formatSpace (s : string) : error + string :=
  match s with
  | EmptyString => inr EmptyString
  | String c t =>
      if Ascii.eqb c newline
      then inl (errorString "newline in input does not match format")
      else if Strings.isSpace c then
        match SkipSpace t with
        | inl _ => inl (errorString "newline in input does not match format")
        | inr r => inr r
        end
      else inl (errorString "expected space in input to match format")
  end.

Definition stopped (c : string) (h n : Z) (k : nat) (e : error) : scanned :=
  {| controller := c; hierarchy := h; num := n; enabled := 0;
     assigned := k; scanErr := Some e |}.

(** [fmt.Sscanf(line, "%s %d %d %d", &controller, &hierarchy, &num,
    &enabled)] on freshly declared operands. *)
Definition Sscanf (line : string) : scanned :=
  match scanString line with
  | inl e => stopped EmptyString 0 0 0 e
  | inr (c, r1) =>
  match formatSpace r1 with
  | inl e => stopped c 0 0 1 e
  | inr r2 =>
  match scanInt r2 with
  | inl e => stopped c 0 0 1 e
  | inr (h, r3) =>
  match formatSpace r3 with
  | inl e => stopped c h 0 2 e
  | inr r4 =>
  match scanInt r4 with
  | inl e => stopped c h 0 2 e
  | inr (n, r5) =>
  match formatSpace r5 with
  | inl e => stopped c h n 3 e
  | inr r6 =>
  match scanInt r6 with
  | inl e => stopped c h n 3 e
  | inr (en, _) =>
      {| controller := c; hierarchy := h; num := n; enabled := en;
         assigned := 4; scanErr := None |}
  end end end end end end end.

End fmt.

(** ** The environment: kernel, file system and Go runtime *)

Import bufio.

(** A call into the environment together with its answer. *)
Inductive Event : Type :=
| EvStatfs (path : string) (r : error + Z)
| EvOpen (path : string) (r : error + Reader)
| EvStat (path : string) (r : option error)
| EvMkdirAll (path : string) (perm : Z) (r : option error)
| EvMount (source target fstype : string) (flags : Z) (data : string)
          (r : option error)
| EvSymlink (oldname newname : string) (r : option error)
| EvReadFile (path : string) (r : error + string)
| EvWriteFile (path data : string) (perm : Z) (r : option error)
| EvRun (args : list string) (r : option error)
| EvGetpid (pid : Z)
| EvStderr (text : string).

(** The environment answers a call from the history of earlier calls, so
    that an answer may change over time.  [rangeCgroups] and
    [rangeSymlinks] give the order in which a [range] statement visits a
    map; it is some enumeration of the entries. *)
Record Env : Type :=
  { k_Statfs : list Event -> string -> error + Z;
    k_Open : list Event -> string -> error + Reader;
    k_Stat : list Event -> string -> option error;
    k_MkdirAll : list Event -> string -> Z -> option error;
    k_Mount :
      list Event -> string -> string -> string -> Z -> string -> option error;
    k_Symlink : list Event -> string -> string -> option error;
    k_ReadFile : list Event -> string -> error + string;
    k_WriteFile : list Event -> string -> string -> Z -> option error;
    k_Run : list Event -> list string -> option error;
    k_Getpid : list Event -> Z;
    rangeCgroups :
      list Event -> gmap Z (list string) -> list (Z * list string);
    rangeSymlinks :
      list Event -> gmap string string -> list (string * string);
    rangeCgroups_perm : forall tr m, rangeCgroups tr m ≡ₚ map_to_list m;
    rangeSymlinks_perm : forall tr m, rangeSymlinks tr m ≡ₚ map_to_list m }.

(** A reference to a [map[int][]string] object; [None] is the nil map. *)
Definition mapRef : Type := option positive.

(** The state a call runs in: the history of environment calls, and the
    store of [map[int][]string] objects, which Go passes by reference. *)
Record World : Type :=
  { trace : list Event; maps : gmap positive (gmap Z (list string)) }.

Definition M (A : Type) : Type := Env -> World -> A * World.

Definition ret {A} (a : A) : M A := fun _ w => (a, w).

Definition bind {A B} (c : M A) (f : A -> M B) : M B :=
  fun k w => let '(a, w') := c k w in f a k w'.

Notation "'let!' x ':=' c1 'in' c2" := (bind c1 (fun x => c2))
  (at level 10, x name, c1 at level 100, c2 at level 200).
Notation "'let!' ' p ':=' c1 'in' c2" :=
  (bind c1 (fun x => match x with p => c2 end))
  (at level 10, p pattern, c1 at level 100, c2 at level 200).
Notation "'do!' c1 'in' c2" := (bind c1 (fun _ => c2))
  (at level 10, c1 at level 100, c2 at level 200).

(** Performs a call: the environment answers it and the trace grows. *)
Definition call {A} (answer : Env -> list Event -> A) (ev : A -> Event)
  : M A :=
  fun k w =>
    let r := answer k (trace w) in
    (r, {| trace := trace w ++ [ev r]; maps := maps w |}).

Definition emit (ev : Event) : M unit :=
  fun _ w => (tt, {| trace := trace w ++ [ev]; maps := maps w |}).

Module env.

Definition Statfs (path : string) : M (error + Z) :=
  call (fun k tr => k_Statfs k tr path) (EvStatfs path).

Definition Open (path : string) : M (error + Reader) :=
  call (fun k tr => k_Open k tr path) (EvOpen path).

Definition Stat (path : string) : M (option error) :=
  call (fun k tr => k_Stat k tr path) (EvStat path).

Definition MkdirAll (path : string) (perm : Z) : M (option error) :=
  call (fun k tr => k_MkdirAll k tr path perm) (EvMkdirAll path perm).

Definition Mount (source target fstype : string) (flags : Z) (data : string)
  : M (option error) :=
  call (fun k tr => k_Mount k tr source target fstype flags data)
       (EvMount source target fstype flags data).

Definition Symlink (oldname newname : string) : M (option error) :=
  call (fun k tr => k_Symlink k tr oldname newname)
       (EvSymlink oldname newname).

Definition ReadFile (path : string) : M (error + string) :=
  call (fun k tr => k_ReadFile k tr path) (EvReadFile path).

Definition WriteFile (path data : string) (perm : Z) : M (option error) :=
  call (fun k tr => k_WriteFile k tr path data perm)
       (EvWriteFile path data perm).

Definition Run (args : list string) : M (option error) :=
  call (fun k tr => k_Run k tr args) (EvRun args).

Definition Getpid : M Z := call (fun k tr => k_Getpid k tr) EvGetpid.

Definition Stderr (text : string) : M unit := emit (EvStderr text).

End env.

(** *** The store of hierarchy maps *)

Definition deref (p : mapRef) (w : World) : gmap Z (list string) :=
  match p with
  | Some l => default ∅ (maps w !! l)
  | None => ∅
  end.

(** [make(map[int][]string)]. *)
Definition makeMap : M positive := fun _ w =>
  let l := fresh (dom (maps w)) in
  (l, {| trace := trace w; maps := <[l := ∅]> (maps w) |}).

(** [v, ok := m[key]]. *)
Definition mapLoad (l : positive) (key : Z) : M (option (list string)) :=
  fun _ w => (default ∅ (maps w !! l) !! key, w).

(** [m[key] = v]. *)
Definition mapStore (l : positive) (key : Z) (v : list string) : M unit :=
  fun _ w =>
    (tt, {| trace := trace w;
            maps := <[l := <[key := v]> (default ∅ (maps w !! l))]> (maps w) |}).

(** [for _, cs := range cgroups]: the entries in the order of this visit. *)
Definition rangeMap (p : mapRef) : M (list (Z * list string)) :=
  fun k w => (rangeCgroups k (trace w) (deref p w), w).

(** [for ln, tgt := range symlinks]: the entries in the order of this
    visit. *)
Definition rangeLinks (symlinks : gmap string string)
  : M (list (string * string)) :=
  fun k w => (rangeSymlinks k (trace w) symlinks, w).

(** A loop whose body may return from the function with an error. *)
Fixpoint forEach {A} (l : list A) (body : A -> M (option error))
  : M (option error) :=
  match l with
  | [] => ret None
  | x :: rest =>
      let! err := body x in
      match err with
      | Some e => ret (Some e)
      | None => forEach rest body
      end
  end.

(** A loop whose body cannot leave the function. *)
Fixpoint forEach_ {A} (l : list A) (body : A -> M unit) : M unit :=
  match l with
  | [] => ret tt
  | x :: rest => do! body x in forEach_ rest body
  end.

(** [if err := c; err != nil { return wrap(err) }] followed by [k]. *)
Definition orReturn (c : M (option error)) (wrap : error -> error)
    (k : M (option error)) : M (option error) :=
  let! err := c in
  match err with
  | Some e => ret (Some (wrap e))
  | None => k
  end.

Notation "'try!' c1 'orelse' f 'in' c2" := (orReturn c1 f c2)
  (at level 10, c1 at level 100, f at level 9, c2 at level 200).

(** The result of a call that may panic instead of returning. *)
Inductive outcome (A : Type) : Type :=
| Returns (a : A)
| Panics.
Arguments Returns {A} a.
Arguments Panics {A}.

(** File modes, written in octal in the source. *)
Definition perm0600 : Z := 384.
Definition perm0644 : Z := 420.
Definition perm0700 : Z := 448.
Definition perm0755 : Z := 493.

(** ** The package *)

Definition mountFsRO (mountPoint : string) : M (option error) :=
  let flags :=
    Z.lor syscall.MS_BIND
      (Z.lor syscall.MS_REMOUNT
         (Z.lor syscall.MS_NOSUID
            (Z.lor syscall.MS_NOEXEC
               (Z.lor syscall.MS_NODEV syscall.MS_RDONLY)))) in
  try! env.Mount mountPoint mountPoint EmptyString flags EmptyString
  orelse (wrappedError (Errorf "error remounting RO %q" [AString mountPoint]))
  in ret None.

Definition IsCgroupUnified (root : string) : M (bool * option error) :=
  let cgroupFsPath := filepath.Join [root; "/sys/fs/cgroup"] in
  let! r := env.Statfs cgroupFsPath in
  match r with
  | inl err => ret (false, Some err)
  | inr statfsType => ret (statfsType =? Cgroup2fsMagicNumber, None)
  end.

Definition GetEnabledV2Controllers : M (list string * option error) :=
  let! r := env.Open "/sys/fs/cgroup/cgroup.controllers" in
  match r with
  | inl err => ret ([], Some err)
  | inr controllersFile =>
      match scan controllersFile with
      | (text :: _, _) => ret (Strings.Split text " ", None)
      | ([], Some err) => ret ([], Some err)
      | ([], None) => ret (Strings.Split EmptyString " ", None)
      end
  end.

(** The loop over the control files of a v1 controller: false as soon as
    one of them does not exist. *)
Fixpoint allFilesExist (isolator : string) (files : list string) : M bool :=
  match files with
  | [] => ret true
  | f :: rest =>
      let isolatorPath := filepath.Join ["/sys/fs/cgroup/"; isolator; f] in
      let! err := env.Stat isolatorPath in
      if os.IsNotExist err then ret false
      else allFilesExist isolator rest
  end.

Definition IsIsolatorSupported (isolator : string) : M (bool * option error) :=
  let! '(isUnified, err) := IsCgroupUnified "/" in
  match err with
  | Some e =>
      ret (false,
           Some (wrappedError (errorString "error determining cgroup version") e))
  | None =>
      if isUnified then
        let! '(controllers, err) := GetEnabledV2Controllers in
        match err with
        | Some e =>
            ret (false,
                 Some (wrappedError
                         (errorString "error determining enabled controllers") e))
        | None => ret (existsb (fun c => String.eqb c isolator) controllers, None)
        end
      else
        match v1CgroupControllerRWFiles !! isolator with
        | Some files =>
            let! ok := allFilesExist isolator files in ret (ok, None)
        | None => ret (false, None)
        end
  end.

(** The diagnostic of a skipped isolator. *)
Definition skipWarning (isolator : string) : string :=
  "warning: resource/" +:+ isolator +:+
  " isolator set but support disabled in the kernel, skipping" +:+ nl.

Definition MaybeAddIsolator (opts : list UnitOption) (isolator : string)
    (limit : option Quantity) : M (outcome (list UnitOption * option error)) :=
  match limit with
  | None => ret (Returns (opts, None))
  | Some q =>
      let! '(isSupported, err) := IsIsolatorSupported isolator in
      match err with
      | Some e => ret (Returns ([], Some e))
      | None =>
          if isSupported then
            match isolatorFuncs !! isolator with
            | None => ret Panics (* call of a nil function value *)
            | Some f =>
                match f opts q with
                | (_, Some e) => ret (Returns ([], Some e))
                | (opts', None) => ret (Returns (opts', None))
                end
            end
          else
            do! env.Stderr (skipWarning isolator) in
            ret (Returns (opts, None))
      end
  end.

(** *** cgroup v2 *)

Definition parseV2ProcCgroupInfo (procCgroupInfoPath : string)
  : M (string * option error) :=
  let! r := env.Open procCgroupInfoPath in
  match r with
  | inl err =>
      ret (EmptyString,
           Some (wrappedError (errorString "error opening /proc/self/cgroup") err))
  | inr cg =>
      let text := hd EmptyString (fst (scan cg)) in
      let parts := Strings.SplitN text ":" 3 in
      if Z.of_nat (length parts) <? 3
      then ret (EmptyString, Some (Errorf "error parsing /proc/self/cgroup" []))
      else ret (nth 2 parts EmptyString, None)
  end.

Definition GetOwnV2CgroupPath : M (string * option error) :=
  parseV2ProcCgroupInfo "/proc/self/cgroup".

Definition GetV2CgroupPathByPid (pid : Z) : M (string * option error) :=
  parseV2ProcCgroupInfo ("/proc/" +:+ strconv.Itoa pid +:+ "/cgroup").

(** *** cgroup v1 *)

(** The body of the loop of [parseV1Cgroups] for one line of the table. *)
Definition parseV1Line (cgroups : positive) (text : string) : M unit :=
  let r := fmt.Sscanf text in
  if fmt.enabled r =? 1 then
    let! cur := mapLoad cgroups (fmt.hierarchy r) in
    match cur with
    | None => mapStore cgroups (fmt.hierarchy r) [fmt.controller r]
    | Some cs => mapStore cgroups (fmt.hierarchy r) (cs ++ [fmt.controller r])
    end
  else ret tt.

Definition parseV1Cgroups (f : Reader) : M (mapRef * option error) :=
  let '(lines, scErr) := scan f in
  (* the first line is a comment *)
  let! cgroups := makeMap in
  do! forEach_ (tail lines) (parseV1Line cgroups) in
  match scErr with
  | Some err => ret (None, Some err)
  | None => ret (Some cgroups, None)
  end.

Definition GetEnabledV1Cgroups : M (mapRef * option error) :=
  let! r := env.Open "/proc/cgroups" in
  match r with
  | inl err => ret (None, Some err)
  | inr cgroupsFile =>
      let! '(cgroups, err) := parseV1Cgroups cgroupsFile in
      match err with
      | Some e =>
          ret (None, Some (wrappedError (errorString "error parsing /proc/cgroups") e))
      | None => ret (cgroups, None)
      end
  end.

Definition GetV1ControllerDirs (cgroups : mapRef) : M (list string) :=
  let! entries := rangeMap cgroups in
  ret (map (fun '(_, cs) => Strings.Join cs ",") entries).

(** The body of the loop of [getV1ControllerSymlinks] for one hierarchy. *)
Definition addSymlinks (symlinks : gmap string string) (cs : list string)
  : gmap string string :=
  if 1 <? Z.of_nat (length cs) then
    let tgt := Strings.Join cs "," in
    foldl (fun sl ln => <[ln := tgt]> sl) symlinks cs
  else symlinks.

Definition getV1ControllerSymlinks (cgroups : mapRef)
  : M (gmap string string) :=
  let! entries := rangeMap cgroups in
  ret (foldl (fun symlinks '(_, cs) => addSymlinks symlinks cs) ∅ entries).

Fixpoint firstRWFiles (parts : list string) : list string :=
  match parts with
  | [] => []
  | p :: rest =>
      match v1CgroupControllerRWFiles !! p with
      | Some files => files ++ ["cgroup.procs"]
      | None => firstRWFiles rest
      end
  end.

Definition getV1ControllerRWFiles (controller : string) : list string :=
  firstRWFiles (Strings.Split controller ",").

(** The scanning loop of [parseV1CgroupController]. *)
Fixpoint findV1Controller (lines : list string) (controller : string)
  : list string * option error :=
  match lines with
  | [] => ([], Some (Errorf "controller %q not found" [AString controller]))
  | text :: rest =>
      let parts := Strings.SplitN text ":" 3 in
      if Z.of_nat (length parts) <? 3
      then ([], Some (Errorf "error parsing /proc/self/cgroup" []))
      else
        let controllerParts := Strings.Split (nth 1 parts EmptyString) "," in
        if existsb (fun c => String.eqb c controller) controllerParts
        then (parts, None)
        else findV1Controller rest controller
  end.

Definition parseV1CgroupController (cgroupPath controller : string)
  : M (list string * option error) :=
  let! r := env.Open cgroupPath in
  match r with
  | inl err =>
      ret ([], Some (wrappedError (errorString "error opening /proc/self/cgroup") err))
  | inr cg => ret (findV1Controller (fst (scan cg)) controller)
  end.

Definition GetOwnV1CgroupPath (controller : string) : M (string * option error) :=
  let! '(parts, err) := parseV1CgroupController "/proc/self/cgroup" controller in
  match err with
  | Some e => ret (EmptyString, Some e)
  | None => ret (nth 2 parts EmptyString, None)
  end.

Definition GetV1CgroupPathByPid (pid : Z) (controller : string)
  : M (string * option error) :=
  let! '(parts, err) :=
    parseV1CgroupController ("/proc/" +:+ strconv.Itoa pid +:+ "/cgroup")
      controller in
  match err with
  | Some e => ret (EmptyString, Some e)
  | None => ret (nth 2 parts EmptyString, None)
  end.

Definition JoinV1Subcgroup (controller subcgroup : string) : M (option error) :=
  let subcgroupPath := filepath.Join ["/sys/fs/cgroup"; controller; subcgroup] in
  try! env.MkdirAll subcgroupPath perm0600
  orelse (wrappedError (Errorf "error creating %q subcgroup" [AString subcgroup]))
  in
  let! pid := env.Getpid in
  let pidBytes := strconv.Itoa pid in
  try! env.WriteFile (filepath.Join [subcgroupPath; "cgroup.procs"]) pidBytes
         perm0600
  orelse (wrappedError
            (Errorf "error adding ourselves to the %q subcgroup"
               [AString subcgroup]))
  in ret None.

(** The body of the loop of [fixCpusetKnobs] for one knob. *)
Definition fixCpusetKnob (cgroupPathFix knob : string) : M unit :=
  let parentFile := filepath.Join [filepath.Dir cgroupPathFix; knob] in
  let childFile := filepath.Join [cgroupPathFix; knob] in
  let! r := env.ReadFile childFile in
  match r with
  | inl _ => ret tt
  | inr data =>
      (* If the file is already configured, don't change it *)
      if negb (String.eqb (Strings.TrimSpace data) EmptyString) then ret tt
      else
        let! r := env.ReadFile parentFile in
        match r with
        | inr data =>
            do! env.WriteFile childFile data perm0644 in
            do! env.WriteFile childFile data perm0644 in
            ret tt
        | inl _ => ret tt
        end
  end.

Definition fixCpusetKnobs (cpusetPath : string) : M unit :=
  let cgroupPathFix := filepath.Join [cpusetPath; "system.slice"] in
  do! env.MkdirAll cgroupPathFix perm0755 in
  let knobs := ["cpuset.mems"; "cpuset.cpus"] in
  forEach_ knobs (fixCpusetKnob cgroupPathFix).

Definition IsV1ControllerMounted (c : string) : M bool :=
  let cgroupProcsPath := filepath.Join ["/sys/fs/cgroup"; c; "cgroup.procs"] in
  let! err := env.Stat cgroupProcsPath in
  match err with
  | Some _ => ret false
  | None => ret true
  end.

(** [err != nil && err != syscall.EBUSY]: the error that remains. *)
Definition exceptEBUSY (err : option error) : option error :=
  match err with
  | Some e => if isEBUSY e then None else Some e
  | None => None
  end.

Definition noSuidExecDev : Z :=
  Z.lor syscall.MS_NOSUID (Z.lor syscall.MS_NOEXEC syscall.MS_NODEV).

(** The body of the controller loop of [CreateV1Cgroups]. *)
Definition mountController (root c : string) : M (option error) :=
  let cPath := filepath.Join [root; "/sys/fs/cgroup"; c] in
  try! env.MkdirAll cPath perm0700 orelse id in
  let flags := noSuidExecDev in
  try! env.Mount "cgroup" cPath "cgroup" flags c
  orelse (wrappedError (Errorf "error mounting %q" [AString cPath])) in
  ret None.

(** The body of the symlink loop of [CreateV1Cgroups]. *)
Definition makeSymlink (cgroupTmpfs : string) (entry : string * string)
  : M (option error) :=
  let '(ln, tgt) := entry in
  let lnPath := filepath.Join [cgroupTmpfs; ln] in
  try! env.Symlink tgt lnPath
  orelse (wrappedError (errorString "error creating symlink")) in
  ret None.

Definition CreateV1Cgroups (root : string) (enabledCgroups : mapRef)
    (mountContext : string) : M (option error) :=
  let! controllers := GetV1ControllerDirs enabledCgroups in
  let sys := filepath.Join [root; "/sys"] in
  try! env.MkdirAll sys perm0700 orelse id in
  let flags := noSuidExecDev in
  (* If we're mounting the host cgroups, /sys is probably mounted so we
     ignore EBUSY *)
  try! (let! err := env.Mount "sysfs" sys "sysfs" flags EmptyString in
        ret (exceptEBUSY err))
  orelse (wrappedError (Errorf "error mounting %q" [AString sys])) in
  let cgroupTmpfs := filepath.Join [root; "/sys/fs/cgroup"] in
  try! env.MkdirAll cgroupTmpfs perm0700 orelse id in
  let flags := Z.lor noSuidExecDev syscall.MS_STRICTATIME in
  let options :=
    if negb (String.eqb mountContext EmptyString)
    then "mode=755,context=" +:+ dquote +:+ mountContext +:+ dquote
    else "mode=755" in
  try! env.Mount "tmpfs" cgroupTmpfs "tmpfs" flags options
  orelse (wrappedError (Errorf "error mounting %q" [AString cgroupTmpfs])) in
  (* Mount controllers *)
  try! forEach controllers (mountController root) orelse id in
  (* Create symlinks for combined controllers *)
  let! symlinks := getV1ControllerSymlinks enabledCgroups in
  let! links := rangeLinks symlinks in
  try! forEach links (makeSymlink cgroupTmpfs) orelse id in
  let systemdControllerPath := filepath.Join [root; "/sys/fs/cgroup/systemd"] in
  try! env.MkdirAll systemdControllerPath perm0700 orelse id in
  (* Bind-mount cgroup tmpfs filesystem read-only *)
  mountFsRO cgroupTmpfs.

(** The body of the loop over the RW files of one app cgroup. *)
Definition bindKnob (appCgroup f : string) : M (option error) :=
  let cgroupFilePath := filepath.Join [appCgroup; f] in
  (* the file may not be there if kernel doesn't support the feature *)
  let! err := env.Stat cgroupFilePath in
  if os.IsNotExist err then ret None
  else
    try! env.Mount cgroupFilePath cgroupFilePath EmptyString syscall.MS_BIND
           EmptyString
    orelse (wrappedError
              (Errorf "error bind mounting %q" [AString cgroupFilePath])) in
    ret None.

Definition remountService (c subcgroupPath serviceName : string)
  : M (option error) :=
  let appCgroup := filepath.Join [subcgroupPath; serviceName] in
  try! env.MkdirAll appCgroup perm0755 orelse id in
  forEach (getV1ControllerRWFiles c) (bindKnob appCgroup).

Definition remountController (cgroupTmpfs subcgroup : string)
    (serviceNames : list string) (c : string) : M (option error) :=
  let cPath := filepath.Join [cgroupTmpfs; c] in
  let subcgroupPath := filepath.Join [cPath; subcgroup; "system.slice"] in
  (* Workaround for https://github.com/coreos/rkt/issues/1210 *)
  do! (if String.eqb c "cpuset" then fixCpusetKnobs cPath else ret tt) in
  try! forEach serviceNames (remountService c subcgroupPath) orelse id in
  (* Re-mount controller read-only *)
  mountFsRO cPath.

Definition RemountV1CgroupsRO (root : string) (enabledCgroups : mapRef)
    (subcgroup : string) (serviceNames : list string) : M (option error) :=
  let! controllers := GetV1ControllerDirs enabledCgroups in
  let cgroupTmpfs := filepath.Join [root; "/sys/fs/cgroup"] in
  let sysPath := filepath.Join [root; "/sys"] in
  try! forEach controllers (remountController cgroupTmpfs subcgroup serviceNames)
  orelse id in
  (* Bind-mount sys filesystem read-only *)
  mountFsRO sysPath.

(** The body of the file loop of [RemountCgroupKnobsRW]: both mounts go
    through the enter command. *)
Definition enterRemountKnob (enterCmd : list string) (appCgroup f : string)
  : M (option error) :=
  let cgroupFilePath := filepath.Join [appCgroup; f] in
  let! err := env.Stat cgroupFilePath in
  if os.IsNotExist err then ret None
  else
    let argsMountBind :=
      enterCmd ++ ["/bin/mount"; "--bind"; cgroupFilePath; cgroupFilePath] in
    try! env.Run argsMountBind orelse id in
    let argsRemountRW :=
      enterCmd ++ ["/bin/mount"; "-o"; "remount,bind,rw"; cgroupFilePath] in
    try! env.Run argsRemountRW orelse id in
    ret None.

Definition remountKnobsOf (subcgroup serviceName : string)
    (enterCmd : list string) (c : string) : M (option error) :=
  let cPath := filepath.Join ["/sys/fs/cgroup"; c] in
  let subcgroupPath := filepath.Join [cPath; subcgroup; "system.slice"] in
  let appCgroup := filepath.Join [subcgroupPath; serviceName] in
  try! env.MkdirAll appCgroup perm0755 orelse id in
  forEach (getV1ControllerRWFiles c) (enterRemountKnob enterCmd appCgroup).

Definition RemountCgroupKnobsRW (enabledCgroups : mapRef)
    (subcgroup serviceName : string) (enterCmd : list string)
  : M (option error) :=
  let! controllers := GetV1ControllerDirs enabledCgroups in
  forEach controllers (remountKnobsOf subcgroup serviceName enterCmd).

(** Running a call from a given state. *)
Definition initial : World := {| trace := []; maps := ∅ |}.

Definition result {A} (c : M A) (k : Env) (w : World) : A := fst (c k w).
Definition final {A} (c : M A) (k : Env) (w : World) : World := snd (c k w).
Definition events {A} (c : M A) (k : Env) (w : World) : list Event :=
  drop (length (trace w)) (trace (snd (c k w))).

(** ** Concrete environments

    An environment whose answers do not change over time, given by what
    [statfs] reports, the content of the readable files, the files [stat]
    finds, and the answer to a mount by file-system type and target.
    Directories and symlinks can always be made, and [range] visits a map
    in the order of its keys. *)
Definition staticEnv (statfs : string -> error + Z)
    (files : string -> error + string) (stat : string -> option error)
    (mount : string -> string -> option error) : Env :=
  {| k_Statfs := fun _ path => statfs path;
     k_Open := fun _ path =>
       match files path with
       | inl e => inl e
       | inr data => inr {| rd_data := data; rd_err := None |}
       end;
     k_Stat := fun _ path => stat path;
     k_MkdirAll := fun _ _ _ => None;
     k_Mount := fun _ _ target fstype _ _ => mount fstype target;
     k_Symlink := fun _ _ _ => None;
     k_ReadFile := fun _ path => files path;
     k_WriteFile := fun _ _ _ _ => None;
     k_Run := fun _ _ => None;
     k_Getpid := fun _ => 1;
     rangeCgroups := fun _ m => map_to_list m;
     rangeSymlinks := fun _ m => map_to_list m;
     rangeCgroups_perm := fun _ m => Permutation_refl (map_to_list m);
     rangeSymlinks_perm := fun _ m => Permutation_refl (map_to_list m) |}.

Definition noFile (path : string) : error + string :=
  inl (PathError "open" path syscall.ENOENT).

Definition tmpfsMagic : Z := 0x01021994.

(** A v1 host on which every control file exists. *)
Definition v1Host : Env :=
  staticEnv (fun _ => inr tmpfsMagic) noFile (fun _ => None) (fun _ _ => None).


(** A v2 host that enables the given controllers. *)
Definition v2Host (controllers : string) : Env :=
  staticEnv (fun _ => inr Cgroup2fsMagicNumber)
    (fun path =>
       if String.eqb path "/sys/fs/cgroup/cgroup.controllers"
       then inr (controllers +:+ nl) else noFile path)
    (fun _ => None) (fun _ _ => None).

(** A host that serves one file. *)
Definition oneFile (name data : string) : Env :=
  staticEnv (fun _ => inr tmpfsMagic)
    (fun path => if String.eqb path name then inr data else noFile path)
    (fun _ => None) (fun _ _ => None).

(** The options the isolator translator produces. *)
Definition quotaOption (percent : Z) : UnitOption :=
  NewUnitOption "Service" "CPUQuota" (strconv.Itoa percent +:+ "%").

Definition memoryOption (bytes : Z) : UnitOption :=
  NewUnitOption "Service" "MemoryLimit" (strconv.Itoa bytes).

(** ** How a call changes the state *)

(** A call is read-only when it leaves every map of the store as it was;
    the trace only grows. *)
Definition readOnly {A} (c : M A) : Prop :=
  forall k w,
    maps (snd (c k w)) = maps w /\ trace w `prefix_of` trace (snd (c k w)).



(** ** The controller table, declaratively *)

(** The controllers that the lines of the table enable in hierarchy [h], in
    the order of the lines. *)
Definition enabledIn (h : Z) (lines : list string) : list string :=
  map fmt.controller
    (filter (fun r => fmt.enabled r = 1 /\ fmt.hierarchy r = h)
       (map fmt.Sscanf lines)).

(** The entry of a hierarchy once the controllers [cs] are added to it. *)
Definition extend (entry : option (list string)) (cs : list string)
  : option (list string) :=
  match cs with
  | [] => entry
  | _ => Some (default [] entry ++ cs)
  end.

(** The effect of one line of the table on the map. *)
Definition addLine (cgroups : gmap Z (list string)) (text : string)
  : gmap Z (list string) :=
  let r := fmt.Sscanf text in
  if fmt.enabled r =? 1
  then <[fmt.hierarchy r := default [] (cgroups !! fmt.hierarchy r) ++ [fmt.controller r]]> cgroups
  else cgroups.

(** A controller table as the kernel prints it, with a disabled controller
    and a line that does not parse. *)
Definition sampleTable : string :=
  "#subsys_name hierarchy num_cgroups enabled" +:+ nl +:+
  "cpuset 2 1 1" +:+ nl +:+
  "cpu 3 1 1" +:+ nl +:+
  "cpuacct 3 1 1" +:+ nl +:+
  "memory 4 1 0" +:+ nl +:+
  "garbage" +:+ nl.

(** ** Membership files, declaratively *)

(** [strings.Contains] for a non-empty separator. *)
Definition Contains (s sep : string) : bool :=
  match Strings.cut s sep with
  | Some _ => true
  | None => false
  end.

(** The line has the three colon-separated fields the parser requires. *)
Definition hasThreeFields (text : string) : bool :=
  negb (Z.of_nat (length (Strings.SplitN text ":" 3)) <? 3).

(** The comma-joined controller list of the line names the controller. *)
Definition listsController (text controller : string) : bool :=
  existsb (fun c => String.eqb c controller)
    (Strings.Split (nth 1 (Strings.SplitN text ":" 3) EmptyString) ",").

(** The trailing path segment: the third field, colons included. *)
Definition pathField (text : string) : string :=
  nth 2 (Strings.SplitN text ":" 3) EmptyString.

(** A line before the one that answers: well formed, another controller. *)
Definition passedOver (controller text : string) : Prop :=
  hasThreeFields text = true /\ listsController text controller = false.

(** The membership file of this process ([None]) or of a process id. *)
Definition membershipFile (pid : option Z) : string :=
  match pid with
  | None => "/proc/self/cgroup"
  | Some p => "/proc/" +:+ strconv.Itoa p +:+ "/cgroup"
  end.

(** [GetOwnV1CgroupPath] and [GetV1CgroupPathByPid] as one resolver. *)
Definition resolveV1CgroupPath (pid : option Z) (controller : string)
  : M (string * option error) :=
  match pid with
  | None => GetOwnV1CgroupPath controller
  | Some p => GetV1CgroupPathByPid p controller
  end.

(** Membership files: a well-formed one, and one that starts with a line
    without colons. *)
Definition sampleMembership : string :=
  "5:memory:/m" +:+ nl +:+ "4:cpu,cpuacct:/machine.slice/a:b" +:+ nl.

Definition brokenMembership : string :=
  "garbage" +:+ nl +:+ "4:cpu,cpuacct:/machine.slice" +:+ nl.

(** ** The cpuset workaround, declaratively *)

Definition isWriteFile (ev : Event) : bool :=
  match ev with
  | EvWriteFile _ _ _ _ => true
  | _ => false
  end.

Definition isFileAccess (ev : Event) : bool :=
  match ev with
  | EvReadFile _ _ | EvWriteFile _ _ _ _ => true
  | _ => false
  end.

(** The paths the workaround uses for a knob. *)
Definition sliceOf (cpusetPath : string) : string :=
  filepath.Join [cpusetPath; "system.slice"].
Definition childKnob (cpusetPath knob : string) : string :=
  filepath.Join [sliceOf cpusetPath; knob].
Definition parentKnob (cpusetPath knob : string) : string :=
  filepath.Join [filepath.Dir (sliceOf cpusetPath); knob].

(** The state in which the knob is looked at: after the slice directory was
    made and, for the second knob, after the first knob was handled. *)
Definition beforeKnobs (cpusetPath : string) (k : Env) (w : World) : World :=
  final (env.MkdirAll (sliceOf cpusetPath) perm0755) k w.

Definition betweenKnobs (cpusetPath : string) (k : Env) (w : World) : World :=
  final (fixCpusetKnob (sliceOf cpusetPath) "cpuset.mems") k
    (beforeKnobs cpusetPath k w).

(** What the bulk carver does for a controller directory after the cpuset
    pre-step: the RW windows of the services, then the read-only remount. *)
Definition carveController (cgroupTmpfs subcgroup : string)
    (serviceNames : list string) (c : string) : M (option error) :=
  let cPath := filepath.Join [cgroupTmpfs; c] in
  let subcgroupPath := filepath.Join [cPath; subcgroup; "system.slice"] in
  try! forEach serviceNames (remountService c subcgroupPath) orelse id in
  mountFsRO cPath.

(** A cpuset hierarchy mounted at the directory [dir] of /sys/fs/cgroup,
    whose slice has empty knobs; the parent knobs are configured when
    [parents] is true and cannot be read otherwise. *)
Definition cpusetHost (dir : string) (parents : bool) : Env :=
  let top := "/sys/fs/cgroup/" +:+ dir in
  staticEnv (fun _ => inr tmpfsMagic)
    (fun path =>
       if String.eqb path (top +:+ "/system.slice/cpuset.mems")
       then inr nl
       else if String.eqb path (top +:+ "/system.slice/cpuset.cpus")
       then inr nl
       else if parents && String.eqb path (top +:+ "/cpuset.mems")
       then inr ("0" +:+ nl)
       else if parents && String.eqb path (top +:+ "/cpuset.cpus")
       then inr ("0-3" +:+ nl)
       else noFile path)
    (fun _ => None) (fun _ _ => None).

(** A store that holds one hierarchy map, at reference 1. *)
Definition storeOf (cgroups : gmap Z (list string)) : World :=
  {| trace := []; maps := {[ 1%positive := cgroups ]} |}.

Definition theMap : mapRef := Some 1%positive.

(** ** Mount failures, declaratively *)

(** A mount that failed and is not tolerated: its target and its error.
    The one tolerated failure is EBUSY from the sysfs mount. *)
Definition mountFailure (ev : Event) : option (string * error) :=
  match ev with
  | EvMount _ target fstype _ _ (Some e) =>
      if String.eqb fstype "sysfs" && isEBUSY e then None else Some (target, e)
  | _ => None
  end.

(** Every mount failure among the events is the last event, and the result
    is its error wrapped in a message that carries the target path. *)
Definition mountAborts (evs : list Event) (res : option error) : Prop :=
  forall i ev target e,
    evs !! i = Some ev -> mountFailure ev = Some (target, e) ->
    S i = length evs /\
    exists format, res = Some (wrappedError (Errorf format [AString target]) e).

Definition abortsOnMountFailure (c : M (option error)) : Prop :=
  readOnly c /\ forall k w, mountAborts (events c k w) (result c k w).

(** A host on which /sys is already mounted (the sysfs mount answers
    EBUSY); mounting file systems of type [denied] is not permitted. *)
Definition EPERM : Z := 1.

Definition busyHost (denied : string) : Env :=
  staticEnv (fun _ => inr tmpfsMagic) noFile (fun _ => None)
    (fun fstype _ =>
       if String.eqb fstype "sysfs" then Some (Errno syscall.EBUSY)
       else if String.eqb fstype denied then Some (Errno EPERM)
       else None).

(** Two hierarchies, one of them joint. *)
Definition sampleHierarchies : gmap Z (list string) :=
  {[ 2 := ["cpuset"]; 3 := ["cpu"; "cpuacct"] ]}.

(** ** Directory names and symlinks, declaratively *)

(** The directory name of a hierarchy. *)
Definition dirName (cs : list string) : string := Strings.Join cs ",".

(** A hierarchy with more than one controller. *)
Definition joint (cs : list string) : Prop := (1 < length cs)%nat.

(** No controller is a member of two different joint hierarchies. *)
Definition disjointJoint (m : gmap Z (list string)) : Prop :=
  forall h1 cs1 h2 cs2 ln,
    m !! h1 = Some cs1 -> m !! h2 = Some cs2 ->
    joint cs1 -> joint cs2 -> ln ∈ cs1 -> ln ∈ cs2 -> h1 = h2.

(** The symlink [ln -> tgt] belongs to a joint hierarchy of the map. *)
Definition linkOf (m : gmap Z (list string)) (ln tgt : string) : Prop :=
  exists h cs, m !! h = Some cs /\ joint cs /\ ln ∈ cs /\ tgt = dirName cs.

(** A map in which cpu is listed in two joint hierarchies. *)
Definition overlappingHierarchies : gmap Z (list string) :=
  {[ 1 := ["cpu"; "cpuacct"]; 2 := ["cpu"; "memory"] ]}.

(** The symlink table after the given visits, starting from [sl]. *)
Definition symlinkTable (entries : list (Z * list string))
    (sl : gmap string string) : gmap string string :=
  foldl (fun symlinks '(_, cs) => addSymlinks symlinks cs) sl entries.

(** The calls of a successful build, step by step. *)
Definition readOnlyFlags : Z :=
  Z.lor syscall.MS_BIND
    (Z.lor syscall.MS_REMOUNT
       (Z.lor syscall.MS_NOSUID
          (Z.lor syscall.MS_NOEXEC
             (Z.lor syscall.MS_NODEV syscall.MS_RDONLY)))).

Definition tmpfsOptions (mountContext : string) : string :=
  if negb (String.eqb mountContext EmptyString)
  then "mode=755,context=" +:+ dquote +:+ mountContext +:+ dquote
  else "mode=755".

Definition controllerEvents (root c : string) : list Event :=
  let cPath := filepath.Join [root; "/sys/fs/cgroup"; c] in
  [EvMkdirAll cPath perm0700 None;
   EvMount "cgroup" cPath "cgroup" noSuidExecDev c None].

Definition symlinkEvent (cgroupTmpfs : string) (entry : string * string)
  : Event :=
  EvSymlink (snd entry) (filepath.Join [cgroupTmpfs; fst entry]) None.

Definition buildEvents (root mountContext : string) (sysfsAnswer : option error)
    (dirs : list string) (links : list (string * string)) : list Event :=
  let sys := filepath.Join [root; "/sys"] in
  let cgroupTmpfs := filepath.Join [root; "/sys/fs/cgroup"] in
  [EvMkdirAll sys perm0700 None;
   EvMount "sysfs" sys "sysfs" noSuidExecDev EmptyString sysfsAnswer;
   EvMkdirAll cgroupTmpfs perm0700 None;
   EvMount "tmpfs" cgroupTmpfs "tmpfs"
     (Z.lor noSuidExecDev syscall.MS_STRICTATIME) (tmpfsOptions mountContext)
     None] ++
  flat_map (controllerEvents root) dirs ++
  map (symlinkEvent cgroupTmpfs) links ++
  [EvMkdirAll (filepath.Join [root; "/sys/fs/cgroup/systemd"]) perm0700 None;
   EvMount cgroupTmpfs cgroupTmpfs EmptyString readOnlyFlags EmptyString None].

Definition isSymlink (ev : Event) : bool :=
  match ev with
  | EvSymlink _ _ _ => true
  | _ => false
  end.

(** ** Further declarative notions *)

(** The base names of the files that may stay writable: the knobs of the
    allow-list and the membership file. *)
Definition knownKnobs : list string :=
  ["memory.limit_in_bytes"; "cpu.cfs_quota_us"; "devices.allow";
   "devices.deny"; "cgroup.procs"].

(** A controller name without a comma. *)
Definition commaFree (c : string) : Prop := Contains c "," = false.

(** The controller has no entry in the allow-list. *)
Definition notListed (p : string) : Prop :=
  v1CgroupControllerRWFiles !! p = None.

(** Every environment call the operation makes satisfies [Q], and the
    operation leaves the store alone. *)
Definition emitsOnly {A} (Q : Event -> Prop) (c : M A) : Prop :=
  readOnly c /\ forall k w, Forall Q (events c k w).

(** A probe: a call that only inspects the file system. *)
Definition isProbe (ev : Event) : bool :=
  match ev with
  | EvStatfs _ _ | EvOpen _ _ | EvStat _ _ => true
  | _ => false
  end.

(** The control file [f] of a v1 controller, as the isolator check names
    it. *)
Definition controlFile (isolator f : string) : string :=
  filepath.Join ["/sys/fs/cgroup/"; isolator; f].

(** A v1 host on which no control file can be inspected: every [stat]
    fails with EACCES. *)
Definition EACCES : Z := 13.

Definition lockedHost : Env :=
  staticEnv (fun _ => inr tmpfsMagic) noFile
    (fun path => Some (PathError "stat" path EACCES)) (fun _ _ => None).

(** A host on which the cgroup file system cannot be inspected. *)
Definition noCgroupHost : Env :=
  staticEnv (fun path => inl (Errno syscall.ENOENT)) noFile (fun _ => None)
    (fun _ _ => None).

(** [GetOwnV2CgroupPath] and [GetV2CgroupPathByPid] as one resolver. *)
Definition resolveV2CgroupPath (pid : option Z) : M (string * option error) :=
  match pid with
  | None => GetOwnV2CgroupPath
  | Some p => GetV2CgroupPathByPid p
  end.


(** ** Stopping at the first failure, declaratively *)

(** [report ev] is the error an operation returns when the call [ev] failed
    in a way the operation does not tolerate.  The operation stops at the
    first such call: a nil result means that no call of the run has a
    report; an error means that the last call of the run is the only one
    with a report, and that the result is this report. *)
Definition stopsAtFailure (report : Event -> option error)
    (evs : list Event) (res : option error) : Prop :=
  match res with
  | None => Forall (fun ev => report ev = None) evs
  | Some e =>
      exists before ev,
        evs = before ++ [ev] /\
        Forall (fun ev => report ev = None) before /\
        report ev = Some e
  end.

Definition failFast (report : Event -> option error) (c : M (option error))
  : Prop :=
  readOnly c /\ forall k w, stopsAtFailure report (events c k w) (result c k w).

(** What [CreateV1Cgroups] returns for a failed call: the error of a mkdir
    as it is, the error of a symlink and of a mount wrapped, and nothing
    for the sysfs mount that answers EBUSY. *)
Definition buildReport (ev : Event) : option error :=
  match ev with
  | EvMkdirAll _ _ (Some e) => Some e
  | EvSymlink _ _ (Some e) =>
      Some (wrappedError (errorString "error creating symlink") e)
  | EvMount _ target fstype _ _ (Some e) =>
      if String.eqb fstype "sysfs" && isEBUSY e then None
      else if String.eqb fstype EmptyString
      then Some (wrappedError
                   (Errorf "error remounting RO %q" [AString target]) e)
      else Some (wrappedError (Errorf "error mounting %q" [AString target]) e)
  | _ => None
  end.

(** What [RemountCgroupKnobsRW] returns for a failed call: the error of a
    mkdir or of the enter command, as it is. *)
Definition helperReport (ev : Event) : option error :=
  match ev with
  | EvMkdirAll _ _ (Some e) => Some e
  | EvRun _ (Some e) => Some e
  | _ => None
  end.

(** The calls [RemountCgroupKnobsRW] may make: directories of mode 0755,
    stats, and runs of the enter command followed by a bind mount of a knob
    over itself or by its remount read-write. *)
Definition helperCall (enterCmd : list string) (ev : Event) : Prop :=
  match ev with
  | EvMkdirAll _ perm _ => perm = perm0755
  | EvStat _ _ => True
  | EvRun args _ =>
      exists appCgroup f,
        f ∈ knownKnobs /\
        (args =
           enterCmd ++
           ["/bin/mount"; "--bind"; filepath.Join [appCgroup; f];
            filepath.Join [appCgroup; f]] \/
         args =
           enterCmd ++
           ["/bin/mount"; "-o"; "remount,bind,rw"; filepath.Join [appCgroup; f]])
  | _ => False
  end.

(** The calls [RemountV1CgroupsRO] may make: directories of mode 0755,
    stats, reads, writes of mode 0644 to a cpuset knob, and mounts of a
    path over itself that are either a read-only remount or the plain bind
    of a knob. *)
Definition carverCall (ev : Event) : Prop :=
  match ev with
  | EvMkdirAll _ perm _ => perm = perm0755
  | EvStat _ _ => True
  | EvReadFile _ _ => True
  | EvWriteFile path _ perm _ =>
      perm = perm0644 /\
      exists dir knob,
        path = filepath.Join [dir; knob] /\
        knob ∈ ["cpuset.mems"; "cpuset.cpus"]
  | EvMount source target fstype flags data _ =>
      source = target /\ fstype = EmptyString /\ data = EmptyString /\
      (flags = readOnlyFlags \/
       flags = syscall.MS_BIND /\
       exists appCgroup f,
         target = filepath.Join [appCgroup; f] /\ f ∈ knownKnobs)
  | _ => False
  end.

(** What [RemountV1CgroupsRO] returns for a failed mount: the error wrapped
    in the message of the bind of a knob or of the read-only remount. *)
Definition carverReport (ev : Event) : option error :=
  match ev with
  | EvMount _ target _ flags _ (Some e) =>
      if flags =? syscall.MS_BIND
      then Some (wrappedError
                   (Errorf "error bind mounting %q" [AString target]) e)
      else Some (wrappedError
                   (Errorf "error remounting RO %q" [AString target]) e)
  | _ => None
  end.

(** Every call with a report is the last call, and the result is its
    report. *)
Definition abortsWith (report : Event -> option error) (evs : list Event)
    (res : option error) : Prop :=
  forall i ev e,
    evs !! i = Some ev -> report ev = Some e ->
    S i = length evs /\ res = Some e.

Definition abortsAt (report : Event -> option error) (c : M (option error))
  : Prop :=
  readOnly c /\ forall k w, abortsWith report (events c k w) (result c k w).

(** ** The calls of a successful carve, declaratively *)

Definition isMount (ev : Event) : bool :=
  match ev with
  | EvMount _ _ _ _ _ _ => true
  | _ => false
  end.

(** The read-only remount of a path, answered with success. *)
Definition remountedRO (path : string) : Event :=
  EvMount path path EmptyString readOnlyFlags EmptyString None.

(** The calls for one knob of an app cgroup: a stat, and unless the stat
    says that the file does not exist, the bind of the file over itself. *)
Definition knobBlock (appCgroup f : string) (blk : list Event) : Prop :=
  let path := filepath.Join [appCgroup; f] in
  exists r,
    (os.IsNotExist r = true /\ blk = [EvStat path r]) \/
    (os.IsNotExist r = false /\
     blk = [EvStat path r;
            EvMount path path EmptyString syscall.MS_BIND EmptyString None]).

(** The calls for one service in a controller directory: the directory of
    the app cgroup, then the knobs of the directory in order. *)
Definition serviceBlock (c subcgroupPath serviceName : string)
    (blk : list Event) : Prop :=
  let appCgroup := filepath.Join [subcgroupPath; serviceName] in
  exists knobs,
    blk = EvMkdirAll appCgroup perm0755 None :: concat knobs /\
    Forall2 (knobBlock appCgroup) (getV1ControllerRWFiles c) knobs.

(** The calls for one controller directory: the cpuset workaround when the
    directory is named cpuset, the services in order, and at the end the
    read-only remount of the directory. *)
Definition controllerBlock (cgroupTmpfs subcgroup : string)
    (serviceNames : list string) (c : string) (blk : list Event) : Prop :=
  let cPath := filepath.Join [cgroupTmpfs; c] in
  let subcgroupPath := filepath.Join [cPath; subcgroup; "system.slice"] in
  exists workaround services,
    blk = workaround ++ concat services ++ [remountedRO cPath] /\
    (c <> "cpuset" -> workaround = []) /\
    Forall (fun ev => isMount ev = false) workaround /\
    Forall2 (serviceBlock c subcgroupPath) serviceNames services.

(** The calls of the enter helper for one knob: a stat, and unless the
    stat says that the file does not exist, the bind and then the remount
    read-write through the enter command. *)
Definition helperKnobBlock (enterCmd : list string) (appCgroup f : string)
    (blk : list Event) : Prop :=
  let path := filepath.Join [appCgroup; f] in
  exists r,
    (os.IsNotExist r = true /\ blk = [EvStat path r]) \/
    (os.IsNotExist r = false /\
     blk = [EvStat path r;
            EvRun (enterCmd ++ ["/bin/mount"; "--bind"; path; path]) None;
            EvRun (enterCmd ++ ["/bin/mount"; "-o"; "remount,bind,rw"; path])
              None]).

(** The calls of the enter helper for one controller directory. *)
Definition helperBlock (subcgroup serviceName : string)
    (enterCmd : list string) (c : string) (blk : list Event) : Prop :=
  let appCgroup :=
    filepath.Join
      [filepath.Join [filepath.Join ["/sys/fs/cgroup"; c]; subcgroup;
                      "system.slice"];
       serviceName] in
  exists knobs,
    blk = EvMkdirAll appCgroup perm0755 None :: concat knobs /\
    Forall2 (helperKnobBlock enterCmd appCgroup) (getV1ControllerRWFiles c)
      knobs.

(** The calls [CreateV1Cgroups] may make: directories of mode 0700,
    symlinks, and mounts that carry nosuid, noexec and nodev and are either
    a sysfs, tmpfs or cgroup file system or the read-only remount of a
    path over itself. *)
Definition builderCall (ev : Event) : Prop :=
  match ev with
  | EvMkdirAll _ perm _ => perm = perm0700
  | EvSymlink _ _ _ => True
  | EvMount source target fstype flags data _ =>
      Z.land flags noSuidExecDev = noSuidExecDev /\
      (source = fstype /\ fstype ∈ ["sysfs"; "tmpfs"; "cgroup"] \/
       source = target /\ fstype = EmptyString /\ flags = readOnlyFlags)
  | _ => False
  end.

(** A v2 membership file. *)
Definition unifiedMembership : string := "0::/user.slice/session-1.scope" +:+ nl.

(** * Properties *)

(** ** Machine integers and decimal text *)

Lemma wrap_id w z : 0 < w -> - 2 ^ (w - 1) <= z < 2 ^ (w - 1) -> GoInt.wrap w z = z.
Proof.
  intros Hw Hz. unfold GoInt.wrap.
  assert (Hp : 2 ^ w = 2 * 2 ^ (w - 1)).
  { replace w with (Z.succ (w - 1)) at 1 by lia. apply Z.pow_succ_r. lia. }
  rewrite Z.mod_small by lia. lia.
Qed.

Lemma int64_id z : GoInt.inInt64 z -> GoInt.int64 z = z.
Proof.
  unfold GoInt.inInt64, GoInt.MinInt64, GoInt.MaxInt64, GoInt.int64. intros H.
  apply wrap_id; [lia|]. change (64 - 1) with 63. lia.
Qed.

Lemma int_id z : GoInt.inInt64 z -> GoInt.int z = z.
Proof. apply int64_id. Qed.

Lemma int64_range z : GoInt.inInt64 (GoInt.int64 z).
Proof.
  unfold GoInt.inInt64, GoInt.MinInt64, GoInt.MaxInt64, GoInt.int64, GoInt.wrap.
  change (64 - 1) with 63.
  assert (H := Z.mod_pos_bound (z + 2 ^ 63) (2 ^ 64) ltac:(lia)).
  change (2 ^ 64) with (2 * 2 ^ 63) in *. lia.
Qed.


(** [Itoa] can be read back: the text determines the integer. *)
Lemma Itoa_decimalValue z : strconv.decimalValue (strconv.Itoa z) = Some z.
Proof.
  unfold strconv.decimalValue, strconv.Itoa.
  rewrite NilZero.isi.
  - simpl. f_equal. apply DecimalZ.of_to.
  - destruct z; simpl; try discriminate.
    intros H. injection H as H. revert H. apply DecimalPos.Unsigned.to_uint_nonnil.
  - destruct z; simpl; try discriminate.
    intros H. injection H as H. revert H. apply DecimalPos.Unsigned.to_uint_nonnil.
Qed.

Lemma Itoa_inj a b : strconv.Itoa a = strconv.Itoa b -> a = b.
Proof.
  intros H. assert (E : Some a = Some b).
  { rewrite <- (Itoa_decimalValue a), <- (Itoa_decimalValue b). by rewrite H. }
  by injection E.
Qed.

(** ** Quantities *)

Lemma roundUp_nonneg (x : Q) : (0 <= x)%Q -> resource.roundUp x = Qceiling x.
Proof.
  intros H. unfold resource.roundUp.
  destruct (Qle_bool 0 x) eqn:E; [done|].
  apply Qle_bool_iff in H. congruence.
Qed.

Lemma Qceiling_nonneg (x : Q) : (0 <= x)%Q -> 0 <= Qceiling x.
Proof. intros H. apply (Qceiling_resp_le 0 x H). Qed.

Lemma MaxMilliValue_eq : MaxMilliValue = 9223372036854775.
Proof. reflexivity. Qed.

(** A non-negative quantity whose milli-value fits the maximum is read
    without wrap-around, in units and in milli-units. *)
Lemma milli_in_range (q : Quantity) :
  (0 <= amount q)%Q ->
  Qceiling (amount q * inject_Z 1000) <= MaxMilliValue ->
  resource.Value q = Qceiling (amount q) /\
  resource.Value q <= MaxMilliValue /\
  MilliValue q = Qceiling (amount q * inject_Z 1000) /\
  0 <= MilliValue q.
Proof.
  intros H0 Hm.
  assert (H1 : (0 <= amount q * inject_Z 1000)%Q).
  { change (inject_Z 1000) with (1000 # 1)%Q. lra. }
  assert (Hle : (amount q <= amount q * inject_Z 1000)%Q).
  { change (inject_Z 1000) with (1000 # 1)%Q. lra. }
  apply Qceiling_resp_le in Hle.
  assert (Hv := Qceiling_nonneg _ H0).
  assert (Hmv := Qceiling_nonneg _ H1).
  rewrite MaxMilliValue_eq in *.
  unfold resource.Value, MilliValue.
  rewrite !roundUp_nonneg by done.
  rewrite !int64_id by (unfold GoInt.inInt64, GoInt.MinInt64, GoInt.MaxInt64; lia).
  lia.
Qed.

(** ** The isolator translator *)

Lemma isolatorFuncs_cpu : isolatorFuncs !! "cpu" = Some addCpuLimit.
Proof. reflexivity. Qed.

Lemma isolatorFuncs_memory : isolatorFuncs !! "memory" = Some addMemoryLimit.
Proof. reflexivity. Qed.

Lemma addCpuLimit_accepts opts q :
  resource.Value q <= MaxMilliValue ->
  addCpuLimit opts q = (opts ++ [quotaOption (MilliValue q ÷ 10)], None).
Proof.
  intros H. unfold addCpuLimit.
  destruct (resource.Value q >? MaxMilliValue) eqn:E; [lia|].
  unfold quotaOption. rewrite int_id; [done|].
  assert (R := int64_range (roundUp (amount q * inject_Z 1000))).
  fold (MilliValue q) in R.
  unfold GoInt.inInt64, GoInt.MinInt64, GoInt.MaxInt64 in *.
  destruct (Z_le_gt_dec 0 (MilliValue q)).
  - assert (0 <= MilliValue q ÷ 10) by (apply Z.quot_pos; lia).
    assert (MilliValue q ÷ 10 <= MilliValue q) by (apply Z.quot_le_upper_bound; lia).
    lia.
  - assert (MilliValue q ÷ 10 <= 0) by (apply Z.quot_le_upper_bound; lia).
    assert (MilliValue q <= MilliValue q ÷ 10) by (apply Z.quot_le_lower_bound; lia).
    lia.
Qed.

Lemma addCpuLimit_rejects opts q :
  MaxMilliValue < resource.Value q ->
  addCpuLimit opts q =
    ([], Some (Errorf "cpu limit exceeds the maximum millivalue: %v"
                 [AQuantity (amount q)])).
Proof.
  intros H. unfold addCpuLimit.
  destruct (resource.Value q >? MaxMilliValue) eqn:E; [done|lia].
Qed.

(** What [MaybeAddIsolator] returns once the kernel check has answered. *)
Lemma MaybeAddIsolator_supported k w opts isolator q f :
  result (IsIsolatorSupported isolator) k w = (true, None) ->
  isolatorFuncs !! isolator = Some f ->
  result (MaybeAddIsolator opts isolator (Some q)) k w =
    match f opts q with
    | (_, Some e) => Returns ([], Some e)
    | (opts', None) => Returns (opts', None)
    end.
Proof.
  unfold result, MaybeAddIsolator, bind. intros H Hf.
  destruct (IsIsolatorSupported isolator k w) as [[b e] w'].
  simpl in H. injection H as -> ->. rewrite Hf.
  by destruct (f opts q) as [o [e|]].
Qed.

(** C1 (as amended): on a kernel that supports the cpu isolator, the guard
    of [addCpuLimit] compares the quantity in whole units, [Value()], with
    the maximum milli-value.  When [Value()] is at most the maximum, exactly
    one CPUQuota option is appended, whose value is [MilliValue()/10] under
    Go's truncating division followed by the percent sign; when [Value()]
    exceeds the maximum, the call returns the validation error and no
    option.  For a non-negative quantity whose milli-value is at most the
    maximum the appended value is [floor(milli/10)] percent. *)
Theorem C1_cpu_quota (k : Env) (w : World) (opts : list UnitOption)
    (q : Quantity) :
  result (IsIsolatorSupported "cpu") k w = (true, None) ->
  (resource.Value q <= MaxMilliValue ->
   result (MaybeAddIsolator opts "cpu" (Some q)) k w =
     Returns (opts ++ [quotaOption (MilliValue q ÷ 10)], None)) /\
  (MaxMilliValue < resource.Value q ->
   result (MaybeAddIsolator opts "cpu" (Some q)) k w =
     Returns ([], Some (Errorf "cpu limit exceeds the maximum millivalue: %v"
                          [AQuantity (amount q)]))) /\
  ((0 <= amount q)%Q ->
   Qceiling (amount q * inject_Z 1000) <= MaxMilliValue ->
   result (MaybeAddIsolator opts "cpu" (Some q)) k w =
     Returns (opts ++ [quotaOption (Qceiling (amount q * inject_Z 1000) / 10)],
              None)).
Proof.
  intros Hs.
  pose proof (MaybeAddIsolator_supported k w opts "cpu" q _ Hs isolatorFuncs_cpu)
    as Hrun.
  split; [|split].
  - intros Hv. rewrite Hrun, addCpuLimit_accepts; done.
  - intros Hv. rewrite Hrun, addCpuLimit_rejects; done.
  - intros H0 Hm. destruct (milli_in_range q H0 Hm) as (_ & Hv & Hmv & Hpos).
    rewrite Hrun, addCpuLimit_accepts by done.
    rewrite Z.quot_div_nonneg by lia. by rewrite Hmv.
Qed.

Lemma C1_cpu_quota_witness :
  result (IsIsolatorSupported "cpu") v1Host initial = (true, None) /\
  (0 <= amount (ofMilli 500))%Q /\
  Qceiling (amount (ofMilli 500) * inject_Z 1000) <= MaxMilliValue /\
  result (MaybeAddIsolator [] "cpu" (Some (ofMilli 500))) v1Host initial =
    Returns ([NewUnitOption "Service" "CPUQuota" "50%"], None).
Proof.
  assert (Hs : result (IsIsolatorSupported "cpu") v1Host initial = (true, None))
    by reflexivity.
  assert (H0 : (0 <= amount (ofMilli 500))%Q) by (vm_compute; discriminate).
  assert (Hm : Qceiling (amount (ofMilli 500) * inject_Z 1000) <= MaxMilliValue)
    by (vm_compute; discriminate).
  split; [exact Hs | split; [exact H0 | split; [exact Hm |]]].
  exact (proj2 (proj2 (C1_cpu_quota v1Host initial [] (ofMilli 500) Hs)) H0 Hm).
Defined.

(** C1 as stated fails: a quantity of one milli-unit more than the maximum
    milli-value is accepted on a kernel that supports cpu, because the guard
    reads it in whole units; and for the negative quantity of -5 milli-units
    the value is 0 percent, where the floor of -5/10 is -1. *)
Lemma C1_counterexample :
  (MaxMilliValue < MilliValue (ofMilli (MaxMilliValue + 1)) /\
   result (MaybeAddIsolator [] "cpu" (Some (ofMilli (MaxMilliValue + 1))))
     v1Host initial =
     Returns ([NewUnitOption "Service" "CPUQuota" "922337203685477%"], None)) /\
  (MilliValue (ofMilli (-5)) = -5 /\
   result (MaybeAddIsolator [] "cpu" (Some (ofMilli (-5)))) v1Host initial =
     Returns ([NewUnitOption "Service" "CPUQuota" "0%"], None) /\
   quotaOption (-5 / 10) = NewUnitOption "Service" "CPUQuota" "-1%").
Proof. vm_compute. repeat split; reflexivity. Qed.





(** ** Read-only calls *)

Lemma readOnly_ret {A} (a : A) : readOnly (ret a).
Proof. intros k w. by split. Qed.

Lemma readOnly_bind {A B} (c : M A) (f : A -> M B) :
  readOnly c -> (forall a, readOnly (f a)) -> readOnly (bind c f).
Proof.
  intros Hc Hf k w. unfold bind.
  destruct (Hc k w) as [Hm Ht]. destruct (c k w) as [a w1]. simpl in *.
  destruct (Hf a k w1) as [Hm' Ht']. split.
  - by rewrite Hm'.
  - by etrans.
Qed.

Lemma readOnly_call {A} (answer : Env -> list Event -> A) (ev : A -> Event) :
  readOnly (call answer ev).
Proof. intros k w. split; [done|]. simpl. by apply prefix_app_r. Qed.

Lemma readOnly_emit (ev : Event) : readOnly (emit ev).
Proof. intros k w. split; [done|]. simpl. by apply prefix_app_r. Qed.

Lemma readOnly_rangeMap p : readOnly (rangeMap p).
Proof. intros k w. by split. Qed.

Lemma readOnly_rangeLinks symlinks : readOnly (rangeLinks symlinks).
Proof. intros k w. by split. Qed.

Lemma readOnly_forEach {A} (l : list A) (body : A -> M (option error)) :
  (forall x, readOnly (body x)) -> readOnly (forEach l body).
Proof.
  intros Hb. induction l as [|x l IH]; simpl.
  - apply readOnly_ret.
  - apply readOnly_bind; [apply Hb|].
    intros [e|]; [apply readOnly_ret | apply IH].
Qed.

Lemma readOnly_forEach_ {A} (l : list A) (body : A -> M unit) :
  (forall x, readOnly (body x)) -> readOnly (forEach_ l body).
Proof.
  intros Hb. induction l as [|x l IH]; simpl.
  - apply readOnly_ret.
  - apply readOnly_bind; [apply Hb | intros _; apply IH].
Qed.

Lemma readOnly_orReturn c wrap k :
  readOnly c -> readOnly k -> readOnly (orReturn c wrap k).
Proof.
  intros Hc Hk. apply readOnly_bind; [done|].
  intros [e|]; [apply readOnly_ret | done].
Qed.

Create HintDb readonly.
#[local] Hint Resolve readOnly_ret readOnly_call readOnly_emit readOnly_rangeMap
  : readonly.

(** Decomposes a call built from binds, loops and case distinctions. *)
Ltac read_only :=
  repeat first
    [ progress intros
    | match goal with
      | |- readOnly (ret _) => apply readOnly_ret
      | |- readOnly (call _ _) => apply readOnly_call
      | |- readOnly (emit _) => apply readOnly_emit
      | |- readOnly (rangeMap _) => apply readOnly_rangeMap
      | |- readOnly (rangeLinks _) => apply readOnly_rangeLinks
      | |- readOnly (orReturn _ _ _) => apply readOnly_orReturn
      | |- readOnly (forEach _ _) => apply readOnly_forEach
      | |- readOnly (forEach_ _ _) => apply readOnly_forEach_
      | |- readOnly (bind _ _) => apply readOnly_bind
      | |- readOnly (match ?x with _ => _ end) => destruct x
      end
    | solve [eauto with readonly] ].


Lemma readOnly_mountFsRO p : readOnly (mountFsRO p).
Proof. unfold mountFsRO, env.Mount. read_only. Qed.

Lemma readOnly_IsCgroupUnified root : readOnly (IsCgroupUnified root).
Proof. unfold IsCgroupUnified, env.Statfs. read_only. Qed.

Lemma readOnly_GetEnabledV2Controllers : readOnly GetEnabledV2Controllers.
Proof. unfold GetEnabledV2Controllers, env.Open. read_only. Qed.

Lemma readOnly_allFilesExist isolator files :
  readOnly (allFilesExist isolator files).
Proof.
  induction files as [|f files IH]; simpl; unfold env.Stat; read_only.
Qed.

Lemma readOnly_IsIsolatorSupported isolator :
  readOnly (IsIsolatorSupported isolator).
Proof.
  unfold IsIsolatorSupported. read_only;
    auto using readOnly_IsCgroupUnified, readOnly_GetEnabledV2Controllers,
      readOnly_allFilesExist.
Qed.

(** ** Kernel support *)

Lemma rootCgroupPath : filepath.Join ["/"; "/sys/fs/cgroup"] = "/sys/fs/cgroup".
Proof. reflexivity. Qed.








(** The same on a v2 host that enables only io and pids. *)
Example unsupported_on_v2 :
  MaybeAddIsolator [] "memory" (Some (ofUnits 134217728)) (v2Host "io pids")
    initial =
  (Returns ([], None),
   {| trace :=
        [EvStatfs "/sys/fs/cgroup" (inr Cgroup2fsMagicNumber);
         EvOpen "/sys/fs/cgroup/cgroup.controllers"
           (inr {| rd_data := "io pids" +:+ nl; rd_err := None |});
         EvStderr (skipWarning "memory")];
      maps := ∅ |}).
Proof. reflexivity. Qed.

(** C10 fails on the code: "devices" has an entry in
    [v1CgroupControllerRWFiles], so on a v1 host with its two control files
    [IsIsolatorSupported] answers true, but [isolatorFuncs] has no entry for
    it and [MaybeAddIsolator] calls a nil function value.  On a v2 host the
    same happens for any enabled controller other than cpu and memory. *)
Theorem C10_supported_without_isolator_func :
  (result (IsIsolatorSupported "devices") v1Host initial = (true, None) /\
   isolatorFuncs !! "devices" = None /\
   result (MaybeAddIsolator [] "devices" (Some (ofUnits 1))) v1Host initial =
     Panics) /\
  (result (IsIsolatorSupported "pids") (v2Host "cpu io memory pids") initial =
     (true, None) /\
   isolatorFuncs !! "pids" = None /\
   result (MaybeAddIsolator [] "pids" (Some (ofUnits 1)))
     (v2Host "cpu io memory pids") initial = Panics).
Proof. vm_compute. repeat split. Qed.

(** ** The v1 controller enumerator *)

Lemma extend_app o a b : extend (extend o a) b = extend o (a ++ b).
Proof.
  destruct a as [|x a]; [done|]. destruct b as [|y b].
  - by rewrite app_nil_r.
  - simpl. by rewrite <- app_assoc.
Qed.

Lemma enabledIn_cons h text lines :
  enabledIn h (text :: lines) = enabledIn h [text] ++ enabledIn h lines.
Proof.
  unfold enabledIn. simpl. rewrite !filter_cons, filter_nil.
  by destruct (decide _).
Qed.

Lemma addLine_lookup m text h :
  addLine m text !! h = extend (m !! h) (enabledIn h [text]).
Proof.
  unfold addLine, enabledIn. simpl. rewrite filter_cons, filter_nil.
  destruct (fmt.enabled (fmt.Sscanf text) =? 1) eqn:E.
  - apply Z.eqb_eq in E.
    destruct (decide (fmt.hierarchy (fmt.Sscanf text) = h)) as [<-|Hne].
    + rewrite lookup_insert_eq. by rewrite decide_True.
    + rewrite lookup_insert_ne by done. rewrite decide_False; [done|]. tauto.
  - apply Z.eqb_neq in E. rewrite decide_False; [done|]. tauto.
Qed.

Lemma foldl_addLine_lookup lines m h :
  foldl addLine m lines !! h = extend (m !! h) (enabledIn h lines).
Proof.
  revert m. induction lines as [|text lines IH]; intros m; [done|].
  simpl. rewrite IH, addLine_lookup, extend_app. by rewrite <- enabledIn_cons.
Qed.

Lemma parseV1Line_run l m text k w :
  maps w !! l = Some m ->
  parseV1Line l text k w =
    (tt, {| trace := trace w; maps := <[l := addLine m text]> (maps w) |}).
Proof.
  intros Hl. unfold parseV1Line, addLine.
  destruct (fmt.enabled (fmt.Sscanf text) =? 1).
  - unfold bind, mapLoad, mapStore. rewrite Hl. simpl.
    destruct (m !! fmt.hierarchy (fmt.Sscanf text)); by rewrite Hl.
  - unfold ret. destruct w as [tr ms]. simpl in *. by rewrite insert_id.
Qed.

Lemma parse_loop_run l lines m k w :
  maps w !! l = Some m ->
  forEach_ lines (parseV1Line l) k w =
    (tt, {| trace := trace w; maps := <[l := foldl addLine m lines]> (maps w) |}).
Proof.
  revert m w. induction lines as [|text lines IH]; intros m w Hl.
  - simpl. unfold ret. destruct w as [tr ms]. simpl in *. by rewrite insert_id.
  - simpl. unfold bind. rewrite (parseV1Line_run l m) by done.
    rewrite (IH (addLine m text)) by (simpl; apply lookup_insert_eq).
    simpl. by rewrite insert_insert_eq.
Qed.

(** [parseV1Cgroups] in one step: a fresh map holds the lines after the
    header, folded in order; the maps that existed are as they were. *)
Lemma parseV1Cgroups_run f k w :
  parseV1Cgroups f k w =
    (match snd (scan f) with
     | Some err => (None, Some err)
     | None => (Some (fresh (dom (maps w))), None)
     end,
     {| trace := trace w;
        maps := <[fresh (dom (maps w)) := foldl addLine ∅ (tail (fst (scan f)))]>
                  (maps w) |}).
Proof.
  unfold parseV1Cgroups. destruct (scan f) as [lines scErr]. simpl.
  unfold bind, makeMap.
  rewrite (parse_loop_run _ _ ∅) by (simpl; apply lookup_insert_eq).
  simpl. rewrite insert_insert_eq. by destruct scErr.
Qed.

Lemma fresh_map_unused (ms : gmap positive (gmap Z (list string))) :
  ms !! fresh (dom ms) = None.
Proof. apply not_elem_of_dom, is_fresh. Qed.


Lemma GetEnabledV1Cgroups_run k w :
  GetEnabledV1Cgroups k w =
    let w1 := {| trace := trace w ++
                   [EvOpen "/proc/cgroups" (k_Open k (trace w) "/proc/cgroups")];
                 maps := maps w |} in
    match k_Open k (trace w) "/proc/cgroups" with
    | inl err => ((None, Some err), w1)
    | inr f =>
        (match snd (scan f) with
         | Some e =>
             (None, Some (wrappedError (errorString "error parsing /proc/cgroups") e))
         | None => (Some (fresh (dom (maps w))), None)
         end,
         {| trace := trace w1;
            maps := <[fresh (dom (maps w)) :=
                        foldl addLine ∅ (tail (fst (scan f)))]> (maps w) |})
    end.
Proof.
  unfold GetEnabledV1Cgroups, bind, env.Open, call. simpl.
  destruct (k_Open k (trace w) "/proc/cgroups") as [err|f]; [done|].
  rewrite parseV1Cgroups_run. simpl. by destruct (snd (scan f)).
Qed.



(** The sample table gives two hierarchies; the disabled controller and the
    line that does not parse leave no entry. *)
Example sample_table_map :
  let k := oneFile "/proc/cgroups" sampleTable in
  map_to_list (deref (fst (result GetEnabledV1Cgroups k initial))
                 (final GetEnabledV1Cgroups k initial)) =
    [(3, ["cpu"; "cpuacct"]); (2, ["cpuset"])].
Proof. reflexivity. Qed.

(** ** The hierarchy map after it is built *)

Lemma readOnly_GetV1ControllerDirs p : readOnly (GetV1ControllerDirs p).
Proof. unfold GetV1ControllerDirs. read_only. Qed.

Lemma readOnly_getV1ControllerSymlinks p : readOnly (getV1ControllerSymlinks p).
Proof. unfold getV1ControllerSymlinks. read_only. Qed.

Lemma readOnly_mountController root c : readOnly (mountController root c).
Proof. unfold mountController, env.MkdirAll, env.Mount. read_only. Qed.

Lemma readOnly_makeSymlink tmpfs entry : readOnly (makeSymlink tmpfs entry).
Proof. unfold makeSymlink, env.Symlink. read_only. Qed.

Lemma readOnly_CreateV1Cgroups root p ctx : readOnly (CreateV1Cgroups root p ctx).
Proof.
  unfold CreateV1Cgroups, env.MkdirAll, env.Mount.
  read_only;
    auto using readOnly_GetV1ControllerDirs, readOnly_getV1ControllerSymlinks,
      readOnly_mountController, readOnly_makeSymlink, readOnly_mountFsRO.
Qed.

Lemma readOnly_fixCpusetKnob dir knob : readOnly (fixCpusetKnob dir knob).
Proof. unfold fixCpusetKnob, env.ReadFile, env.WriteFile. read_only. Qed.

Lemma readOnly_fixCpusetKnobs path : readOnly (fixCpusetKnobs path).
Proof.
  unfold fixCpusetKnobs, env.MkdirAll. read_only.
  apply readOnly_fixCpusetKnob.
Qed.

Lemma readOnly_bindKnob app f : readOnly (bindKnob app f).
Proof. unfold bindKnob, env.Stat, env.Mount. read_only. Qed.

Lemma readOnly_remountService c sub svc : readOnly (remountService c sub svc).
Proof.
  unfold remountService, env.MkdirAll. read_only. apply readOnly_bindKnob.
Qed.

Lemma readOnly_remountController tmpfs sub svcs c :
  readOnly (remountController tmpfs sub svcs c).
Proof.
  unfold remountController. read_only;
    auto using readOnly_fixCpusetKnobs, readOnly_remountService,
      readOnly_mountFsRO.
Qed.

Lemma readOnly_RemountV1CgroupsRO root p sub svcs :
  readOnly (RemountV1CgroupsRO root p sub svcs).
Proof.
  unfold RemountV1CgroupsRO. read_only;
    auto using readOnly_GetV1ControllerDirs, readOnly_remountController,
      readOnly_mountFsRO.
Qed.

Lemma readOnly_enterRemountKnob cmd app f : readOnly (enterRemountKnob cmd app f).
Proof. unfold enterRemountKnob, env.Stat, env.Run. read_only. Qed.

Lemma readOnly_remountKnobsOf sub svc cmd c :
  readOnly (remountKnobsOf sub svc cmd c).
Proof.
  unfold remountKnobsOf, env.MkdirAll. read_only.
  apply readOnly_enterRemountKnob.
Qed.

Lemma readOnly_RemountCgroupKnobsRW p sub svc cmd :
  readOnly (RemountCgroupKnobsRW p sub svc cmd).
Proof.
  unfold RemountCgroupKnobsRW. read_only;
    auto using readOnly_GetV1ControllerDirs, readOnly_remountKnobsOf.
Qed.

Lemma readOnly_MaybeAddIsolator opts isolator limit :
  readOnly (MaybeAddIsolator opts isolator limit).
Proof.
  unfold MaybeAddIsolator, env.Stderr. read_only.
  apply readOnly_IsIsolatorSupported.
Qed.

Lemma readOnly_parseV1CgroupController path c :
  readOnly (parseV1CgroupController path c).
Proof. unfold parseV1CgroupController, env.Open. read_only. Qed.

Lemma readOnly_parseV2ProcCgroupInfo path : readOnly (parseV2ProcCgroupInfo path).
Proof. unfold parseV2ProcCgroupInfo, env.Open. read_only. Qed.

Lemma readOnly_resolveV1CgroupPath pid controller :
  readOnly (resolveV1CgroupPath pid controller).
Proof.
  destruct pid; cbn [resolveV1CgroupPath];
    unfold GetV1CgroupPathByPid, GetOwnV1CgroupPath; read_only;
    apply readOnly_parseV1CgroupController.
Qed.

Lemma readOnly_JoinV1Subcgroup controller subcgroup :
  readOnly (JoinV1Subcgroup controller subcgroup).
Proof.
  unfold JoinV1Subcgroup, env.MkdirAll, env.Getpid, env.WriteFile. read_only.
Qed.

Lemma readOnly_IsV1ControllerMounted c : readOnly (IsV1ControllerMounted c).
Proof. unfold IsV1ControllerMounted, env.Stat. read_only. Qed.

(** C5: every entry of the map that the v1 enumerator returns holds a
    non-empty list of controllers; building it leaves the maps that already
    exist as they were, and every operation that receives a hierarchy map
    (directory names, symlink table, hierarchy builder, both RW-window
    carvers) as well as every other operation of the package (isolator
    translator, support and version checks, v2 enumerator, path resolvers,
    joining a subcgroup, mount check) leaves every map of the store
    unchanged. *)
Theorem C5_map_entries_nonempty_and_immutable (k : Env) (w : World) :
  (forall l h cs,
     result GetEnabledV1Cgroups k w = (Some l, None) ->
     deref (Some l) (final GetEnabledV1Cgroups k w) !! h = Some cs ->
     cs <> []) /\
  (forall l,
     is_Some (maps w !! l) ->
     maps (final GetEnabledV1Cgroups k w) !! l = maps w !! l) /\
  (forall p root mountContext subcgroup serviceNames serviceName enterCmd,
     readOnly (GetV1ControllerDirs p) /\
     readOnly (getV1ControllerSymlinks p) /\
     readOnly (CreateV1Cgroups root p mountContext) /\
     readOnly (RemountV1CgroupsRO root p subcgroup serviceNames) /\
     readOnly (RemountCgroupKnobsRW p subcgroup serviceName enterCmd)) /\
  (forall opts isolator limit root path pid controller subcgroup,
     readOnly (MaybeAddIsolator opts isolator limit) /\
     readOnly (IsIsolatorSupported isolator) /\
     readOnly (IsCgroupUnified root) /\
     readOnly GetEnabledV2Controllers /\
     readOnly (parseV2ProcCgroupInfo path) /\
     readOnly (resolveV1CgroupPath pid controller) /\
     readOnly (JoinV1Subcgroup controller subcgroup) /\
     readOnly (IsV1ControllerMounted controller)).
Proof.
  split; [|split; [|split]].
  - intros l h cs. unfold result, final. rewrite GetEnabledV1Cgroups_run. simpl.
    destruct (k_Open k (trace w) "/proc/cgroups") as [err|f]; [done|].
    destruct (snd (scan f)); [done|]. simpl. intros [= <-].
    rewrite lookup_insert_eq. simpl.
    rewrite foldl_addLine_lookup, lookup_empty.
    destruct (enabledIn h (tail (fst (scan f)))); [done|].
    simpl. by intros [= <-].
  - intros l [m Hl]. unfold final. rewrite GetEnabledV1Cgroups_run. simpl.
    destruct (k_Open k (trace w) "/proc/cgroups") as [err|f]; [done|]. simpl.
    apply lookup_insert_ne. intros <-. by rewrite fresh_map_unused in Hl.
  - intros. split_and!;
      auto using readOnly_GetV1ControllerDirs, readOnly_getV1ControllerSymlinks,
        readOnly_CreateV1Cgroups, readOnly_RemountV1CgroupsRO,
        readOnly_RemountCgroupKnobsRW.
  - intros. split_and!;
      auto using readOnly_MaybeAddIsolator, readOnly_IsIsolatorSupported,
        readOnly_IsCgroupUnified, readOnly_GetEnabledV2Controllers,
        readOnly_parseV2ProcCgroupInfo, readOnly_resolveV1CgroupPath,
        readOnly_JoinV1Subcgroup, readOnly_IsV1ControllerMounted.
Qed.

Lemma C5_map_entries_nonempty_and_immutable_witness :
  let k := oneFile "/proc/cgroups" sampleTable in
  result GetEnabledV1Cgroups k initial = (Some 1%positive, None) /\
  deref (Some 1%positive) (final GetEnabledV1Cgroups k initial) !! 3 =
    Some ["cpu"; "cpuacct"] /\
  ["cpu"; "cpuacct"] <> [].
Proof.
  intros k.
  assert (H1 : result GetEnabledV1Cgroups k initial = (Some 1%positive, None))
    by reflexivity.
  assert (H2 : deref (Some 1%positive) (final GetEnabledV1Cgroups k initial) !! 3 =
               Some ["cpu"; "cpuacct"]) by reflexivity.
  split; [exact H1 | split; [exact H2|]].
  exact (proj1 (C5_map_entries_nonempty_and_immutable k initial)
           1%positive 3 ["cpu"; "cpuacct"] H1 H2).
Defined.

(** ** v1 path resolution *)

Lemma cut_colon s b a :
  Strings.cut s ":" = Some (b, a) ->
  s = b +:+ ":" +:+ a /\ Contains b ":" = false.
Proof.
  revert b a. induction s as [|c s IH]; intros b a; [done|].
  cbn [Strings.cut]. cbn [Strings.HasPrefix].
  destruct (Ascii.eqb ":" c) eqn:E.
  - apply Ascii.eqb_eq in E as <-. cbn. intros [= <- <-]. done.
  - destruct (Strings.cut s ":") as [[b' a']|] eqn:Hc; [|done].
    intros [= <- <-]. destruct (IH _ _ eq_refl) as [-> Hn]. split; [done|].
    unfold Contains in *. cbn [Strings.cut Strings.HasPrefix]. rewrite E.
    by destruct (Strings.cut b' ":") as [[??]|].
Qed.

(** A line with three fields is [a:b:p] where [a] and [b] have no colon;
    [p] is its path field and [b] its controller list. *)
Lemma three_fields text :
  hasThreeFields text = true ->
  exists a b,
    Strings.SplitN text ":" 3 = [a; b; pathField text] /\
    text = a +:+ ":" +:+ b +:+ ":" +:+ pathField text /\
    Contains a ":" = false /\ Contains b ":" = false.
Proof.
  unfold hasThreeFields, pathField, Strings.SplitN. cbn [Z.eqb].
  destruct (String.length text) as [|f] eqn:Hlen; [done|].
  cbn [Strings.splitLoop Z.eqb Pos.eqb].
  destruct (Strings.cut text ":") as [[a r1]|] eqn:H1; [|done].
  destruct f as [|f]; [done|].
  change (3 - 1) with 2. cbn [Strings.splitLoop Z.eqb Pos.eqb].
  destruct (Strings.cut r1 ":") as [[b r2]|] eqn:H2; [|done].
  intros _. exists a, b.
  assert (E : Strings.splitLoop f r2 ":" (2 - 1) = [r2]) by (by destruct f).
  rewrite E. cbn [nth].
  apply cut_colon in H1 as [-> Ha]. apply cut_colon in H2 as [-> Hb].
  done.
Qed.

Lemma findV1Controller_answer before line after controller :
  Forall (passedOver controller) before ->
  hasThreeFields line = true ->
  listsController line controller = true ->
  findV1Controller (before ++ line :: after) controller =
    (Strings.SplitN line ":" 3, None).
Proof.
  intros Hb Hw Hl. induction Hb as [|t before [Ht1 Ht2] _ IH]; simpl.
  - unfold hasThreeFields in Hw. apply negb_true_iff in Hw. rewrite Hw.
    unfold listsController in Hl. by rewrite Hl.
  - unfold hasThreeFields in Ht1. apply negb_true_iff in Ht1. rewrite Ht1.
    unfold listsController in Ht2. by rewrite Ht2.
Qed.

Lemma findV1Controller_malformed before line after controller :
  Forall (passedOver controller) before ->
  hasThreeFields line = false ->
  findV1Controller (before ++ line :: after) controller =
    ([], Some (Errorf "error parsing /proc/self/cgroup" [])).
Proof.
  intros Hb Hw. induction Hb as [|t before [Ht1 Ht2] _ IH]; simpl.
  - unfold hasThreeFields in Hw. apply negb_false_iff in Hw. by rewrite Hw.
  - unfold hasThreeFields in Ht1. apply negb_true_iff in Ht1. rewrite Ht1.
    unfold listsController in Ht2. by rewrite Ht2.
Qed.

Lemma findV1Controller_unlisted lines controller :
  Forall (fun t => listsController t controller = false) lines ->
  exists e, findV1Controller lines controller = ([], Some e).
Proof.
  intros H. induction H as [|t lines Ht _ IH]; simpl; [eauto|].
  destruct (Z.of_nat (length (Strings.SplitN t ":" 3)) <? 3); [eauto|].
  unfold listsController in Ht. by rewrite Ht.
Qed.

Lemma resolveV1CgroupPath_run pid controller k w :
  result (resolveV1CgroupPath pid controller) k w =
    match k_Open k (trace w) (membershipFile pid) with
    | inl err =>
        (EmptyString,
         Some (wrappedError (errorString "error opening /proc/self/cgroup") err))
    | inr cg =>
        match findV1Controller (fst (scan cg)) controller with
        | (_, Some e) => (EmptyString, Some e)
        | (parts, None) => (nth 2 parts EmptyString, None)
        end
    end.
Proof.
  unfold result.
  destruct pid as [p|]; cbn [resolveV1CgroupPath membershipFile];
    unfold GetOwnV1CgroupPath, GetV1CgroupPathByPid, parseV1CgroupController,
      bind, env.Open, call, ret; cbn [fst snd];
    (destruct (k_Open k (trace w) _) as [err|cg]; [done|]);
    by destruct (findV1Controller (fst (scan cg)) controller) as [parts [e|]].
Qed.

(** C7 (as amended): when the membership file opens, v1 path resolution
    returns the trailing path segment (the third colon-separated field) of
    the first line whose comma-joined controller list contains the requested
    controller, provided every line before it has three fields; it returns
    the parse error when a line with fewer than three fields comes first,
    and it returns an error when no line's controller list contains the
    controller. *)
Theorem C7_v1_path_resolution (k : Env) (w : World) (pid : option Z)
    (controller : string) (cg : Reader) :
  k_Open k (trace w) (membershipFile pid) = inr cg ->
  (forall before line after,
     fst (scan cg) = before ++ line :: after ->
     Forall (passedOver controller) before ->
     hasThreeFields line = true ->
     listsController line controller = true ->
     result (resolveV1CgroupPath pid controller) k w = (pathField line, None) /\
     exists a b,
       line = a +:+ ":" +:+ b +:+ ":" +:+ pathField line /\
       Contains a ":" = false /\ Contains b ":" = false) /\
  (forall before line after,
     fst (scan cg) = before ++ line :: after ->
     Forall (passedOver controller) before ->
     hasThreeFields line = false ->
     result (resolveV1CgroupPath pid controller) k w =
       (EmptyString, Some (Errorf "error parsing /proc/self/cgroup" []))) /\
  (Forall (fun t => listsController t controller = false) (fst (scan cg)) ->
   exists e,
     result (resolveV1CgroupPath pid controller) k w = (EmptyString, Some e)).
Proof.
  intros Ho. rewrite resolveV1CgroupPath_run, Ho. split; [|split].
  - intros before line after -> Hb Hw Hl.
    rewrite findV1Controller_answer by done. split; [done|].
    destruct (three_fields line Hw) as (a & b & _ & ? & ? & ?). eauto.
  - intros before line after -> Hb Hw.
    by rewrite findV1Controller_malformed.
  - intros Hn. destruct (findV1Controller_unlisted _ _ Hn) as [e ->]. eauto.
Qed.

Lemma C7_v1_path_resolution_witness :
  let k := oneFile "/proc/self/cgroup" sampleMembership in
  let cg := {| rd_data := sampleMembership; rd_err := None |} in
  let line := "4:cpu,cpuacct:/machine.slice/a:b" in
  k_Open k (trace initial) (membershipFile None) = inr cg /\
  fst (scan cg) = ["5:memory:/m"] ++ line :: [] /\
  Forall (passedOver "cpu") ["5:memory:/m"] /\
  hasThreeFields line = true /\
  listsController line "cpu" = true /\
  result (resolveV1CgroupPath None "cpu") k initial =
    ("/machine.slice/a:b", None).
Proof.
  intros k cg line.
  assert (Ho : k_Open k (trace initial) (membershipFile None) = inr cg)
    by reflexivity.
  assert (Hs : fst (scan cg) = ["5:memory:/m"] ++ line :: []) by reflexivity.
  assert (Hb : Forall (passedOver "cpu") ["5:memory:/m"]).
  { constructor; [split; reflexivity | constructor]. }
  assert (Hw : hasThreeFields line = true) by reflexivity.
  assert (Hl : listsController line "cpu" = true) by reflexivity.
  split; [exact Ho | split; [exact Hs | split; [exact Hb |
    split; [exact Hw | split; [exact Hl|]]]]].
  exact (proj1 (proj1 (C7_v1_path_resolution k initial None "cpu" cg Ho)
                  ["5:memory:/m"] line [] Hs Hb Hw Hl)).
Defined.

(** C7 as stated fails: the second line of the file has three fields and
    lists cpu, yet resolution returns the parse error, because the line
    before it has no colon. *)
Lemma C7_counterexample :
  let k := oneFile "/proc/self/cgroup" brokenMembership in
  let line := "4:cpu,cpuacct:/machine.slice" in
  fst (scan {| rd_data := brokenMembership; rd_err := None |}) =
    ["garbage"; line] /\
  hasThreeFields line = true /\
  listsController line "cpu" = true /\
  pathField line = "/machine.slice" /\
  result (GetOwnV1CgroupPath "cpu") k initial =
    (EmptyString, Some (Errorf "error parsing /proc/self/cgroup" [])) /\
  result (GetV1CgroupPathByPid 1 "cpu")
    (oneFile "/proc/1/cgroup" brokenMembership) initial =
    (EmptyString, Some (Errorf "error parsing /proc/self/cgroup" [])).
Proof. vm_compute. repeat split. Qed.

(** ** Events of composed calls *)

Lemma events_bind {A B} (c : M A) (f : A -> M B) k w :
  readOnly c -> (forall a, readOnly (f a)) ->
  events (bind c f) k w =
    events c k w ++ events (f (result c k w)) k (final c k w).
Proof.
  intros Hc Hf. unfold events, bind, result, final.
  destruct (Hc k w) as [_ [r1 H1]]. destruct (c k w) as [a w1]. simpl in *.
  destruct (Hf a k w1) as [_ [r2 H2]]. destruct (f a k w1) as [b w2]. simpl in *.
  rewrite H2, H1. rewrite (drop_app_length (trace w ++ r1)), drop_app_length.
  by rewrite <- app_assoc, drop_app_length.
Qed.

Lemma events_call {A} (answer : Env -> list Event -> A) (ev : A -> Event) k w :
  events (call answer ev) k w = [ev (answer k (trace w))].
Proof. unfold events, call. simpl. by rewrite drop_app_length. Qed.

Lemma events_ret {A} (a : A) k w : events (ret a) k w = [].
Proof. unfold events, ret. simpl. by rewrite drop_all. Qed.

Lemma trace_final_events {A} (c : M A) k w :
  readOnly c -> trace (final c k w) = trace w ++ events c k w.
Proof.
  intros Hc. unfold events, final. destruct (Hc k w) as [_ [r ->]].
  by rewrite drop_app_length.
Qed.

Lemma result_bind {A B} (c : M A) (f : A -> M B) k w :
  result (bind c f) k w = result (f (result c k w)) k (final c k w).
Proof. unfold result, final, bind. by destruct (c k w). Qed.

Lemma silent_bind {A B} (c : M A) (f : A -> M B) k w :
  snd (c k w) = w ->
  result (bind c f) k w = result (f (result c k w)) k w /\
  events (bind c f) k w = events (f (result c k w)) k w.
Proof.
  unfold result, events, bind. destruct (c k w) as [a w1]. simpl.
  by intros ->.
Qed.

(** ** The cpuset workaround *)

Lemma fixCpusetKnob_run dir knob k w :
  let child := filepath.Join [dir; knob] in
  let parent := filepath.Join [filepath.Dir dir; knob] in
  events (fixCpusetKnob dir knob) k w =
    match k_ReadFile k (trace w) child with
    | inl err => [EvReadFile child (inl err)]
    | inr data =>
        if String.eqb (Strings.TrimSpace data) EmptyString then
          let t1 := trace w ++ [EvReadFile child (inr data)] in
          match k_ReadFile k t1 parent with
          | inr pdata =>
              let t2 := t1 ++ [EvReadFile parent (inr pdata)] in
              let r1 := k_WriteFile k t2 child pdata perm0644 in
              let t3 := t2 ++ [EvWriteFile child pdata perm0644 r1] in
              [EvReadFile child (inr data); EvReadFile parent (inr pdata);
               EvWriteFile child pdata perm0644 r1;
               EvWriteFile child pdata perm0644
                 (k_WriteFile k t3 child pdata perm0644)]
          | inl err => [EvReadFile child (inr data); EvReadFile parent (inl err)]
          end
        else [EvReadFile child (inr data)]
    end.
Proof.
  intros child parent.
  unfold events, fixCpusetKnob, bind, env.ReadFile, env.WriteFile, call, ret.
  fold child. fold parent. cbn [fst snd trace].
  destruct (k_ReadFile k (trace w) child) as [err|data]; cbn [fst snd trace].
  { by rewrite drop_app_length. }
  destruct (String.eqb (Strings.TrimSpace data) EmptyString); cbn [negb fst snd trace].
  2: { by rewrite drop_app_length. }
  destruct (k_ReadFile k (trace w ++ [EvReadFile child (inr data)]) parent)
    as [err|pdata]; cbn [fst snd trace];
    by rewrite <- !app_assoc, drop_app_length.
Qed.

(** C9 (as amended): the bulk carver runs [fixCpusetKnobs] first for a
    controller directory named cpuset, and for no other; what the carver
    returns does not depend on the answers to the calls of this pre-step.
    [fixCpusetKnobs] makes the slice directory and then handles cpuset.mems
    and cpuset.cpus in turn, and it has no result in which a failure could
    be reported.  A knob is written exactly when it can be read, its content
    is empty after trimming white space, and the parent's knob can be read:
    then the parent's value is written to it twice in a row, whatever the
    first write answers.  A knob that is configured, or cannot be read, or
    whose parent cannot be read, is not written. *)
Theorem C9_cpuset_knobs (k : Env) (w : World) (cpusetPath : string) :
  (forall cgroupTmpfs subcgroup serviceNames c,
     let cPath := filepath.Join [cgroupTmpfs; c] in
     let carver := remountController cgroupTmpfs subcgroup serviceNames c in
     let rest := carveController cgroupTmpfs subcgroup serviceNames c in
     (c = "cpuset" ->
      events carver k w =
        events (fixCpusetKnobs cPath) k w ++
        events rest k (final (fixCpusetKnobs cPath) k w) /\
      result carver k w = result rest k (final (fixCpusetKnobs cPath) k w)) /\
     (c <> "cpuset" ->
      events carver k w = events rest k w /\
      result carver k w = result rest k w)) /\
  result (fixCpusetKnobs cpusetPath) k w = tt /\
  events (fixCpusetKnobs cpusetPath) k w =
    events (env.MkdirAll (sliceOf cpusetPath) perm0755) k w ++
    events (fixCpusetKnob (sliceOf cpusetPath) "cpuset.mems") k
      (beforeKnobs cpusetPath k w) ++
    events (fixCpusetKnob (sliceOf cpusetPath) "cpuset.cpus") k
      (betweenKnobs cpusetPath k w) /\
  forall knob w0,
    let child := childKnob cpusetPath knob in
    let parent := parentKnob cpusetPath knob in
    let evs := events (fixCpusetKnob (sliceOf cpusetPath) knob) k w0 in
    (forall data pdata,
       k_ReadFile k (trace w0) child = inr data ->
       Strings.TrimSpace data = EmptyString ->
       k_ReadFile k (trace w0 ++ [EvReadFile child (inr data)]) parent =
         inr pdata ->
       exists r1 r2,
         evs = [EvReadFile child (inr data); EvReadFile parent (inr pdata);
                EvWriteFile child pdata perm0644 r1;
                EvWriteFile child pdata perm0644 r2]) /\
    (forall data,
       k_ReadFile k (trace w0) child = inr data ->
       Strings.TrimSpace data <> EmptyString ->
       evs = [EvReadFile child (inr data)]) /\
    (forall err,
       k_ReadFile k (trace w0) child = inl err ->
       evs = [EvReadFile child (inl err)]) /\
    (forall data err,
       k_ReadFile k (trace w0) child = inr data ->
       k_ReadFile k (trace w0 ++ [EvReadFile child (inr data)]) parent =
         inl err ->
       filter isWriteFile evs = []) /\
    (filter isWriteFile evs <> [] ->
     exists data pdata,
       k_ReadFile k (trace w0) child = inr data /\
       Strings.TrimSpace data = EmptyString /\
       k_ReadFile k (trace w0 ++ [EvReadFile child (inr data)]) parent =
         inr pdata).
Proof.
  split.
  { intros cgroupTmpfs subcgroup serviceNames c cPath carver rest.
    unfold carver, rest, remountController, carveController. fold cPath.
    split.
    - intros ->. cbn [String.eqb Ascii.eqb Bool.eqb]. split.
      + apply events_bind; [apply readOnly_fixCpusetKnobs|].
        intros _. read_only;
          auto using readOnly_remountService, readOnly_mountFsRO.
      + apply result_bind.
    - intros Hne. apply String.eqb_neq in Hne. rewrite Hne.
      destruct (silent_bind (ret tt)
        (fun _ : unit => carveController cgroupTmpfs subcgroup serviceNames c)
        k w eq_refl) as [Hr He].
      split; [exact He | exact Hr]. }
  split; [by destruct (result _ k w)|]. split.
  - unfold fixCpusetKnobs. fold (sliceOf cpusetPath).
    rewrite events_bind.
    2: { unfold env.MkdirAll. read_only. }
    2: { intros _. apply readOnly_forEach_, readOnly_fixCpusetKnob. }
    f_equal. cbn [forEach_]. fold (beforeKnobs cpusetPath k w).
    rewrite events_bind by (intros; read_only; apply readOnly_fixCpusetKnob).
    f_equal. fold (betweenKnobs cpusetPath k w).
    rewrite events_bind by (intros; read_only; apply readOnly_fixCpusetKnob).
    by rewrite events_ret, app_nil_r.
  - intros knob w0 child parent evs.
    pose proof (fixCpusetKnob_run (sliceOf cpusetPath) knob k w0) as Hrun.
    cbn zeta in Hrun. fold (childKnob cpusetPath knob) in Hrun.
    fold (parentKnob cpusetPath knob) in Hrun. fold child parent evs in Hrun.
    split_and!.
    + intros data pdata Hc Ht Hp. rewrite Hrun, Hc, Ht. cbn [String.eqb].
      rewrite Hp. eauto.
    + intros data Hc Ht. rewrite Hrun, Hc.
      destruct (String.eqb_spec (Strings.TrimSpace data) EmptyString); done.
    + intros err Hc. by rewrite Hrun, Hc.
    + intros data err Hc Hp. rewrite Hrun, Hc.
      destruct (String.eqb _ _); [by rewrite Hp | done].
    + rewrite Hrun. intros Hw.
      destruct (k_ReadFile k (trace w0) child) as [err|data]; [done|].
      destruct (String.eqb_spec (Strings.TrimSpace data) EmptyString) as [Ht|];
        [|done].
      destruct (k_ReadFile k (trace w0 ++ [EvReadFile child (inr data)]) parent)
        as [err|pdata] eqn:Hp; [done|]. eauto.
Qed.

Lemma C9_cpuset_knobs_witness :
  let k := cpusetHost "cpuset" true in
  let path := "/sys/fs/cgroup/cpuset" in
  let w0 := beforeKnobs path k initial in
  let child := childKnob path "cpuset.mems" in
  let parent := parentKnob path "cpuset.mems" in
  k_ReadFile k (trace w0) child = inr nl /\
  Strings.TrimSpace nl = EmptyString /\
  k_ReadFile k (trace w0 ++ [EvReadFile child (inr nl)]) parent =
    inr ("0" +:+ nl) /\
  exists r1 r2,
    events (fixCpusetKnob (sliceOf path) "cpuset.mems") k w0 =
      [EvReadFile child (inr nl); EvReadFile parent (inr ("0" +:+ nl));
       EvWriteFile child ("0" +:+ nl) perm0644 r1;
       EvWriteFile child ("0" +:+ nl) perm0644 r2].
Proof.
  intros k path w0 child parent.
  assert (Hc : k_ReadFile k (trace w0) child = inr nl) by reflexivity.
  assert (Ht : Strings.TrimSpace nl = EmptyString) by reflexivity.
  assert (Hp : k_ReadFile k (trace w0 ++ [EvReadFile child (inr nl)]) parent =
               inr ("0" +:+ nl)) by reflexivity.
  split; [exact Hc | split; [exact Ht | split; [exact Hp|]]].
  exact (proj1 (proj2 (proj2 (proj2 (C9_cpuset_knobs k initial path)))
                  "cpuset.mems" w0)
           nl ("0" +:+ nl) Hc Ht Hp).
Defined.

(** C9 as stated fails: both knobs of the slice are empty after trimming,
    but the parent's knobs cannot be read, and nothing is written, neither
    by [fixCpusetKnobs] nor by the whole bulk carver; and when cpuset is
    mounted jointly with cpu, so that its directory is not named cpuset, the
    bulk carver reads and writes no knob although the parent's knobs are
    configured. *)
Lemma C9_counterexample :
  let k := cpusetHost "cpuset" false in
  let path := "/sys/fs/cgroup/cpuset" in
  let k2 := cpusetHost "cpuset,cpu" true in
  let path2 := "/sys/fs/cgroup/cpuset,cpu" in
  (k_ReadFile k [] (childKnob path "cpuset.mems") = inr nl /\
   k_ReadFile k [] (childKnob path "cpuset.cpus") = inr nl /\
   Strings.TrimSpace nl = EmptyString /\
   filter isWriteFile (events (fixCpusetKnobs path) k initial) = [] /\
   filter isWriteFile
     (events (RemountV1CgroupsRO "/" theMap "machine" ["app.service"]) k
        (storeOf {[ 2 := ["cpuset"] ]})) = []) /\
  (k_ReadFile k2 [] (childKnob path2 "cpuset.mems") = inr nl /\
   k_ReadFile k2 [] (parentKnob path2 "cpuset.mems") = inr ("0" +:+ nl) /\
   filter isFileAccess
     (events (RemountV1CgroupsRO "/" theMap "machine" ["app.service"]) k2
        (storeOf {[ 2 := ["cpuset"; "cpu"] ]})) = []).
Proof. vm_compute. repeat split. Qed.

(** ** Mount failures in the hierarchy builder *)

Lemma events_orReturn c wrap k0 k w :
  readOnly c -> readOnly k0 ->
  events (orReturn c wrap k0) k w =
    events c k w ++
    match result c k w with
    | Some _ => []
    | None => events k0 k (final c k w)
    end /\
  result (orReturn c wrap k0) k w =
    match result c k w with
    | Some e => Some (wrap e)
    | None => result k0 k (final c k w)
    end.
Proof.
  intros Hc Hk. unfold orReturn. split.
  - rewrite events_bind; [|done|by intros [e|]; read_only].
    f_equal. destruct (result c k w); [apply events_ret | done].
  - unfold result, final, bind. destruct (c k w) as [[e|] w1]; done.
Qed.

Lemma mountAborts_nil res : mountAborts [] res.
Proof. intros i ev target e H. by rewrite lookup_nil in H. Qed.

Lemma mountAborts_quiet ev res : mountFailure ev = None -> mountAborts [ev] res.
Proof.
  intros Hq [|i] ev' target e H Hf; simplify_eq/=; try congruence.
Qed.

Lemma mountAborts_seq evs1 (res1 : option error) wrap evs2 res2 :
  mountAborts evs1 (wrap <$> res1) -> mountAborts evs2 res2 ->
  mountAborts
    (evs1 ++ match res1 with Some _ => [] | None => evs2 end)
    (match res1 with Some e => Some (wrap e) | None => res2 end).
Proof.
  intros H1 H2 i ev target e Hi Hf. destruct res1 as [e1|].
  - rewrite app_nil_r in *. exact (H1 i ev target e Hi Hf).
  - apply lookup_app_Some in Hi as [Hi|[Hlen Hi]].
    + destruct (H1 i ev target e Hi Hf) as [_ [format Hres]]. done.
    + destruct (H2 _ ev target e Hi Hf) as [Hlast Hres].
      split; [|done]. rewrite length_app. lia.
Qed.

Lemma abortsOnMountFailure_orReturn c wrap k0 :
  readOnly c ->
  (forall k w, mountAborts (events c k w) (wrap <$> result c k w)) ->
  abortsOnMountFailure k0 ->
  abortsOnMountFailure (orReturn c wrap k0).
Proof.
  intros Hc Hm [Hk Hk']. split; [by apply readOnly_orReturn|].
  intros k w. destruct (events_orReturn c wrap k0 k w Hc Hk) as [-> ->].
  apply mountAborts_seq; [apply Hm | apply Hk'].
Qed.

Lemma abortsOnMountFailure_ret res :
  abortsOnMountFailure (ret res).
Proof.
  split; [apply readOnly_ret|]. intros k w. rewrite events_ret.
  apply mountAborts_nil.
Qed.

(** A call other than a mount cannot be a mount failure. *)
Lemma quiet_MkdirAll path perm wrap k w :
  mountAborts (events (env.MkdirAll path perm) k w)
    (wrap <$> result (env.MkdirAll path perm) k w).
Proof. unfold env.MkdirAll. rewrite events_call. by apply mountAborts_quiet. Qed.

Lemma quiet_Symlink old new wrap k w :
  mountAborts (events (env.Symlink old new) k w)
    (wrap <$> result (env.Symlink old new) k w).
Proof. unfold env.Symlink. rewrite events_call. by apply mountAborts_quiet. Qed.

(** A mount whose error is wrapped with its target. *)
Lemma wrapped_Mount source target fstype flags data format k w :
  mountAborts (events (env.Mount source target fstype flags data) k w)
    (wrappedError (Errorf format [AString target]) <$>
       result (env.Mount source target fstype flags data) k w).
Proof.
  unfold env.Mount. rewrite events_call. unfold result, call. cbn [fst].
  intros [|i] ev tgt e H Hf; simplify_eq/=.
  destruct (k_Mount k (trace w) source target fstype flags data) as [e'|];
    [|done].
  split; [done|]. exists format.
  destruct (String.eqb fstype "sysfs" && isEBUSY e'); by simplify_eq.
Qed.

(** The sysfs mount, whose EBUSY is dropped before the error check. *)
Lemma wrapped_sysfs_Mount target flags format k w :
  let c := (let! err := env.Mount "sysfs" target "sysfs" flags EmptyString in
            ret (exceptEBUSY err)) in
  mountAborts (events c k w)
    (wrappedError (Errorf format [AString target]) <$> result c k w).
Proof.
  intros c. unfold c.
  rewrite events_bind by (unfold env.Mount; read_only).
  rewrite events_ret, app_nil_r. unfold env.Mount. rewrite events_call.
  unfold result, bind, call, ret. cbn [fst].
  intros [|i] ev tgt e H Hf; simplify_eq/=.
  destruct (k_Mount k (trace w) "sysfs" target "sysfs" flags EmptyString)
    as [e'|]; [|done].
  split; [done|]. exists format. cbn [exceptEBUSY].
  destruct (isEBUSY e'); by simplify_eq/=.
Qed.

Lemma abortsOnMountFailure_forEach {A} (l : list A) body :
  (forall x, abortsOnMountFailure (body x)) ->
  abortsOnMountFailure (forEach l body).
Proof.
  intros Hb. induction l as [|x l IH]; cbn [forEach].
  - apply abortsOnMountFailure_ret.
  - destruct (Hb x) as [Hr Hm]. destruct IH as [IHr IHm].
    split; [apply (readOnly_forEach (x :: l)); intros; apply Hb|].
    intros k w. change (mountAborts (events (orReturn (body x) id (forEach l body)) k w)
                          (result (orReturn (body x) id (forEach l body)) k w)).
    destruct (events_orReturn (body x) id (forEach l body) k w Hr IHr) as [-> ->].
    apply mountAborts_seq; [|apply IHm].
    rewrite option_fmap_id. apply Hm.
Qed.

Lemma abortsOnMountFailure_mountFsRO mountPoint :
  abortsOnMountFailure (mountFsRO mountPoint).
Proof.
  unfold mountFsRO. apply abortsOnMountFailure_orReturn.
  - unfold env.Mount. read_only.
  - intros. apply wrapped_Mount.
  - apply abortsOnMountFailure_ret.
Qed.

Lemma abortsOnMountFailure_mountController root c :
  abortsOnMountFailure (mountController root c).
Proof.
  unfold mountController. apply abortsOnMountFailure_orReturn.
  - unfold env.MkdirAll. read_only.
  - intros. apply quiet_MkdirAll.
  - apply abortsOnMountFailure_orReturn.
    + unfold env.Mount. read_only.
    + intros. apply wrapped_Mount.
    + apply abortsOnMountFailure_ret.
Qed.

Lemma abortsOnMountFailure_makeSymlink tmpfs entry :
  abortsOnMountFailure (makeSymlink tmpfs entry).
Proof.
  destruct entry as [ln tgt]. unfold makeSymlink.
  apply abortsOnMountFailure_orReturn.
  - unfold env.Symlink. read_only.
  - intros. apply quiet_Symlink.
  - apply abortsOnMountFailure_ret.
Qed.

(** A call that asks the environment nothing may come first. *)
Lemma abortsOnMountFailure_silent {A} (c : M A) f :
  (forall k w, snd (c k w) = w) ->
  (forall a, abortsOnMountFailure (f a)) ->
  abortsOnMountFailure (bind c f).
Proof.
  intros Hs Hf. split.
  - apply readOnly_bind; [|intros; apply Hf].
    intros k w. rewrite Hs. by split.
  - intros k w. unfold events, result, bind.
    specialize (Hs k w). destruct (c k w) as [a w1]. simpl in Hs. subst w1.
    apply Hf.
Qed.

Lemma abortsOnMountFailure_orReturn_id c k0 :
  abortsOnMountFailure c -> abortsOnMountFailure k0 ->
  abortsOnMountFailure (orReturn c id k0).
Proof.
  intros [Hc Hm] Hk. apply abortsOnMountFailure_orReturn; [done| |done].
  intros k w. rewrite option_fmap_id. apply Hm.
Qed.

Lemma abortsOnMountFailure_CreateV1Cgroups root p mountContext :
  abortsOnMountFailure (CreateV1Cgroups root p mountContext).
Proof.
  unfold CreateV1Cgroups.
  apply abortsOnMountFailure_silent; [done|]. intros controllers.
  apply abortsOnMountFailure_orReturn;
    [unfold env.MkdirAll; read_only | intros; apply quiet_MkdirAll |].
  apply abortsOnMountFailure_orReturn;
    [unfold env.Mount; read_only | intros; apply wrapped_sysfs_Mount |].
  apply abortsOnMountFailure_orReturn;
    [unfold env.MkdirAll; read_only | intros; apply quiet_MkdirAll |].
  apply abortsOnMountFailure_orReturn;
    [unfold env.Mount; read_only | intros; apply wrapped_Mount |].
  apply abortsOnMountFailure_orReturn_id;
    [apply abortsOnMountFailure_forEach, abortsOnMountFailure_mountController|].
  apply abortsOnMountFailure_silent; [done|]. intros symlinks.
  apply abortsOnMountFailure_silent; [done|]. intros links.
  apply abortsOnMountFailure_orReturn_id;
    [apply abortsOnMountFailure_forEach, abortsOnMountFailure_makeSymlink|].
  apply abortsOnMountFailure_orReturn;
    [unfold env.MkdirAll; read_only | intros; apply quiet_MkdirAll |].
  apply abortsOnMountFailure_mountFsRO.
Qed.

(** The events of the builder up to the point after the sysfs mount. *)
Lemma CreateV1Cgroups_after_sysfs root p mountContext k w e :
  let sys := filepath.Join [root; "/sys"] in
  let cgroupTmpfs := filepath.Join [root; "/sys/fs/cgroup"] in
  let mkdir := EvMkdirAll sys perm0700 None in
  let mount := EvMount "sysfs" sys "sysfs" noSuidExecDev EmptyString e in
  k_MkdirAll k (trace w) sys perm0700 = None ->
  k_Mount k (trace w ++ [mkdir]) "sysfs" sys "sysfs" noSuidExecDev EmptyString = e ->
  exceptEBUSY e = None ->
  exists rest,
    events (CreateV1Cgroups root p mountContext) k w =
      [mkdir; mount;
       EvMkdirAll cgroupTmpfs perm0700
         (k_MkdirAll k (trace w ++ [mkdir; mount]) cgroupTmpfs perm0700)] ++ rest.
Proof.
  intros sys cgroupTmpfs mkdir mount Hmk Hmt Hex.
  pose proof (readOnly_CreateV1Cgroups root p mountContext k w) as [_ [evs Hevs]].
  unfold events. rewrite Hevs, drop_app_length.
  revert Hevs. unfold CreateV1Cgroups.
  unfold bind at 1. unfold GetV1ControllerDirs at 1. unfold bind at 1.
  unfold rangeMap at 1. cbn [fst snd ret].
  fold sys. fold cgroupTmpfs.
  set (rest4 := orReturn (env.Mount "tmpfs" cgroupTmpfs "tmpfs" _ _) _ _).
  assert (Hr4 : readOnly rest4).
  { unfold rest4, env.Mount, env.MkdirAll. read_only;
      auto using readOnly_getV1ControllerSymlinks, readOnly_mountController,
        readOnly_makeSymlink, readOnly_mountFsRO. }
  unfold orReturn at 1. unfold bind at 1. unfold env.MkdirAll at 1.
  unfold call at 1. rewrite Hmk. cbn [fst snd trace maps].
  unfold orReturn at 1. unfold bind at 1 2. unfold env.Mount at 1.
  unfold call at 1. cbn [fst snd trace maps]. fold mkdir. rewrite Hmt.
  cbn [ret fst snd]. rewrite Hex.
  unfold orReturn at 1. unfold bind at 1. unfold env.MkdirAll at 1.
  unfold call at 1. cbn [fst snd trace maps]. fold mount.
  rewrite <- (app_assoc (trace w) [mkdir] [mount]). cbn [app].
  set (r := k_MkdirAll k (trace w ++ [mkdir; mount]) cgroupTmpfs perm0700).
  set (w3 := {| trace := _; maps := maps w |}).
  destruct r as [e3|] eqn:Hr.
  - cbn [ret snd trace]. unfold w3. cbn [trace]. intros H.
    rewrite <- (app_assoc (trace w)) in H. apply app_inv_head in H.
    exists []. by rewrite <- H.
  - destruct (Hr4 k w3) as [_ [evs4 H4]]. rewrite H4. unfold w3. cbn [trace].
    intros H. rewrite <- !(app_assoc (trace w)) in H. apply app_inv_head in H.
    exists evs4. by rewrite <- H.
Qed.

Lemma isEBUSY_Errno e : isEBUSY e = true -> e = Errno syscall.EBUSY.
Proof. destruct e; try done. simpl. intros H. apply Z.eqb_eq in H. by subst. Qed.

(** C6: in the hierarchy builder, when the sysfs mount at <root>/sys
    answers EBUSY the build proceeds with the directory of the tmpfs cgroup
    root; any other failure of a mount, in any step, is the last call the
    builder makes, and the builder returns that error wrapped in a message
    formatted with the target path; the calls made before it stay in the
    trace and no call follows, so nothing is rolled back. *)
Theorem C6_mount_failures (k : Env) (w : World) (root : string) (p : mapRef)
    (mountContext : string) :
  let evs := events (CreateV1Cgroups root p mountContext) k w in
  let res := result (CreateV1Cgroups root p mountContext) k w in
  let sys := filepath.Join [root; "/sys"] in
  let cgroupTmpfs := filepath.Join [root; "/sys/fs/cgroup"] in
  let busy := Some (Errno syscall.EBUSY) in
  (k_MkdirAll k (trace w) sys perm0700 = None ->
   k_Mount k (trace w ++ [EvMkdirAll sys perm0700 None])
     "sysfs" sys "sysfs" noSuidExecDev EmptyString = busy ->
   exists r rest,
     evs = [EvMkdirAll sys perm0700 None;
            EvMount "sysfs" sys "sysfs" noSuidExecDev EmptyString busy;
            EvMkdirAll cgroupTmpfs perm0700 r] ++ rest) /\
  (forall i source target fstype flags data e,
     evs !! i = Some (EvMount source target fstype flags data (Some e)) ->
     ~ (fstype = "sysfs" /\ e = Errno syscall.EBUSY) ->
     S i = length evs /\
     exists format,
       res = Some (wrappedError (Errorf format [AString target]) e)) /\
  trace (final (CreateV1Cgroups root p mountContext) k w) = trace w ++ evs.
Proof.
  intros evs res sys cgroupTmpfs busy. split_and!.
  - intros Hmk Hmt.
    destruct (CreateV1Cgroups_after_sysfs root p mountContext k w busy Hmk Hmt
                eq_refl) as [rest Hrest].
    eauto.
  - intros i source target fstype flags data e Hi Hne.
    destruct (abortsOnMountFailure_CreateV1Cgroups root p mountContext)
      as [_ Hm].
    apply (Hm k w i _ target e Hi). cbn [mountFailure].
    destruct (String.eqb_spec fstype "sysfs") as [->|]; [|done].
    destruct (isEBUSY e) eqn:Hb; [|done].
    apply isEBUSY_Errno in Hb. tauto.
  - apply trace_final_events, readOnly_CreateV1Cgroups.
Qed.

Lemma C6_mount_failures_witness :
  let k := busyHost "cgroup" in
  let w := storeOf sampleHierarchies in
  let target := "/root/sys/fs/cgroup/cpu,cpuacct" in
  let e := Errno EPERM in
  events (CreateV1Cgroups "/root" theMap EmptyString) k w !! 5%nat =
    Some (EvMount "cgroup" target "cgroup" noSuidExecDev "cpu,cpuacct" (Some e)) /\
  ~ ("cgroup" = "sysfs" /\ e = Errno syscall.EBUSY) /\
  6%nat = length (events (CreateV1Cgroups "/root" theMap EmptyString) k w) /\
  exists format,
    result (CreateV1Cgroups "/root" theMap EmptyString) k w =
      Some (wrappedError (Errorf format [AString target]) e).
Proof.
  intros k w target e.
  assert (Hi : events (CreateV1Cgroups "/root" theMap EmptyString) k w !! 5%nat =
               Some (EvMount "cgroup" target "cgroup" noSuidExecDev
                       "cpu,cpuacct" (Some e))) by reflexivity.
  assert (Hne : ~ ("cgroup" = "sysfs" /\ e = Errno syscall.EBUSY)).
  { intros [H _]. discriminate H. }
  split; [exact Hi | split; [exact Hne|]].
  exact (proj1 (proj2 (C6_mount_failures k w "/root" theMap EmptyString))
           5%nat "cgroup" target "cgroup" noSuidExecDev "cpu,cpuacct" e Hi Hne).
Defined.

(** On the busy host the build goes on after the sysfs mount and, with
    nothing else failing, succeeds. *)
Example busy_sysfs_tolerated :
  result (CreateV1Cgroups "/root" theMap EmptyString) (busyHost "none")
    (storeOf sampleHierarchies) = None /\
  events (CreateV1Cgroups "/root" theMap EmptyString) (busyHost "none")
    (storeOf sampleHierarchies) !! 1%nat =
    Some (EvMount "sysfs" "/root/sys" "sysfs" noSuidExecDev EmptyString
            (Some (Errno syscall.EBUSY))).
Proof. vm_compute. split; reflexivity. Qed.

(** ** Directory names and the symlink table *)

Lemma insert_all_lookup (tgt : string) (cs : list string)
    (sl : gmap string string) (x : string) :
  foldl (fun sl ln => <[ln := tgt]> sl) sl cs !! x =
    if decide (x ∈ cs) then Some tgt else sl !! x.
Proof.
  revert sl. induction cs as [|c cs IH]; intros sl; cbn [foldl].
  - case_decide as H; [by apply elem_of_nil in H | done].
  - rewrite IH. destruct (decide (x ∈ cs)) as [Hin|Hnin].
    + rewrite decide_True; [done|]. by right.
    + destruct (decide (x = c)) as [->|Hne].
      * rewrite lookup_insert_eq, decide_True; [done|]. by left.
      * rewrite lookup_insert_ne by done.
        rewrite decide_False; [done|]. by intros [?|?]%elem_of_cons.
Qed.

Lemma addSymlinks_lookup sl cs x :
  addSymlinks sl cs !! x =
    if decide (joint cs /\ x ∈ cs) then Some (dirName cs) else sl !! x.
Proof.
  unfold addSymlinks, joint.
  destruct (1 <? Z.of_nat (length cs)) eqn:E.
  - apply Z.ltb_lt in E. rewrite insert_all_lookup.
    destruct (decide (x ∈ cs)).
    + rewrite decide_True; [done|]. split; [lia|done].
    + rewrite decide_False; [done|]. tauto.
  - apply Z.ltb_ge in E. rewrite decide_False; [done|]. lia.
Qed.

Lemma symlinkTable_sound entries sl x tgt :
  symlinkTable entries sl !! x = Some tgt ->
  sl !! x = Some tgt \/
  exists h cs, (h, cs) ∈ entries /\ joint cs /\ x ∈ cs /\ tgt = dirName cs.
Proof.
  revert sl. induction entries as [|[h cs] entries IH]; intros sl; simpl.
  - by left.
  - intros H. apply IH in H as [H|(h' & cs' & Hin & ?)].
    + rewrite addSymlinks_lookup in H.
      destruct (decide (joint cs /\ x ∈ cs)) as [[??]|]; [|by left].
      right. exists h, cs. split; [by left|]. by simplify_eq.
    + right. exists h', cs'. split; [by right|done].
Qed.

Lemma symlinkTable_keeps entries sl x :
  is_Some (sl !! x) -> is_Some (symlinkTable entries sl !! x).
Proof.
  revert sl. induction entries as [|[h cs] entries IH]; intros sl; simpl; [done|].
  intros Hs. apply IH. rewrite addSymlinks_lookup.
  by destruct (decide (joint cs /\ x ∈ cs)).
Qed.

Lemma symlinkTable_complete entries sl h cs x :
  (h, cs) ∈ entries -> joint cs -> x ∈ cs ->
  is_Some (symlinkTable entries sl !! x).
Proof.
  revert sl. induction entries as [|[h' cs'] entries IH]; intros sl Hin Hj Hx.
  - by apply elem_of_nil in Hin.
  - simpl. apply elem_of_cons in Hin as [[= <- <-]|Hin].
    + apply symlinkTable_keeps. rewrite addSymlinks_lookup.
      by rewrite decide_True.
    + by apply IH.
Qed.

Lemma rangeCgroups_elem k tr (m : gmap Z (list string)) h cs :
  (h, cs) ∈ rangeCgroups k tr m <-> m !! h = Some cs.
Proof. rewrite (rangeCgroups_perm k tr m). apply elem_of_map_to_list. Qed.

Lemma getV1ControllerSymlinks_run p k w :
  getV1ControllerSymlinks p k w =
    (symlinkTable (rangeCgroups k (trace w) (deref p w)) ∅, w).
Proof. reflexivity. Qed.

(** Every entry of the table is a link of a joint hierarchy. *)
Lemma symlinks_sound p k w ln tgt :
  result (getV1ControllerSymlinks p) k w !! ln = Some tgt ->
  linkOf (deref p w) ln tgt.
Proof.
  unfold result. rewrite getV1ControllerSymlinks_run. cbn [fst].
  intros [H|(h & cs & Hin & ?)]%symlinkTable_sound; [done|].
  exists h, cs. by rewrite <- (rangeCgroups_elem k (trace w)).
Qed.

(** Every controller of a joint hierarchy has an entry. *)
Lemma symlinks_complete p k w h cs ln :
  deref p w !! h = Some cs -> joint cs -> ln ∈ cs ->
  exists tgt,
    result (getV1ControllerSymlinks p) k w !! ln = Some tgt /\
    linkOf (deref p w) ln tgt.
Proof.
  intros Hm Hj Hl. unfold result. rewrite getV1ControllerSymlinks_run. cbn [fst].
  apply (rangeCgroups_elem k (trace w)) in Hm.
  destruct (symlinkTable_complete _ ∅ h cs ln Hm Hj Hl) as [tgt Ht].
  exists tgt. split; [done|].
  apply (symlinks_sound p k w). unfold result.
  by rewrite getV1ControllerSymlinks_run.
Qed.

Lemma linkOf_unique m h cs ln tgt :
  disjointJoint m -> m !! h = Some cs -> joint cs -> ln ∈ cs ->
  linkOf m ln tgt -> tgt = dirName cs.
Proof.
  intros Hd Hm Hj Hl (h' & cs' & Hm' & Hj' & Hl' & ->).
  assert (h = h') as <- by eauto. congruence.
Qed.

Lemma dirs_permutation p k w :
  result (GetV1ControllerDirs p) k w ≡ₚ
    map (fun entry => dirName (snd entry)) (map_to_list (deref p w)).
Proof.
  unfold result, GetV1ControllerDirs, bind, rangeMap, ret. cbn [fst].
  rewrite (rangeCgroups_perm k (trace w) (deref p w)).
  erewrite map_ext; [reflexivity|]. by intros [h cs].
Qed.

(** ** The calls of a successful build *)

Lemma final_maps {A} (c : M A) k w :
  readOnly c -> maps (final c k w) = maps w.
Proof. intros Hc. apply Hc. Qed.

Lemma deref_maps p w w' : maps w' = maps w -> deref p w' = deref p w.
Proof. intros H. unfold deref. by rewrite H. Qed.

(** A step that succeeded, and the rest. *)
Lemma orReturn_ok c wrap k0 k w :
  readOnly c -> readOnly k0 ->
  result (orReturn c wrap k0) k w = None ->
  result c k w = None /\
  result k0 k (final c k w) = None /\
  events (orReturn c wrap k0) k w = events c k w ++ events k0 k (final c k w).
Proof.
  intros Hc Hk. destruct (events_orReturn c wrap k0 k w Hc Hk) as [-> ->].
  by destruct (result c k w).
Qed.

Lemma call_ok {A} (answer : Env -> list Event -> A) (ev : A -> Event) k w r :
  result (call answer ev) k w = r -> events (call answer ev) k w = [ev r].
Proof. intros <-. apply events_call. Qed.

Lemma forEach_ok {A} (l : list A) (body : A -> M (option error))
    (g : A -> list Event) k w :
  (forall x, readOnly (body x)) ->
  (forall x k w, result (body x) k w = None -> events (body x) k w = g x) ->
  result (forEach l body) k w = None ->
  events (forEach l body) k w = flat_map g l.
Proof.
  intros Hr Hg. revert w. induction l as [|x l IH]; intros w.
  - intros _. apply events_ret.
  - change (forEach (x :: l) body) with (orReturn (body x) id (forEach l body)).
    intros (H1 & H2 & ->)%orReturn_ok; [|done|by apply readOnly_forEach].
    cbn [flat_map]. by rewrite (Hg x k w H1), (IH _ H2).
Qed.

Lemma mountController_ok root c k w :
  result (mountController root c) k w = None ->
  events (mountController root c) k w = controllerEvents root c.
Proof.
  unfold mountController.
  intros (H1 & H2 & ->)%orReturn_ok;
    [|unfold env.MkdirAll; read_only|unfold env.Mount; read_only].
  apply orReturn_ok in H2 as (H2 & _ & ->);
    [|unfold env.Mount; read_only|read_only].
  unfold env.MkdirAll, env.Mount in *.
  rewrite (call_ok _ _ _ _ _ H1), (call_ok _ _ _ _ _ H2), events_ret. done.
Qed.

Lemma makeSymlink_ok cgroupTmpfs entry k w :
  result (makeSymlink cgroupTmpfs entry) k w = None ->
  events (makeSymlink cgroupTmpfs entry) k w = [symlinkEvent cgroupTmpfs entry].
Proof.
  destruct entry as [ln tgt]. unfold makeSymlink.
  intros (H1 & _ & ->)%orReturn_ok; [|unfold env.Symlink; read_only|read_only].
  unfold env.Symlink in *. by rewrite (call_ok _ _ _ _ _ H1), events_ret.
Qed.

Lemma mountFsRO_ok mountPoint k w :
  result (mountFsRO mountPoint) k w = None ->
  events (mountFsRO mountPoint) k w =
    [EvMount mountPoint mountPoint EmptyString readOnlyFlags EmptyString None].
Proof.
  unfold mountFsRO.
  intros (H1 & _ & ->)%orReturn_ok; [|unfold env.Mount; read_only|read_only].
  unfold env.Mount in *. by rewrite (call_ok _ _ _ _ _ H1), events_ret.
Qed.

Lemma flat_map_singleton {A B} (f : A -> B) (l : list A) :
  flat_map (fun x => [f x]) l = map f l.
Proof. induction l; simpl; congruence. Qed.

Lemma MkdirAll_ok path perm k w :
  result (env.MkdirAll path perm) k w = None ->
  events (env.MkdirAll path perm) k w = [EvMkdirAll path perm None].
Proof. apply call_ok. Qed.

Lemma Mount_ok source target fstype flags data k w :
  result (env.Mount source target fstype flags data) k w = None ->
  events (env.Mount source target fstype flags data) k w =
    [EvMount source target fstype flags data None].
Proof. apply call_ok. Qed.

Lemma sysfs_Mount_ok target flags k w :
  let c := (let! err := env.Mount "sysfs" target "sysfs" flags EmptyString in
            ret (exceptEBUSY err)) in
  result c k w = None ->
  exists answer,
    exceptEBUSY answer = None /\
    events c k w = [EvMount "sysfs" target "sysfs" flags EmptyString answer].
Proof.
  intros c. unfold c. rewrite result_bind.
  rewrite events_bind by (unfold env.Mount; read_only).
  rewrite events_ret, app_nil_r. unfold env.Mount. rewrite events_call.
  intros H. eexists. split; [|reflexivity]. exact H.
Qed.

Ltac build_ro :=
  unfold env.MkdirAll, env.Mount; read_only;
  auto using readOnly_GetV1ControllerDirs, readOnly_getV1ControllerSymlinks,
    readOnly_mountController, readOnly_makeSymlink, readOnly_mountFsRO.

(** Steps over a call that asks the environment nothing. *)
Ltac skip_silent H :=
  match type of H with
  | result (bind ?c ?f) ?k ?w = _ =>
      let Hr := fresh in
      let He := fresh in
      destruct (silent_bind c f k w eq_refl) as [Hr He];
      rewrite Hr in H; rewrite He; clear Hr He; cbv beta in *
  end.

(** The calls of a build that returns nil, in order. *)
Lemma CreateV1Cgroups_ok root p mountContext k w :
  result (CreateV1Cgroups root p mountContext) k w = None ->
  exists sysfsAnswer w' links,
    exceptEBUSY sysfsAnswer = None /\
    maps w' = maps w /\
    links ≡ₚ map_to_list (result (getV1ControllerSymlinks p) k w') /\
    events (CreateV1Cgroups root p mountContext) k w =
      buildEvents root mountContext sysfsAnswer
        (result (GetV1ControllerDirs p) k w) links.
Proof.
  unfold CreateV1Cgroups, buildEvents. intros H.
  skip_silent H.
  set (dirs := result (GetV1ControllerDirs p) k w) in *.
  set (sys := filepath.Join [root; "/sys"]) in *.
  set (cgroupTmpfs := filepath.Join [root; "/sys/fs/cgroup"]) in *.
  fold (tmpfsOptions mountContext) in *.
  (* the directory of sysfs *)
  apply orReturn_ok in H as (H1 & H & ->); [|build_ro..].
  rewrite (MkdirAll_ok _ _ _ _ H1).
  assert (M1 := final_maps (env.MkdirAll sys perm0700) k w ltac:(build_ro)).
  set (w1 := final (env.MkdirAll sys perm0700) k w) in *.
  (* the sysfs mount *)
  apply orReturn_ok in H as (H2 & H & ->); [|build_ro..].
  destruct (sysfs_Mount_ok _ _ _ _ H2) as (answer & Hbusy & ->).
  match type of H with result _ k ?w0 = _ =>
    assert (M2 : maps w0 = maps w1) by (apply final_maps; build_ro);
    set (w2 := w0) in * end.
  (* the tmpfs cgroup root *)
  apply orReturn_ok in H as (H3 & H & ->); [|build_ro..].
  rewrite (MkdirAll_ok _ _ _ _ H3).
  match type of H with result _ k ?w0 = _ =>
    assert (M3 : maps w0 = maps w2) by (apply final_maps; build_ro);
    set (w3 := w0) in * end.
  apply orReturn_ok in H as (H4 & H & ->); [|build_ro..].
  rewrite (Mount_ok _ _ _ _ _ _ _ H4).
  match type of H with result _ k ?w0 = _ =>
    assert (M4 : maps w0 = maps w3) by (apply final_maps; build_ro);
    set (w4 := w0) in * end.
  (* the controllers *)
  apply orReturn_ok in H as (H5 & H & ->); [|build_ro..].
  rewrite (forEach_ok dirs (mountController root) (controllerEvents root) k w4
             (readOnly_mountController root) (mountController_ok root) H5).
  match type of H with result _ k ?w0 = _ =>
    assert (M5 : maps w0 = maps w4) by (apply final_maps; build_ro);
    set (w5 := w0) in * end.
  (* the symlinks *)
  skip_silent H.
  set (symlinks := result (getV1ControllerSymlinks p) k w5) in *.
  skip_silent H.
  set (links := result (rangeLinks symlinks) k w5) in *.
  apply orReturn_ok in H as (H6 & H & ->); [|build_ro..].
  rewrite (forEach_ok links (makeSymlink cgroupTmpfs)
             (fun x => [symlinkEvent cgroupTmpfs x]) k w5
             (readOnly_makeSymlink cgroupTmpfs) (makeSymlink_ok cgroupTmpfs) H6).
  rewrite flat_map_singleton.
  (* the systemd placeholder and the read-only remount *)
  apply orReturn_ok in H as (H7 & H & ->); [|build_ro..].
  rewrite (MkdirAll_ok _ _ _ _ H7), (mountFsRO_ok _ _ _ H).
  exists answer, w5, links. split_and!; [done| |apply rangeSymlinks_perm|done].
  congruence.
Qed.

(** C2 (as amended): the directory names of a hierarchy map are, one per
    hierarchy, the comma-join of the hierarchy's controllers in the order
    in which they were discovered.  Every entry of the symlink table links
    a member of a hierarchy with more than one controller to the directory
    name of that hierarchy, so a hierarchy with exactly one controller
    produces none, and every member of a hierarchy with more than one
    controller has an entry; when no controller is a member of two
    different such hierarchies, the entry of a member is the directory name
    of its own hierarchy.  A build that returns nil has made and mounted
    exactly the directories of these names and made exactly the symlinks of
    the table. *)
Theorem C2_directories_and_symlinks (k : Env) (w : World) (p : mapRef)
    (root mountContext : string) :
  let m := deref p w in
  let dirs := result (GetV1ControllerDirs p) k w in
  let table := result (getV1ControllerSymlinks p) k w in
  dirs ≡ₚ map (fun entry => dirName (snd entry)) (map_to_list m) /\
  (forall ln tgt, table !! ln = Some tgt -> linkOf m ln tgt) /\
  (forall h cs ln,
     m !! h = Some cs -> joint cs -> ln ∈ cs ->
     exists tgt, table !! ln = Some tgt /\ linkOf m ln tgt) /\
  (disjointJoint m ->
   forall h cs ln,
     m !! h = Some cs -> joint cs -> ln ∈ cs ->
     table !! ln = Some (dirName cs)) /\
  (result (CreateV1Cgroups root p mountContext) k w = None ->
   exists sysfsAnswer links,
     exceptEBUSY sysfsAnswer = None /\
     events (CreateV1Cgroups root p mountContext) k w =
       buildEvents root mountContext sysfsAnswer dirs links /\
     (forall ln tgt, (ln, tgt) ∈ links -> linkOf m ln tgt) /\
     (forall h cs ln,
        m !! h = Some cs -> joint cs -> ln ∈ cs ->
        exists tgt, (ln, tgt) ∈ links) /\
     (disjointJoint m ->
      forall h cs ln,
        m !! h = Some cs -> joint cs -> ln ∈ cs ->
        (ln, dirName cs) ∈ links)).
Proof.
  cbv zeta. split_and!.
  - apply dirs_permutation.
  - intros ln tgt. apply symlinks_sound.
  - intros h cs ln. apply symlinks_complete.
  - intros Hd h cs ln Hm Hj Hl.
    destruct (symlinks_complete p k w h cs ln Hm Hj Hl) as (tgt & Ht & Hlink).
    by rewrite Ht, (linkOf_unique (deref p w) h cs ln tgt).
  - intros (answer & w' & links & Hbusy & Hmaps & Hperm & Hevs)%CreateV1Cgroups_ok.
    exists answer, links.
    assert (Hm' : deref p w' = deref p w) by (by apply deref_maps).
    assert (Hin : forall ln tgt,
      (ln, tgt) ∈ links <->
      result (getV1ControllerSymlinks p) k w' !! ln = Some tgt).
    { intros ln tgt. rewrite Hperm. apply elem_of_map_to_list. }
    split_and!; [done|done| | |].
    + intros ln tgt Hl%Hin. rewrite <- Hm'. by apply (symlinks_sound p k w').
    + intros h cs ln Hm Hj Hl. rewrite <- Hm' in Hm.
      destruct (symlinks_complete p k w' h cs ln Hm Hj Hl) as (tgt & Ht & _).
      exists tgt. by apply Hin.
    + intros Hd h cs ln Hm Hj Hl. apply Hin.
      rewrite <- Hm' in Hm, Hd.
      destruct (symlinks_complete p k w' h cs ln Hm Hj Hl) as (tgt & Ht & Hlink).
      by rewrite Ht, (linkOf_unique (deref p w') h cs ln tgt).
Qed.

Lemma sampleHierarchies_disjoint : disjointJoint sampleHierarchies.
Proof.
  assert (Hj : forall h cs, sampleHierarchies !! h = Some cs -> joint cs -> h = 3).
  { intros h cs Hm Hj. unfold sampleHierarchies in Hm.
    apply lookup_insert_Some in Hm as [[<- <-]|[_ Hm]].
    - unfold joint in Hj. simpl in Hj. lia.
    - by apply lookup_singleton_Some in Hm as [<- _]. }
  intros h1 cs1 h2 cs2 ln H1 H2 J1 J2 _ _.
  by rewrite (Hj h1 cs1), (Hj h2 cs2).
Qed.

Lemma C2_directories_and_symlinks_witness :
  let k := v1Host in
  let w := storeOf sampleHierarchies in
  disjointJoint (deref theMap w) /\
  deref theMap w !! 3 = Some ["cpu"; "cpuacct"] /\
  joint ["cpu"; "cpuacct"] /\
  "cpu" ∈ ["cpu"; "cpuacct"] /\
  result (getV1ControllerSymlinks theMap) k w !! "cpu" = Some "cpu,cpuacct".
Proof.
  intros k w.
  assert (Hd : disjointJoint (deref theMap w)) by exact sampleHierarchies_disjoint.
  assert (Hm : deref theMap w !! 3 = Some ["cpu"; "cpuacct"]) by reflexivity.
  assert (Hj : joint ["cpu"; "cpuacct"]) by (unfold joint; simpl; lia).
  assert (Hl : "cpu" ∈ ["cpu"; "cpuacct"]) by constructor.
  split; [exact Hd | split; [exact Hm | split; [exact Hj | split; [exact Hl|]]]].
  exact (proj1 (proj2 (proj2 (proj2
           (C2_directories_and_symlinks k w theMap "/" EmptyString))))
           Hd 3 ["cpu"; "cpuacct"] "cpu" Hm Hj Hl).
Defined.

(** C2 as stated fails: cpu is a member of the joint hierarchy 2 (cpu,
    memory) of the map, but the table and the build link cpu to cpu,cpuacct,
    the name of hierarchy 1, which was visited later. *)
Lemma C2_counterexample :
  let k := v1Host in
  let w := storeOf overlappingHierarchies in
  (deref theMap w !! 2 = Some ["cpu"; "memory"] /\
   joint ["cpu"; "memory"] /\
   "cpu" ∈ ["cpu"; "memory"]) /\
  dirName ["cpu"; "memory"] = "cpu,memory" /\
  result (getV1ControllerSymlinks theMap) k w !! "cpu" = Some "cpu,cpuacct" /\
  result (CreateV1Cgroups "/" theMap EmptyString) k w = None /\
  filter isSymlink (events (CreateV1Cgroups "/" theMap EmptyString) k w) =
    [EvSymlink "cpu,cpuacct" "/sys/fs/cgroup/cpuacct" None;
     EvSymlink "cpu,cpuacct" "/sys/fs/cgroup/cpu" None;
     EvSymlink "cpu,memory" "/sys/fs/cgroup/memory" None].
Proof.
  intros k w. split.
  - split; [reflexivity|]. split; [unfold joint; simpl; lia | constructor].
  - vm_compute. repeat split.
Qed.

(** Whatever the order of the visits, the table cannot link cpu to both of
    its joint hierarchies. *)
Lemma overlapping_never_linked_to_both (k : Env) :
  let w := storeOf overlappingHierarchies in
  ~ (forall h cs ln,
       deref theMap w !! h = Some cs -> joint cs -> ln ∈ cs ->
       result (getV1ControllerSymlinks theMap) k w !! ln = Some (dirName cs)).
Proof.
  intros w H.
  assert (H1 := H 1 ["cpu"; "cpuacct"] "cpu" eq_refl
                  ltac:(unfold joint; simpl; lia) ltac:(constructor)).
  assert (H2 := H 2 ["cpu"; "memory"] "cpu" eq_refl
                  ltac:(unfold joint; simpl; lia) ltac:(constructor)).
  rewrite H1 in H2. discriminate H2.
Qed.

(** Two hierarchies of one controller each: the build mounts the two
    directories, makes no symlink and ends with the read-only remount. *)
Example two_single_hierarchies :
  events (CreateV1Cgroups "/root" theMap EmptyString) v1Host
    (storeOf {[ 0 := ["cpu"]; 1 := ["memory"] ]}) =
  buildEvents "/root" EmptyString None ["memory"; "cpu"] [].
Proof. vm_compute. reflexivity. Qed.

(** * Further properties of the package *)

(** ** Splitting and joining *)

Lemma string_app_cons x (a b : string) : String x a +:+ b = String x (a +:+ b).
Proof. reflexivity. Qed.

Lemma string_app_assoc (a b c : string) : (a +:+ b) +:+ c = a +:+ b +:+ c.
Proof.
  induction a as [|x a IH]; [done|].
  rewrite !string_app_cons. cbn [String.length]. by rewrite IH.
Qed.

Lemma string_app_nil_r (a : string) : a +:+ EmptyString = a.
Proof.
  induction a as [|x a IH]; [done|].
  rewrite !string_app_cons. cbn [String.length]. by rewrite IH.
Qed.

Lemma string_length_app (a b : string) :
  String.length (a +:+ b) = (String.length a + String.length b)%nat.
Proof.
  induction a as [|x a IH]; [done|].
  rewrite !string_app_cons. cbn [String.length]. by rewrite IH.
Qed.




Lemma Join_cons e rest sep :
  rest <> [] -> Strings.Join (e :: rest) sep = e +:+ sep +:+ Strings.Join rest sep.
Proof. by destruct rest. Qed.




Lemma cut_comma_free c : commaFree c -> Strings.cut c "," = None.
Proof. unfold commaFree, Contains. by destruct (Strings.cut c ","). Qed.

Lemma cut_at_comma c t :
  commaFree c -> Strings.cut (c +:+ "," +:+ t) "," = Some (c, t).
Proof.
  induction c as [|x c IH]; intros Hc.
  - reflexivity.
  - unfold commaFree, Contains in Hc. cbn [Strings.cut Strings.HasPrefix] in Hc.
    rewrite string_app_cons. cbn [Strings.cut Strings.HasPrefix].
    destruct (Ascii.eqb "," x); [done|].
    rewrite IH; [done|]. unfold commaFree, Contains.
    by destruct (Strings.cut c ",") as [[??]|].
Qed.

Lemma splitLoop_Join fuel cs n :
  cs <> [] -> Forall commaFree cs -> n < 0 ->
  (String.length (Strings.Join cs ",") <= fuel)%nat ->
  Strings.splitLoop fuel (Strings.Join cs ",") "," n = cs.
Proof.
  revert fuel n. induction cs as [|c cs IH]; intros fuel n Hne Hf Hn Hlen; [done|].
  apply Forall_cons in Hf as [Hc Hf].
  destruct cs as [|c2 cs].
  - cbn [Strings.Join]. destruct fuel; cbn [Strings.splitLoop]; [done|].
    destruct (Z.eqb_spec n 1); [lia|]. by rewrite cut_comma_free.
  - rewrite Join_cons in * by done.
    rewrite !string_length_app in Hlen. cbn [String.length] in Hlen.
    destruct fuel as [|fuel]; [lia|]. cbn [Strings.splitLoop].
    destruct (Z.eqb_spec n 1); [lia|].
    rewrite cut_at_comma by done. f_equal.
    apply IH; [done|done|lia|lia].
Qed.

(** Splitting a comma-join of comma-free names restores the names. *)
Lemma Split_Join cs :
  cs <> [] -> Forall commaFree cs ->
  Strings.Split (Strings.Join cs ",") "," = cs.
Proof.
  intros Hne Hf. unfold Strings.Split, Strings.SplitN. cbn [Z.eqb].
  by apply splitLoop_Join.
Qed.

(** ** The files that stay writable *)

Lemma rwTable_entries p fs :
  v1CgroupControllerRWFiles !! p = Some fs ->
  (p = "memory" /\ fs = ["memory.limit_in_bytes"]) \/
  (p = "cpu" /\ fs = ["cpu.cfs_quota_us"]) \/
  (p = "devices" /\ fs = ["devices.allow"; "devices.deny"]).
Proof.
  unfold v1CgroupControllerRWFiles. intros H.
  apply lookup_insert_Some in H as [[<- <-]|[_ H]]; [by left|].
  apply lookup_insert_Some in H as [[<- <-]|[_ H]]; [by right; left|].
  apply lookup_singleton_Some in H as [<- <-]. by right; right.
Qed.

Lemma firstRWFiles_none parts :
  firstRWFiles parts = [] <-> Forall notListed parts.
Proof.
  induction parts as [|p parts IH]; cbn [firstRWFiles]; [done|].
  destruct (v1CgroupControllerRWFiles !! p) as [fs|] eqn:E.
  - split.
    + intros H. by apply app_eq_nil in H as [_ ?].
    + intros [H _]%Forall_cons. unfold notListed in H. congruence.
  - rewrite IH. split; [by constructor | by intros [_ ?]%Forall_cons].
Qed.

Lemma firstRWFiles_first before p after fs :
  Forall notListed before ->
  v1CgroupControllerRWFiles !! p = Some fs ->
  firstRWFiles (before ++ p :: after) = fs ++ ["cgroup.procs"].
Proof.
  intros Hb Hp. induction Hb as [|q before Hq _ IH]; cbn [app firstRWFiles].
  - by rewrite Hp.
  - unfold notListed in Hq. by rewrite Hq.
Qed.

Lemma firstRWFiles_found parts :
  firstRWFiles parts <> [] ->
  exists before p after fs,
    parts = before ++ p :: after /\ Forall notListed before /\
    v1CgroupControllerRWFiles !! p = Some fs /\
    firstRWFiles parts = fs ++ ["cgroup.procs"].
Proof.
  induction parts as [|q parts IH]; cbn [firstRWFiles]; [done|].
  destruct (v1CgroupControllerRWFiles !! q) as [fs|] eqn:E.
  - intros _. exists [], q, parts, fs. by split_and!.
  - intros (before & p & after & fs & -> & Hb & Hp & ->)%IH.
    exists (q :: before), p, after, fs. split_and!; [done| |done|done].
    by constructor.
Qed.

(** X1: [getV1ControllerRWFiles] answers for the first comma-separated
    part of the directory name that has an entry in the allow-list: the
    files of that entry followed by cgroup.procs.  The result is nil
    exactly when no part has an entry; a result that is not nil has at least
    two files and ends with cgroup.procs; and every file it names is one of
    the four knobs of the allow-list or cgroup.procs. *)
Theorem X1_rw_files_of_directory (controller : string) :
  let parts := Strings.Split controller "," in
  let files := getV1ControllerRWFiles controller in
  (files = [] <-> Forall notListed parts) /\
  (forall before p after fs,
     parts = before ++ p :: after -> Forall notListed before ->
     v1CgroupControllerRWFiles !! p = Some fs ->
     files = fs ++ ["cgroup.procs"]) /\
  (files <> [] ->
   last files = Some "cgroup.procs" /\ (2 <= length files)%nat) /\
  (forall f, f ∈ files -> f ∈ knownKnobs).
Proof.
  cbv zeta. unfold getV1ControllerRWFiles. split_and!.
  - apply firstRWFiles_none.
  - intros before p after fs -> Hb Hp. by apply firstRWFiles_first.
  - intros (before & p & after & fs & _ & _ & Hp & ->)%firstRWFiles_found.
    split; [apply last_snoc|].
    rewrite length_app. cbn [length].
    apply rwTable_entries in Hp as [[_ ->]|[[_ ->]|[_ ->]]]; cbn [length]; lia.
  - intros f Hf.
    destruct (decide (firstRWFiles (Strings.Split controller ",") = []))
      as [E|Hne]; [rewrite E in Hf; by apply elem_of_nil in Hf|].
    apply firstRWFiles_found in Hne
      as (before & p & after & fs & _ & _ & Hp & E).
    rewrite E in Hf. unfold knownKnobs.
    apply rwTable_entries in Hp as [[_ ->]|[[_ ->]|[_ ->]]]; cbn [app] in Hf;
      repeat (apply elem_of_cons in Hf as [->|Hf]; [by repeat constructor|]);
      by apply elem_of_nil in Hf.
Qed.

Lemma X1_rw_files_of_directory_witness :
  Strings.Split "cpuacct,cpu" "," = ["cpuacct"] ++ "cpu" :: [] /\
  Forall notListed ["cpuacct"] /\
  v1CgroupControllerRWFiles !! "cpu" = Some ["cpu.cfs_quota_us"] /\
  getV1ControllerRWFiles "cpuacct,cpu" = ["cpu.cfs_quota_us"; "cgroup.procs"].
Proof.
  assert (Hs : Strings.Split "cpuacct,cpu" "," = ["cpuacct"] ++ "cpu" :: [])
    by reflexivity.
  assert (Hb : Forall notListed ["cpuacct"]).
  { constructor; [reflexivity | constructor]. }
  assert (Hp : v1CgroupControllerRWFiles !! "cpu" = Some ["cpu.cfs_quota_us"])
    by reflexivity.
  split; [exact Hs | split; [exact Hb | split; [exact Hp|]]].
  exact (proj1 (proj2 (X1_rw_files_of_directory "cpuacct,cpu"))
           ["cpuacct"] "cpu" [] ["cpu.cfs_quota_us"] Hs Hb Hp).
Defined.

(** X2: for a hierarchy whose controller names contain no comma, splitting
    its directory name at the commas gives back the controllers in order,
    so the files kept writable for the directory are those of the first
    controller of the hierarchy that has an allow-list entry, and of no
    other controller of the hierarchy. *)
Theorem X2_rw_files_of_hierarchy (cs : list string) :
  Forall commaFree cs ->
  (cs <> [] -> Strings.Split (dirName cs) "," = cs) /\
  getV1ControllerRWFiles (dirName cs) = firstRWFiles cs /\
  (forall before p after fs,
     cs = before ++ p :: after -> Forall notListed before ->
     v1CgroupControllerRWFiles !! p = Some fs ->
     getV1ControllerRWFiles (dirName cs) = fs ++ ["cgroup.procs"]).
Proof.
  intros Hf.
  assert (E : getV1ControllerRWFiles (dirName cs) = firstRWFiles cs).
  { unfold getV1ControllerRWFiles, dirName.
    destruct cs as [|c cs]; [reflexivity|]. by rewrite Split_Join. }
  split_and!.
  - intros Hne. by apply Split_Join.
  - exact E.
  - intros before p after fs -> Hb Hp. rewrite E.
    by apply firstRWFiles_first.
Qed.

Lemma X2_rw_files_of_hierarchy_witness :
  Forall commaFree ["cpuacct"; "memory"; "cpu"] /\
  getV1ControllerRWFiles (dirName ["cpuacct"; "memory"; "cpu"]) =
    ["memory.limit_in_bytes"; "cgroup.procs"].
Proof.
  assert (Hf : Forall commaFree ["cpuacct"; "memory"; "cpu"]).
  { repeat constructor. }
  split; [exact Hf|].
  exact (proj1 (proj2 (X2_rw_files_of_hierarchy ["cpuacct"; "memory"; "cpu"] Hf))).
Defined.

(** ** What a call may do *)

Lemma events_silent {A} (c : M A) k w : snd (c k w) = w -> events c k w = [].
Proof. unfold events. intros ->. apply drop_all. Qed.

Lemma emitsOnly_ret {A} Q (a : A) : emitsOnly Q (ret a).
Proof. split; [apply readOnly_ret|]. intros k w. by rewrite events_ret. Qed.

Lemma emitsOnly_call {A} (Q : Event -> Prop) (answer : Env -> list Event -> A)
    (ev : A -> Event) :
  (forall r, Q (ev r)) -> emitsOnly Q (call answer ev).
Proof.
  intros H. split; [apply readOnly_call|]. intros k w.
  rewrite events_call. by constructor.
Qed.

Lemma emitsOnly_emit (Q : Event -> Prop) ev : Q ev -> emitsOnly Q (emit ev).
Proof.
  intros H. split; [apply readOnly_emit|]. intros k w.
  unfold events, emit. cbn [snd trace]. rewrite drop_app_length.
  by constructor.
Qed.

Lemma emitsOnly_rangeMap Q p : emitsOnly Q (rangeMap p).
Proof.
  split; [apply readOnly_rangeMap|]. intros k w. by rewrite events_silent.
Qed.

Lemma emitsOnly_rangeLinks Q symlinks : emitsOnly Q (rangeLinks symlinks).
Proof.
  split; [apply readOnly_rangeLinks|]. intros k w. by rewrite events_silent.
Qed.

Lemma emitsOnly_bind {A B} Q (c : M A) (f : A -> M B) :
  emitsOnly Q c -> (forall a, emitsOnly Q (f a)) -> emitsOnly Q (bind c f).
Proof.
  intros [Hr Hc] Hf. split.
  - apply readOnly_bind; [done|]. intros a. apply Hf.
  - intros k w. rewrite events_bind; [|done|intros a; apply Hf].
    apply Forall_app. split; [apply Hc | apply Hf].
Qed.

Lemma emitsOnly_orReturn Q c wrap k0 :
  emitsOnly Q c -> emitsOnly Q k0 -> emitsOnly Q (orReturn c wrap k0).
Proof.
  intros Hc Hk. unfold orReturn. apply emitsOnly_bind; [done|].
  intros [e|]; [apply emitsOnly_ret | done].
Qed.

Lemma emitsOnly_forEach {A} Q (l : list A) (body : A -> M (option error)) :
  (forall x, emitsOnly Q (body x)) -> emitsOnly Q (forEach l body).
Proof.
  intros Hb. induction l as [|x l IH]; cbn [forEach]; [apply emitsOnly_ret|].
  apply emitsOnly_bind; [done|]. intros [e|]; [apply emitsOnly_ret | done].
Qed.

Lemma emitsOnly_forEach_ {A} Q (l : list A) (body : A -> M unit) :
  (forall x, emitsOnly Q (body x)) -> emitsOnly Q (forEach_ l body).
Proof.
  intros Hb. induction l as [|x l IH]; cbn [forEach_]; [apply emitsOnly_ret|].
  apply emitsOnly_bind; [done|]. intros _. done.
Qed.

Lemma emitsOnly_mono {A} (Q R : Event -> Prop) (c : M A) :
  (forall ev, Q ev -> R ev) -> emitsOnly Q c -> emitsOnly R c.
Proof.
  intros H [Hr Hc]. split; [done|]. intros k w.
  eapply Forall_impl; [apply Hc | done].
Qed.

Ltac emits_only :=
  repeat first
    [ progress intros
    | match goal with
      | |- emitsOnly _ (ret _) => apply emitsOnly_ret
      | |- emitsOnly _ (call _ _) => apply emitsOnly_call
      | |- emitsOnly _ (emit _) => apply emitsOnly_emit
      | |- emitsOnly _ (rangeMap _) => apply emitsOnly_rangeMap
      | |- emitsOnly _ (rangeLinks _) => apply emitsOnly_rangeLinks
      | |- emitsOnly _ (orReturn _ _ _) => apply emitsOnly_orReturn
      | |- emitsOnly _ (forEach _ _) => apply emitsOnly_forEach
      | |- emitsOnly _ (forEach_ _ _) => apply emitsOnly_forEach_
      | |- emitsOnly _ (bind _ _) => apply emitsOnly_bind
      | |- emitsOnly _ (match ?x with _ => _ end) => destruct x
      end ].

(** ** The isolator check and the translator *)

Lemma probes_IsIsolatorSupported isolator :
  emitsOnly (fun ev => isProbe ev = true) (IsIsolatorSupported isolator).
Proof.
  assert (Hfiles : forall files,
    emitsOnly (fun ev => isProbe ev = true) (allFilesExist isolator files)).
  { induction files as [|f files IH]; cbn [allFilesExist]; [apply emitsOnly_ret|].
    unfold env.Stat. emits_only; try done. }
  unfold IsIsolatorSupported, IsCgroupUnified, GetEnabledV2Controllers,
    env.Statfs, env.Open.
  emits_only; try done.
Qed.

Lemma readOnly_afterUnified isolator (a : bool * option error) :
  readOnly
    (let '(isUnified, err) := a in
     match err with
     | Some e =>
         ret (false,
              Some (wrappedError (errorString "error determining cgroup version") e))
     | None =>
         if isUnified then
           let! '(controllers, err) := GetEnabledV2Controllers in
           match err with
           | Some e =>
               ret (false,
                    Some (wrappedError
                            (errorString "error determining enabled controllers") e))
           | None =>
               ret (existsb (fun c => String.eqb c isolator) controllers, None)
           end
         else
           match v1CgroupControllerRWFiles !! isolator with
           | Some files =>
               let! ok := allFilesExist isolator files in ret (ok, None)
           | None => ret (false, None)
           end
     end).
Proof.
  destruct a as [u [e|]]; [apply readOnly_ret|].
  destruct u.
  - apply readOnly_bind; [apply readOnly_GetEnabledV2Controllers|].
    intros [cs [e|]]; apply readOnly_ret.
  - destruct (v1CgroupControllerRWFiles !! isolator); [|apply readOnly_ret].
    apply readOnly_bind; [apply readOnly_allFilesExist|].
    intros b. apply readOnly_ret.
Qed.

Lemma IsCgroupUnified_run root k w :
  let path := filepath.Join [root; "/sys/fs/cgroup"] in
  let r := k_Statfs k (trace w) path in
  events (IsCgroupUnified root) k w = [EvStatfs path r] /\
  result (IsCgroupUnified root) k w =
    match r with
    | inl err => (false, Some err)
    | inr ty => (ty =? Cgroup2fsMagicNumber, None)
    end.
Proof.
  cbv zeta. unfold IsCgroupUnified, env.Statfs. split.
  - rewrite events_bind; [|apply readOnly_call|intros [?|?]; apply readOnly_ret].
    rewrite events_call.
    assert (E : forall (r : error + Z) w',
      events (match r with
              | inl err => ret (false, Some err)
              | inr ty => ret (ty =? Cgroup2fsMagicNumber, None)
              end) k w' = []).
    { intros [?|?] ?; apply events_ret. }
    by rewrite E.
  - rewrite result_bind. unfold result at 2, call. cbn [fst].
    by destruct (k_Statfs k (trace w) _).
Qed.

Lemma IsIsolatorSupported_first isolator k w :
  exists probes,
    events (IsIsolatorSupported isolator) k w =
      EvStatfs "/sys/fs/cgroup" (k_Statfs k (trace w) "/sys/fs/cgroup") :: probes.
Proof.
  unfold IsIsolatorSupported.
  rewrite events_bind;
    [|apply readOnly_IsCgroupUnified|apply readOnly_afterUnified].
  destruct (IsCgroupUnified_run "/" k w) as [-> _]. rewrite rootCgroupPath.
  eexists. reflexivity.
Qed.


Lemma IsIsolatorSupported_run isolator k w :
  let r := k_Statfs k (trace w) "/sys/fs/cgroup" in
  let w1 := {| trace := trace w ++ [EvStatfs "/sys/fs/cgroup" r];
               maps := maps w |} in
  IsIsolatorSupported isolator k w =
    match r with
    | inl e =>
        ((false,
          Some (wrappedError (errorString "error determining cgroup version") e)),
         w1)
    | inr ty =>
        if ty =? Cgroup2fsMagicNumber then
          (match fst (GetEnabledV2Controllers k w1) with
           | (_, Some e) =>
               (false,
                Some (wrappedError
                        (errorString "error determining enabled controllers") e))
           | (controllers, None) =>
               (existsb (fun c => String.eqb c isolator) controllers, None)
           end,
           snd (GetEnabledV2Controllers k w1))
        else
          match v1CgroupControllerRWFiles !! isolator with
          | Some files =>
              ((fst (allFilesExist isolator files k w1), None),
               snd (allFilesExist isolator files k w1))
          | None => ((false, None), w1)
          end
    end.
Proof.
  cbv zeta.
  unfold IsIsolatorSupported, IsCgroupUnified, env.Statfs, bind, call, ret.
  rewrite rootCgroupPath.
  destruct (k_Statfs k (trace w) "/sys/fs/cgroup") as [e|ty]; [done|].
  destruct (ty =? Cgroup2fsMagicNumber).
  - destruct (GetEnabledV2Controllers k _) as [[cs [e|]] w2]; done.
  - destruct (v1CgroupControllerRWFiles !! isolator) as [files|]; [|done].
    by destruct (allFilesExist isolator files k _).
Qed.

Lemma MaybeAddIsolator_run opts isolator q k w :
  result (MaybeAddIsolator opts isolator (Some q)) k w =
    match result (IsIsolatorSupported isolator) k w with
    | (_, Some e) => Returns ([], Some e)
    | (true, None) =>
        match isolatorFuncs !! isolator with
        | None => Panics
        | Some f =>
            match f opts q with
            | (_, Some e) => Returns ([], Some e)
            | (opts', None) => Returns (opts', None)
            end
        end
    | (false, None) => Returns (opts, None)
    end /\
  events (MaybeAddIsolator opts isolator (Some q)) k w =
    events (IsIsolatorSupported isolator) k w ++
    match result (IsIsolatorSupported isolator) k w with
    | (false, None) => [EvStderr (skipWarning isolator)]
    | _ => []
    end.
Proof.
  unfold MaybeAddIsolator. split.
  - rewrite result_bind.
    destruct (result (IsIsolatorSupported isolator) k w) as [[|] [e|]]; try done.
    destruct (isolatorFuncs !! isolator) as [f|]; [|done].
    by destruct (f opts q) as [opts' [e|]].
  - rewrite events_bind; [|apply readOnly_IsIsolatorSupported|].
    2: { intros [b [e|]]; unfold env.Stderr; read_only. }
    f_equal.
    destruct (result (IsIsolatorSupported isolator) k w) as [[|] [e|]];
      try apply events_ret.
    + destruct (isolatorFuncs !! isolator) as [f|]; [|apply events_ret].
      destruct (f opts q) as [opts' [e|]]; apply events_ret.
    + unfold env.Stderr.
      rewrite events_bind; [|apply readOnly_emit|intros; apply readOnly_ret].
      rewrite events_ret, app_nil_r.
      unfold events, emit. cbn [snd trace]. by rewrite drop_app_length.
Qed.

(** X3: for the two isolators that have a translator, cpu and memory,
    [MaybeAddIsolator] always returns.  When it returns an error the
    option list it returns is nil: the caller's options are not handed
    back.  When it returns no error the list is the caller's list, either
    as it was or with exactly one option appended at the end, an option of
    section Service named CPUQuota for cpu and MemoryLimit for memory. *)
Theorem X3_isolator_outcome (k : Env) (w : World) (opts : list UnitOption)
    (isolator : string) (limit : option Quantity) :
  isolator = "cpu" \/ isolator = "memory" ->
  exists opts' err,
    result (MaybeAddIsolator opts isolator limit) k w = Returns (opts', err) /\
    match err with
    | Some _ => opts' = []
    | None =>
        opts' = opts \/
        exists value,
          opts' =
            opts ++
            [NewUnitOption "Service"
               (if String.eqb isolator "cpu" then "CPUQuota" else "MemoryLimit")
               value]
    end.
Proof.
  intros Hiso. destruct limit as [q|].
  2: { exists opts, None. split; [reflexivity | by left]. }
  destruct (MaybeAddIsolator_run opts isolator q k w) as [-> _].
  destruct (result (IsIsolatorSupported isolator) k w) as [[|] [e|]].
  - exists [], (Some e). done.
  - destruct Hiso as [-> | ->].
    + setoid_rewrite isolatorFuncs_cpu. unfold addCpuLimit.
      destruct (resource.Value q >? MaxMilliValue).
      * eexists [], (Some _). done.
      * eexists _, None. split; [reflexivity|]. right. eexists. reflexivity.
    + setoid_rewrite isolatorFuncs_memory. unfold addMemoryLimit.
      eexists _, None. split; [reflexivity|]. right. eexists. reflexivity.
  - exists [], (Some e). done.
  - exists opts, None. split; [reflexivity | by left].
Qed.

Lemma X3_isolator_outcome_witness :
  ("cpu" = "cpu" \/ "cpu" = "memory") /\
  exists opts' err,
    result (MaybeAddIsolator [memoryOption 1] "cpu" (Some (ofMilli 500)))
      v1Host initial = Returns (opts', err) /\
    match err with
    | Some _ => opts' = []
    | None =>
        opts' = [memoryOption 1] \/
        exists value,
          opts' = [memoryOption 1] ++ [NewUnitOption "Service" "CPUQuota" value]
    end.
Proof.
  assert (H : "cpu" = "cpu" \/ "cpu" = "memory") by (left; reflexivity).
  split; [exact H|].
  exact (X3_isolator_outcome v1Host initial [memoryOption 1] "cpu"
           (Some (ofMilli 500)) H).
Defined.

(** X4: what the isolator check and the translator ask of the
    environment.  [IsIsolatorSupported] only inspects: each of its calls is
    a statfs, an open or a stat, and the first one is the statfs of
    /sys/fs/cgroup.  [MaybeAddIsolator] makes no call at all when the limit
    is nil; otherwise it makes the calls of the check and nothing more,
    except for one line on standard error when the check answers false
    without an error. *)
Theorem X4_isolator_probes_only (k : Env) (w : World) (opts : list UnitOption)
    (isolator : string) (limit : option Quantity) :
  let check := events (IsIsolatorSupported isolator) k w in
  let evs := events (MaybeAddIsolator opts isolator limit) k w in
  Forall (fun ev => isProbe ev = true) check /\
  (exists probes,
     check =
       EvStatfs "/sys/fs/cgroup" (k_Statfs k (trace w) "/sys/fs/cgroup")
       :: probes) /\
  match limit with
  | None => evs = []
  | Some _ =>
      match result (IsIsolatorSupported isolator) k w with
      | (false, None) => evs = check ++ [EvStderr (skipWarning isolator)]
      | _ => evs = check
      end
  end.
Proof.
  cbv zeta. split_and!.
  - apply probes_IsIsolatorSupported.
  - apply IsIsolatorSupported_first.
  - destruct limit as [q|]; [|apply events_ret].
    destruct (MaybeAddIsolator_run opts isolator q k w) as [_ ->].
    destruct (result (IsIsolatorSupported isolator) k w) as [[|] [e|]];
      by rewrite ?app_nil_r.
Qed.

Lemma allFilesExist_static (k : Env) (stat : string -> option error)
    isolator files w :
  (forall tr path, k_Stat k tr path = stat path) ->
  fst (allFilesExist isolator files k w) =
    forallb (fun f => negb (os.IsNotExist (stat (controlFile isolator f)))) files.
Proof.
  intros Hs. revert w. induction files as [|f files IH]; intros w; [done|].
  cbn [allFilesExist forallb]. unfold bind, env.Stat, call. rewrite Hs.
  fold (controlFile isolator f).
  destruct (os.IsNotExist (stat (controlFile isolator f))); [done|].
  cbn [negb andb]. apply IH.
Qed.

(** X5: on a v1 host whose [stat] answers do not change, an isolator is
    reported as supported exactly when it has an entry in the allow-list
    and none of the control files of that entry is reported as not
    existing.  A control file whose [stat] fails for another reason, such
    as a permission error, counts as present; an isolator without an entry
    is not supported; and the check itself never fails once statfs has
    answered.  [IsV1ControllerMounted] is stricter: any [stat] error on
    cgroup.procs means not mounted. *)
Theorem X5_v1_support (k : Env) (w : World) (isolator : string) (ty : Z)
    (stat : string -> option error) :
  k_Statfs k (trace w) "/sys/fs/cgroup" = inr ty ->
  ty <> Cgroup2fsMagicNumber ->
  (forall tr path, k_Stat k tr path = stat path) ->
  result (IsIsolatorSupported isolator) k w =
    (match v1CgroupControllerRWFiles !! isolator with
     | Some files =>
         forallb
           (fun f => negb (os.IsNotExist (stat (controlFile isolator f)))) files
     | None => false
     end, None) /\
  forall c,
    result (IsV1ControllerMounted c) k w =
      match stat (filepath.Join ["/sys/fs/cgroup"; c; "cgroup.procs"]) with
      | None => true
      | Some _ => false
      end.
Proof.
  intros Hfs Hty Hstat. split.
  - unfold result. rewrite IsIsolatorSupported_run. cbv zeta. rewrite Hfs.
    destruct (Z.eqb_spec ty Cgroup2fsMagicNumber) as [|_]; [done|].
    destruct (v1CgroupControllerRWFiles !! isolator) as [files|]; [|done].
    cbn [fst]. f_equal. by apply allFilesExist_static.
  - intros c. unfold result, IsV1ControllerMounted, bind, env.Stat, call.
    rewrite Hstat. by destruct (stat _).
Qed.

Lemma X5_v1_support_witness :
  k_Statfs lockedHost (trace initial) "/sys/fs/cgroup" = inr tmpfsMagic /\
  tmpfsMagic <> Cgroup2fsMagicNumber /\
  result (IsIsolatorSupported "devices") lockedHost initial = (true, None) /\
  result (IsV1ControllerMounted "devices") lockedHost initial = false.
Proof.
  assert (Hfs : k_Statfs lockedHost (trace initial) "/sys/fs/cgroup" =
                inr tmpfsMagic) by reflexivity.
  assert (Hty : tmpfsMagic <> Cgroup2fsMagicNumber) by (vm_compute; congruence).
  assert (Hstat : forall tr path,
            k_Stat lockedHost tr path = Some (PathError "stat" path EACCES))
    by reflexivity.
  split; [exact Hfs | split; [exact Hty|]].
  destruct (X5_v1_support lockedHost initial "devices" tmpfsMagic
              (fun path => Some (PathError "stat" path EACCES)) Hfs Hty Hstat)
    as [H1 H2].
  split; [exact H1 | exact (H2 "devices")].
Defined.

(** X6: when the isolator check fails it answers false, and its error is
    one of two wrappers: "error determining cgroup version" around the
    error of the statfs of /sys/fs/cgroup, after which no other call is
    made, or, on a v2 host, "error determining enabled controllers" around
    the error of reading cgroup.controllers.  [MaybeAddIsolator] then
    returns nil options with the same error, makes no further call and
    prints no warning. *)
Theorem X6_detection_errors (k : Env) (w : World) (opts : list UnitOption)
    (isolator : string) (q : Quantity) (b : bool) (e : error) :
  result (IsIsolatorSupported isolator) k w = (b, Some e) ->
  b = false /\
  (exists cause,
     (e = wrappedError (errorString "error determining cgroup version") cause /\
      k_Statfs k (trace w) "/sys/fs/cgroup" = inl cause /\
      events (IsIsolatorSupported isolator) k w =
        [EvStatfs "/sys/fs/cgroup" (inl cause)]) \/
     (e = wrappedError (errorString "error determining enabled controllers")
            cause /\
      k_Statfs k (trace w) "/sys/fs/cgroup" = inr Cgroup2fsMagicNumber /\
      snd (result GetEnabledV2Controllers k
             (final (IsCgroupUnified "/") k w)) = Some cause)) /\
  result (MaybeAddIsolator opts isolator (Some q)) k w = Returns ([], Some e) /\
  events (MaybeAddIsolator opts isolator (Some q)) k w =
    events (IsIsolatorSupported isolator) k w.
Proof.
  intros H.
  assert (Hb : b = false).
  { revert H. unfold result. rewrite IsIsolatorSupported_run. cbv zeta.
    destruct (k_Statfs k (trace w) "/sys/fs/cgroup") as [cause|ty];
      [by intros [= <- _]|].
    destruct (ty =? Cgroup2fsMagicNumber).
    + cbn [fst]. destruct (fst (GetEnabledV2Controllers k _)) as [cs [e'|]];
        by intros [= <- _].
    + destruct (v1CgroupControllerRWFiles !! isolator); by intros [= <- _]. }
  subst b.
  destruct (MaybeAddIsolator_run opts isolator q k w) as [-> ->].
  rewrite H, app_nil_r. split_and!; try done.
  - revert H. unfold result, events. rewrite IsIsolatorSupported_run. cbv zeta.
    destruct (k_Statfs k (trace w) "/sys/fs/cgroup") as [cause|ty] eqn:Hfs.
    { intros [= <-]. exists cause. left. split_and!; [done|done|].
      cbn [snd trace]. by rewrite drop_app_length. }
    destruct (Z.eqb_spec ty Cgroup2fsMagicNumber) as [->|Hty].
    + cbn [fst].
      destruct (fst (GetEnabledV2Controllers k _)) as [cs [e'|]] eqn:Hc;
        [|done].
      intros [= <-]. exists e'. right. split_and!; [done|done|].
      unfold final, IsCgroupUnified, env.Statfs, bind, call, ret.
      rewrite rootCgroupPath, Hfs. cbn [snd]. by rewrite Hc.
    + destruct (v1CgroupControllerRWFiles !! isolator); done.
Qed.

Lemma X6_detection_errors_witness :
  let e := wrappedError (errorString "error determining cgroup version")
             (Errno syscall.ENOENT) in
  result (IsIsolatorSupported "cpu") noCgroupHost initial = (false, Some e) /\
  result (MaybeAddIsolator [memoryOption 1] "cpu" (Some (ofMilli 500)))
    noCgroupHost initial = Returns ([], Some e) /\
  events (MaybeAddIsolator [memoryOption 1] "cpu" (Some (ofMilli 500)))
    noCgroupHost initial =
    events (IsIsolatorSupported "cpu") noCgroupHost initial.
Proof.
  cbv zeta.
  assert (H : result (IsIsolatorSupported "cpu") noCgroupHost initial =
              (false,
               Some (wrappedError (errorString "error determining cgroup version")
                       (Errno syscall.ENOENT)))) by reflexivity.
  split; [exact H|].
  exact (proj2 (proj2 (X6_detection_errors noCgroupHost initial [memoryOption 1]
                         "cpu" (ofMilli 500) false _ H))).
Defined.




(** ** The v2 controllers and the v2 path *)






Lemma parseV2ProcCgroupInfo_run path k w :
  let r := k_Open k (trace w) path in
  parseV2ProcCgroupInfo path k w =
    (match r with
     | inl err =>
         (EmptyString,
          Some (wrappedError (errorString "error opening /proc/self/cgroup") err))
     | inr cg =>
         let text := hd EmptyString (fst (scan cg)) in
         if hasThreeFields text then (pathField text, None)
         else (EmptyString, Some (Errorf "error parsing /proc/self/cgroup" []))
     end,
     {| trace := trace w ++ [EvOpen path r]; maps := maps w |}).
Proof.
  cbv zeta. unfold parseV2ProcCgroupInfo, env.Open, bind, call, ret.
  destruct (k_Open k (trace w) path) as [err|cg]; [done|].
  unfold hasThreeFields, pathField.
  by destruct (Z.of_nat (length (Strings.SplitN _ ":" 3)) <? 3).
Qed.

Lemma resolveV2CgroupPath_run pid k w :
  resolveV2CgroupPath pid k w =
    parseV2ProcCgroupInfo (membershipFile pid) k w.
Proof. by destruct pid. Qed.

(** X9: the v2 path resolvers, for this process and for a process id,
    open the membership file of the process and make no other call; the
    file of a process id is /proc/<pid>/cgroup with the id in decimal, which
    reads back as the id.  A failed open is reported
    wrapped in "error opening /proc/self/cgroup".  Otherwise only the first
    line counts, and a scanner error is never reported: when the line has
    three colon-separated fields the answer is its third field, which keeps
    any further colons, and the line is the first field, the second field
    and the answer joined by colons; when it has fewer, or the file has no
    line, the answer is the parse error. *)
Theorem X9_v2_path_resolution (k : Env) (w : World) (pid : option Z) :
  let path := membershipFile pid in
  let r := k_Open k (trace w) path in
  let res := result (resolveV2CgroupPath pid) k w in
  events (resolveV2CgroupPath pid) k w = [EvOpen path r] /\
  (forall p,
     exists digits,
       membershipFile (Some p) = "/proc/" +:+ digits +:+ "/cgroup" /\
       strconv.decimalValue digits = Some p) /\
  match r with
  | inl err =>
      res =
        (EmptyString,
         Some (wrappedError (errorString "error opening /proc/self/cgroup") err))
  | inr cg =>
      let text := hd EmptyString (fst (scan cg)) in
      if hasThreeFields text then
        res = (pathField text, None) /\
        exists a b,
          text = a +:+ ":" +:+ b +:+ ":" +:+ pathField text /\
          Contains a ":" = false /\ Contains b ":" = false
      else
        res = (EmptyString, Some (Errorf "error parsing /proc/self/cgroup" []))
  end.
Proof.
  cbv zeta. unfold events, result.
  rewrite resolveV2CgroupPath_run, parseV2ProcCgroupInfo_run. cbv zeta.
  cbn [fst snd trace]. split_and!.
  - by rewrite drop_app_length.
  - intros p. exists (strconv.Itoa p). split; [done | apply Itoa_decimalValue].
  - destruct (k_Open k (trace w) _) as [err|cg]; [done|].
    destruct (hasThreeFields (hd EmptyString (fst (scan cg)))) eqn:H3; [|done].
    split; [done|].
    destruct (three_fields _ H3) as (a & b & _ & Ht & Ha & Hb).
    by exists a, b.
Qed.

(** ** Joining a subcgroup *)

Lemma result_call {A} (answer : Env -> list Event -> A) (ev : A -> Event) k w :
  result (call answer ev) k w = answer k (trace w).
Proof. reflexivity. Qed.

Lemma result_ret {A} (a : A) k w : result (ret a) k w = a.
Proof. reflexivity. Qed.

Lemma final_call {A} (answer : Env -> list Event -> A) (ev : A -> Event) k w :
  final (call answer ev) k w =
    {| trace := trace w ++ [ev (answer k (trace w))]; maps := maps w |}.
Proof. reflexivity. Qed.

(** X10: [JoinV1Subcgroup] first makes the directory of the subcgroup
    under the controller, with mode 0600.  When that fails nothing is
    written and the error comes back wrapped in a message that names the
    subcgroup.  Otherwise it asks for the process id once and writes it
    once, in decimal that reads back as the id, to cgroup.procs of that
    directory; the result is nil when the write succeeds and the wrapped
    error of the write when it fails. *)
Theorem X10_join_subcgroup (k : Env) (w : World) (controller subcgroup : string) :
  let dir := filepath.Join ["/sys/fs/cgroup"; controller; subcgroup] in
  let procs := filepath.Join [dir; "cgroup.procs"] in
  let evs := events (JoinV1Subcgroup controller subcgroup) k w in
  let res := result (JoinV1Subcgroup controller subcgroup) k w in
  match k_MkdirAll k (trace w) dir perm0600 with
  | Some e =>
      evs = [EvMkdirAll dir perm0600 (Some e)] /\
      res = Some (wrappedError
                    (Errorf "error creating %q subcgroup" [AString subcgroup]) e)
  | None =>
      exists pid data r,
        evs = [EvMkdirAll dir perm0600 None; EvGetpid pid;
               EvWriteFile procs data perm0600 r] /\
        strconv.decimalValue data = Some pid /\
        res =
          match r with
          | Some e =>
              Some (wrappedError
                      (Errorf "error adding ourselves to the %q subcgroup"
                         [AString subcgroup]) e)
          | None => None
          end
  end.
Proof.
  cbv zeta. unfold JoinV1Subcgroup.
  set (dir := filepath.Join ["/sys/fs/cgroup"; controller; subcgroup]).
  set (procs := filepath.Join [dir; "cgroup.procs"]).
  match goal with
  | |- context [orReturn ?c ?wrap ?k0] =>
      destruct (events_orReturn c wrap k0 k w) as [-> ->]
  end.
  { apply readOnly_call. }
  { unfold env.Getpid, env.WriteFile. read_only. }
  unfold env.MkdirAll. rewrite !events_call, !result_call, !final_call.
  set (w1 := {| trace := trace w ++ _; maps := maps w |}).
  unfold env.Getpid. rewrite result_bind, events_bind;
    [|apply readOnly_call|unfold env.WriteFile; read_only].
  rewrite !events_call, !result_call, !final_call.
  set (pid := k_Getpid k (trace w1)).
  set (w2 := {| trace := trace w1 ++ _; maps := maps w1 |}).
  match goal with
  | |- context [orReturn ?c ?wrap ?k0] =>
      destruct (events_orReturn c wrap k0 k w2) as [-> ->]
  end.
  { apply readOnly_call. }
  { apply readOnly_ret. }
  unfold env.WriteFile. rewrite !events_call, !result_call, !events_ret.
  destruct (k_MkdirAll k (trace w) dir perm0600) as [e|] eqn:Hmk; [done|].
  exists pid, (strconv.Itoa pid),
    (k_WriteFile k (trace w2) procs (strconv.Itoa pid) perm0600).
  split_and!.
  - by destruct (k_WriteFile k (trace w2) procs (strconv.Itoa pid) perm0600).
  - apply Itoa_decimalValue.
  - rewrite result_ret.
    by destruct (k_WriteFile k (trace w2) procs (strconv.Itoa pid) perm0600).
Qed.

(** ** Stopping at the first failure *)

Lemma stopsAtFailure_iff report evs res :
  stopsAtFailure report evs res ->
  (res = None <-> Forall (fun ev => report ev = None) evs).
Proof.
  intros H. split; [by intros ->|].
  destruct res as [e|]; [|done].
  destruct H as (before & ev & -> & _ & Hev).
  intros [_ Hl]%Forall_app. rewrite Forall_singleton in Hl.
  congruence.
Qed.

Lemma stopsAtFailure_nil report : stopsAtFailure report [] None.
Proof. constructor. Qed.

Lemma stopsAtFailure_single report ev : stopsAtFailure report [ev] (report ev).
Proof.
  unfold stopsAtFailure. destruct (report ev) as [e|] eqn:E.
  - exists [], ev. by split_and!.
  - by repeat constructor.
Qed.

Lemma stopsAtFailure_app report evs1 evs2 res :
  Forall (fun ev => report ev = None) evs1 ->
  stopsAtFailure report evs2 res ->
  stopsAtFailure report (evs1 ++ evs2) res.
Proof.
  intros H1 H2. destruct res as [e|]; cbn [stopsAtFailure] in *.
  - destruct H2 as (before & ev & -> & Hb & Hev).
    exists (evs1 ++ before), ev. rewrite app_assoc. split_and!; [done| |done].
    by apply Forall_app.
  - by apply Forall_app.
Qed.

Lemma stopsAtFailure_seq report evs1 (res1 : option error) evs2 res2 :
  stopsAtFailure report evs1 res1 -> stopsAtFailure report evs2 res2 ->
  stopsAtFailure report
    (evs1 ++ match res1 with Some _ => [] | None => evs2 end)
    (match res1 with Some e => Some e | None => res2 end).
Proof.
  intros H1 H2. destruct res1 as [e1|].
  - by rewrite app_nil_r.
  - by apply stopsAtFailure_app.
Qed.

Lemma failFast_ret report : failFast report (ret None).
Proof.
  split; [apply readOnly_ret|]. intros k w. rewrite events_ret.
  apply stopsAtFailure_nil.
Qed.

Lemma failFast_orReturn report c wrap k0 :
  readOnly c ->
  (forall k w, stopsAtFailure report (events c k w) (wrap <$> result c k w)) ->
  failFast report k0 ->
  failFast report (orReturn c wrap k0).
Proof.
  intros Hc Hm [Hk Hk']. split; [by apply readOnly_orReturn|].
  intros k w. destruct (events_orReturn c wrap k0 k w Hc Hk) as [-> ->].
  specialize (Hm k w). specialize (Hk' k (final c k w)).
  destruct (result c k w) as [e|]; cbn [fmap option_fmap option_map] in Hm.
  - by rewrite app_nil_r.
  - by apply stopsAtFailure_app.
Qed.

Lemma failFast_orReturn_id report c k0 :
  failFast report c -> failFast report k0 -> failFast report (orReturn c id k0).
Proof.
  intros [Hc Hm] Hk. apply failFast_orReturn; [done| |done].
  intros k w. rewrite option_fmap_id. apply Hm.
Qed.

(** A call whose failure is reported through [wrap]. *)
Lemma failFast_call report (answer : Env -> list Event -> option error)
    (ev : option error -> Event) wrap k0 :
  (forall r, report (ev r) = wrap <$> r) ->
  failFast report k0 ->
  failFast report (orReturn (call answer ev) wrap k0).
Proof.
  intros Hr Hk. apply failFast_orReturn; [apply readOnly_call| |done].
  intros k w. rewrite events_call, result_call, <- Hr.
  apply stopsAtFailure_single.
Qed.

Lemma failFast_forEach {A} report (l : list A) body :
  (forall x, failFast report (body x)) -> failFast report (forEach l body).
Proof.
  intros Hb. induction l as [|x l IH]; cbn [forEach]; [apply failFast_ret|].
  change (failFast report (orReturn (body x) id (forEach l body))).
  by apply failFast_orReturn_id.
Qed.

(** Calls without a report may come first. *)
Lemma failFast_bind {A} report (c : M A) f :
  emitsOnly (fun ev => report ev = None) c ->
  (forall a, failFast report (f a)) ->
  failFast report (bind c f).
Proof.
  intros [Hc Hq] Hf. split.
  - apply readOnly_bind; [done | intros; apply Hf].
  - intros k w. rewrite events_bind, result_bind; [|done|intros; apply Hf].
    apply stopsAtFailure_app; [apply Hq | apply Hf].
Qed.

Ltac quiet_call :=
  unfold GetV1ControllerDirs, getV1ControllerSymlinks, env.Stat, env.ReadFile,
    env.WriteFile, env.MkdirAll;
  emits_only; try done.

Lemma failFast_mountFsRO mountPoint : failFast buildReport (mountFsRO mountPoint).
Proof.
  unfold mountFsRO, env.Mount. apply failFast_call; [|apply failFast_ret].
  by intros [e|].
Qed.

Lemma failFast_mountController root c :
  failFast buildReport (mountController root c).
Proof.
  unfold mountController, env.MkdirAll, env.Mount.
  apply failFast_call; [by intros [e|]; rewrite ?option_fmap_id|].
  apply failFast_call; [by intros [e|]|apply failFast_ret].
Qed.

Lemma failFast_makeSymlink tmpfs entry :
  failFast buildReport (makeSymlink tmpfs entry).
Proof.
  destruct entry as [ln tgt]. unfold makeSymlink, env.Symlink.
  apply failFast_call; [by intros [e|]|apply failFast_ret].
Qed.

Lemma failFast_sysfs report target flags wrap k0 :
  (forall r,
     report (EvMount "sysfs" target "sysfs" flags EmptyString r) =
       wrap <$> exceptEBUSY r) ->
  failFast report k0 ->
  failFast report
    (orReturn
       (let! err := env.Mount "sysfs" target "sysfs" flags EmptyString in
        ret (exceptEBUSY err)) wrap k0).
Proof.
  intros Hr Hk. apply failFast_orReturn; [unfold env.Mount; read_only| |done].
  intros k w. rewrite events_bind by (unfold env.Mount; read_only).
  rewrite events_ret, app_nil_r, result_bind, result_ret.
  unfold env.Mount. rewrite events_call, result_call, <- Hr.
  apply stopsAtFailure_single.
Qed.

Lemma failFast_CreateV1Cgroups root p mountContext :
  failFast buildReport (CreateV1Cgroups root p mountContext).
Proof.
  unfold CreateV1Cgroups.
  apply failFast_bind; [quiet_call|]. intros controllers.
  unfold env.MkdirAll at 1.
  apply failFast_call; [by intros [e|]; rewrite ?option_fmap_id|].
  apply failFast_sysfs.
  { intros [e|]; [|done]. unfold buildReport, exceptEBUSY.
    change (String.eqb "sysfs" "sysfs") with true.
    change (String.eqb "sysfs" EmptyString) with false.
    cbn [andb]. by destruct (isEBUSY e). }
  unfold env.MkdirAll at 1.
  apply failFast_call; [by intros [e|]; rewrite ?option_fmap_id|].
  unfold env.Mount at 1.
  apply failFast_call; [by intros [e|]|].
  apply failFast_orReturn_id; [apply failFast_forEach, failFast_mountController|].
  apply failFast_bind; [quiet_call|]. intros symlinks.
  apply failFast_bind; [quiet_call|]. intros links.
  apply failFast_orReturn_id; [apply failFast_forEach, failFast_makeSymlink|].
  unfold env.MkdirAll at 1.
  apply failFast_call; [by intros [e|]; rewrite ?option_fmap_id|].
  apply failFast_mountFsRO.
Qed.

(** X11: [CreateV1Cgroups] stops at the first call that fails, and what it
    returns can be read off that call.  It returns nil exactly when every
    mkdir, symlink and mount of the run succeeded, a sysfs mount that
    answers EBUSY counting as a success.  When it returns an error, the
    last call of the run is the only failed one, and the error is the one
    this call reports: the error of a mkdir as it is, the error of a
    symlink wrapped in "error creating symlink", and the error of a mount
    wrapped in a message with the mount target. *)
Theorem X11_build_stops_at_first_failure (k : Env) (w : World) (root : string)
    (p : mapRef) (mountContext : string) :
  let evs := events (CreateV1Cgroups root p mountContext) k w in
  let res := result (CreateV1Cgroups root p mountContext) k w in
  stopsAtFailure buildReport evs res /\
  (res = None <-> Forall (fun ev => buildReport ev = None) evs).
Proof.
  cbv zeta.
  pose proof (proj2 (failFast_CreateV1Cgroups root p mountContext) k w) as H.
  split; [done | by apply stopsAtFailure_iff].
Qed.

(** ** Keeping the knobs writable *)

Lemma firstRWFiles_known parts f : f ∈ firstRWFiles parts -> f ∈ knownKnobs.
Proof.
  induction parts as [|p parts IH]; cbn [firstRWFiles].
  - by intros ?%elem_of_nil.
  - destruct (v1CgroupControllerRWFiles !! p) as [fs|] eqn:Hp; [|done].
    intros Hf. unfold knownKnobs.
    apply rwTable_entries in Hp as [[_ ->]|[[_ ->]|[_ ->]]]; cbn [app] in Hf;
      repeat (apply elem_of_cons in Hf as [->|Hf]; [by repeat constructor|]);
      by apply elem_of_nil in Hf.
Qed.

Lemma emitsOnly_forEach_elem {A} Q (l : list A) (body : A -> M (option error)) :
  (forall x, x ∈ l -> emitsOnly Q (body x)) -> emitsOnly Q (forEach l body).
Proof.
  induction l as [|x l IH]; intros Hb; cbn [forEach]; [apply emitsOnly_ret|].
  apply emitsOnly_bind; [apply Hb; by left|].
  intros [e|]; [apply emitsOnly_ret|]. apply IH. intros y Hy. apply Hb. by right.
Qed.

Lemma helperCalls_enterRemountKnob enterCmd appCgroup f :
  f ∈ knownKnobs ->
  emitsOnly (helperCall enterCmd) (enterRemountKnob enterCmd appCgroup f).
Proof.
  intros Hf. unfold enterRemountKnob, env.Stat, env.Run.
  emits_only; try done; cbn [helperCall]; exists appCgroup, f; auto.
Qed.

Lemma helperCalls_RemountCgroupKnobsRW p subcgroup serviceName enterCmd :
  emitsOnly (helperCall enterCmd)
    (RemountCgroupKnobsRW p subcgroup serviceName enterCmd).
Proof.
  unfold RemountCgroupKnobsRW.
  apply emitsOnly_bind; [quiet_call|]. intros controllers.
  apply emitsOnly_forEach. intros c. unfold remountKnobsOf.
  apply emitsOnly_orReturn; [unfold env.MkdirAll; by apply emitsOnly_call|].
  apply emitsOnly_forEach_elem. intros f Hf.
  apply helperCalls_enterRemountKnob. by eapply firstRWFiles_known.
Qed.

Lemma failFast_enterRemountKnob enterCmd appCgroup f :
  failFast helperReport (enterRemountKnob enterCmd appCgroup f).
Proof.
  unfold enterRemountKnob. apply failFast_bind; [quiet_call|].
  intros err. destruct (os.IsNotExist err); [apply failFast_ret|].
  unfold env.Run.
  apply failFast_call; [by intros [e|]; rewrite ?option_fmap_id|].
  apply failFast_call; [by intros [e|]; rewrite ?option_fmap_id|].
  apply failFast_ret.
Qed.

Lemma failFast_RemountCgroupKnobsRW p subcgroup serviceName enterCmd :
  failFast helperReport (RemountCgroupKnobsRW p subcgroup serviceName enterCmd).
Proof.
  unfold RemountCgroupKnobsRW.
  apply failFast_bind; [quiet_call|]. intros controllers.
  apply failFast_forEach. intros c. unfold remountKnobsOf, env.MkdirAll.
  apply failFast_call; [by intros [e|]; rewrite ?option_fmap_id|].
  apply failFast_forEach. intros f. apply failFast_enterRemountKnob.
Qed.

(** X12: [RemountCgroupKnobsRW] never calls mount itself and never
    touches a file: each of its calls is a mkdir of mode 0755, a stat, or a
    run of the enter command, whose arguments are the caller's command
    followed by /bin/mount with either a bind of a knob over itself or its
    remount read-write, the knob being one of the allow-listed files or
    cgroup.procs.  It stops at the first mkdir or run that fails and
    returns that error as it is; the answer of a stat never makes it
    fail. *)
Theorem X12_knobs_remounted_by_helper (k : Env) (w : World) (p : mapRef)
    (subcgroup serviceName : string) (enterCmd : list string) :
  let evs :=
    events (RemountCgroupKnobsRW p subcgroup serviceName enterCmd) k w in
  let res :=
    result (RemountCgroupKnobsRW p subcgroup serviceName enterCmd) k w in
  Forall (helperCall enterCmd) evs /\
  stopsAtFailure helperReport evs res /\
  (res = None <-> Forall (fun ev => helperReport ev = None) evs).
Proof.
  cbv zeta.
  pose proof (proj2 (failFast_RemountCgroupKnobsRW p subcgroup serviceName
                       enterCmd) k w) as H.
  split_and!; [|done|by apply stopsAtFailure_iff].
  apply helperCalls_RemountCgroupKnobsRW.
Qed.

(** ** Carving the read-only hierarchy *)

Lemma emitsOnly_forEach__elem {A} Q (l : list A) (body : A -> M unit) :
  (forall x, x ∈ l -> emitsOnly Q (body x)) -> emitsOnly Q (forEach_ l body).
Proof.
  induction l as [|x l IH]; intros Hb; cbn [forEach_]; [apply emitsOnly_ret|].
  apply emitsOnly_bind; [apply Hb; by left|].
  intros _. apply IH. intros y Hy. apply Hb. by right.
Qed.

Lemma carverCalls_fixCpusetKnobs cpusetPath :
  emitsOnly carverCall (fixCpusetKnobs cpusetPath).
Proof.
  unfold fixCpusetKnobs.
  apply emitsOnly_bind; [unfold env.MkdirAll; by apply emitsOnly_call|].
  intros _. apply emitsOnly_forEach__elem. intros knob Hknob.
  unfold fixCpusetKnob, env.ReadFile, env.WriteFile.
  emits_only; try done; cbn [carverCall]; (split; [done|]); eauto.
Qed.

Lemma carverCalls_mountFsRO mountPoint :
  emitsOnly carverCall (mountFsRO mountPoint).
Proof.
  unfold mountFsRO, env.Mount. emits_only. cbn [carverCall].
  split_and!; try done. by left.
Qed.

Lemma carverCalls_bindKnob appCgroup f :
  f ∈ knownKnobs -> emitsOnly carverCall (bindKnob appCgroup f).
Proof.
  intros Hf. unfold bindKnob, env.Stat, env.Mount.
  emits_only; try done. cbn [carverCall].
  split_and!; try done. right. split; [done|]. by exists appCgroup, f.
Qed.

Lemma carverCalls_remountService c subcgroupPath serviceName :
  emitsOnly carverCall (remountService c subcgroupPath serviceName).
Proof.
  unfold remountService.
  apply emitsOnly_orReturn; [unfold env.MkdirAll; by apply emitsOnly_call|].
  apply emitsOnly_forEach_elem. intros f Hf.
  apply carverCalls_bindKnob. by eapply firstRWFiles_known.
Qed.

Lemma carverCalls_RemountV1CgroupsRO root p subcgroup serviceNames :
  emitsOnly carverCall (RemountV1CgroupsRO root p subcgroup serviceNames).
Proof.
  unfold RemountV1CgroupsRO.
  apply emitsOnly_bind; [quiet_call|]. intros controllers.
  apply emitsOnly_orReturn; [|apply carverCalls_mountFsRO].
  apply emitsOnly_forEach. intros c. unfold remountController.
  apply emitsOnly_bind.
  { destruct (String.eqb c "cpuset");
      [apply carverCalls_fixCpusetKnobs | apply emitsOnly_ret]. }
  intros _. apply emitsOnly_orReturn; [|apply carverCalls_mountFsRO].
  apply emitsOnly_forEach. intros s. apply carverCalls_remountService.
Qed.

Lemma abortsWith_nil report res : abortsWith report [] res.
Proof. intros i ev e H. by rewrite lookup_nil in H. Qed.

Lemma abortsWith_app report evs1 evs2 res :
  Forall (fun ev => report ev = None) evs1 ->
  abortsWith report evs2 res ->
  abortsWith report (evs1 ++ evs2) res.
Proof.
  intros H1 H2 i ev e Hi Hr. apply lookup_app_Some in Hi as [Hi|[Hlen Hi]].
  - rewrite Forall_lookup in H1. specialize (H1 i ev Hi). cbv beta in H1.
    congruence.
  - destruct (H2 _ ev e Hi Hr) as [Hlast Hres]. split; [|done].
    rewrite length_app. lia.
Qed.

Lemma abortsAt_ret report res : abortsAt report (ret res).
Proof.
  split; [apply readOnly_ret|]. intros k w. rewrite events_ret.
  apply abortsWith_nil.
Qed.

Lemma abortsAt_orReturn report c wrap k0 :
  emitsOnly (fun ev => report ev = None) c ->
  abortsAt report k0 -> abortsAt report (orReturn c wrap k0).
Proof.
  intros [Hc Hq] [Hk Hk']. split; [by apply readOnly_orReturn|].
  intros k w. destruct (events_orReturn c wrap k0 k w Hc Hk) as [-> ->].
  destruct (result c k w) as [e|].
  - rewrite app_nil_r. intros i ev e' Hi Hr.
    specialize (Hq k w). rewrite Forall_lookup in Hq.
    specialize (Hq i ev Hi). cbv beta in Hq. congruence.
  - apply abortsWith_app; [apply Hq | apply Hk'].
Qed.

Lemma abortsAt_call report (answer : Env -> list Event -> option error)
    (ev : option error -> Event) wrap k0 :
  (forall r, report (ev r) = wrap <$> r) ->
  abortsAt report k0 ->
  abortsAt report (orReturn (call answer ev) wrap k0).
Proof.
  intros Hr [Hk Hk']. split; [apply readOnly_orReturn; [apply readOnly_call|done]|].
  intros k w.
  destruct (events_orReturn (call answer ev) wrap k0 k w (readOnly_call _ _) Hk)
    as [-> ->].
  rewrite events_call, result_call. specialize (Hr (answer k (trace w))).
  destruct (answer k (trace w)) as [e|]; cbn [fmap option_fmap option_map] in Hr.
  - rewrite app_nil_r. intros [|i] ev' e' Hi Hr'; simplify_eq/=.
    split; [done | congruence].
  - apply abortsWith_app; [by repeat constructor | apply Hk'].
Qed.

Lemma abortsAt_orReturn_id report c k0 :
  abortsAt report c -> abortsAt report k0 -> abortsAt report (orReturn c id k0).
Proof.
  intros [Hc Hm] [Hk Hk']. split; [by apply readOnly_orReturn|].
  intros k w. destruct (events_orReturn c id k0 k w Hc Hk) as [-> ->].
  specialize (Hm k w). destruct (result c k w) as [e|].
  - by rewrite app_nil_r.
  - apply abortsWith_app; [|apply Hk'].
    apply Forall_lookup. intros i ev Hi.
    destruct (report ev) as [e|] eqn:E; [|done].
    by destruct (Hm i ev e Hi E).
Qed.

Lemma abortsAt_forEach {A} report (l : list A) body :
  (forall x, abortsAt report (body x)) -> abortsAt report (forEach l body).
Proof.
  intros Hb. induction l as [|x l IH]; cbn [forEach]; [apply abortsAt_ret|].
  change (abortsAt report (orReturn (body x) id (forEach l body))).
  by apply abortsAt_orReturn_id.
Qed.

Lemma abortsAt_bind {A} report (c : M A) f :
  emitsOnly (fun ev => report ev = None) c ->
  (forall a, abortsAt report (f a)) ->
  abortsAt report (bind c f).
Proof.
  intros [Hc Hq] Hf. split.
  - apply readOnly_bind; [done | intros; apply Hf].
  - intros k w. rewrite events_bind, result_bind; [|done|intros; apply Hf].
    apply abortsWith_app; [apply Hq | apply Hf].
Qed.

Lemma abortsAt_mountFsRO mountPoint : abortsAt carverReport (mountFsRO mountPoint).
Proof.
  unfold mountFsRO, env.Mount. apply abortsAt_call; [|apply abortsAt_ret].
  by intros [e|].
Qed.

Lemma abortsAt_RemountV1CgroupsRO root p subcgroup serviceNames :
  abortsAt carverReport (RemountV1CgroupsRO root p subcgroup serviceNames).
Proof.
  unfold RemountV1CgroupsRO.
  apply abortsAt_bind; [quiet_call|]. intros controllers.
  apply abortsAt_orReturn_id; [|apply abortsAt_mountFsRO].
  apply abortsAt_forEach. intros c. unfold remountController.
  apply abortsAt_bind.
  { destruct (String.eqb c "cpuset"); [|apply emitsOnly_ret].
    unfold fixCpusetKnobs, fixCpusetKnob. quiet_call. }
  intros _. apply abortsAt_orReturn_id; [|apply abortsAt_mountFsRO].
  apply abortsAt_forEach. intros s. unfold remountService.
  apply abortsAt_orReturn; [quiet_call|].
  apply abortsAt_forEach. intros f. unfold bindKnob.
  apply abortsAt_bind; [quiet_call|]. intros err.
  destruct (os.IsNotExist err); [apply abortsAt_ret|].
  unfold env.Mount. apply abortsAt_call; [by intros [e|]|apply abortsAt_ret].
Qed.

(** X13: what [RemountV1CgroupsRO] does to the file system.  Each of its
    calls is a mkdir of mode 0755, a stat, a read, a write of mode 0644 to
    a cpuset knob, or a mount; it makes no symlink and runs no command.
    Every mount is of a path over itself, without file-system type or
    data, and is either the read-only remount or the plain bind of one of
    the allow-listed knobs or cgroup.procs.  A mount that fails is the last
    call, and its error comes back wrapped in "error bind mounting" for a
    bind and in "error remounting RO" for a remount, with the mount
    target. *)
Theorem X13_carver_mounts (k : Env) (w : World) (root : string) (p : mapRef)
    (subcgroup : string) (serviceNames : list string) :
  let evs := events (RemountV1CgroupsRO root p subcgroup serviceNames) k w in
  let res := result (RemountV1CgroupsRO root p subcgroup serviceNames) k w in
  Forall carverCall evs /\
  forall i source target fstype flags data e,
    evs !! i = Some (EvMount source target fstype flags data (Some e)) ->
    S i = length evs /\
    res =
      Some (wrappedError
              (Errorf (if flags =? syscall.MS_BIND
                       then "error bind mounting %q"
                       else "error remounting RO %q") [AString target]) e).
Proof.
  cbv zeta. split; [apply carverCalls_RemountV1CgroupsRO|].
  intros i source target fstype flags data e Hi.
  destruct (proj2 (abortsAt_RemountV1CgroupsRO root p subcgroup serviceNames)
              k w i _
              (wrappedError
                 (Errorf (if flags =? syscall.MS_BIND
                          then "error bind mounting %q"
                          else "error remounting RO %q") [AString target]) e) Hi)
    as [Hlast Hres]; [|done].
  cbn [carverReport]. by destruct (flags =? syscall.MS_BIND).
Qed.

Lemma X13_carver_mounts_witness :
  let k := busyHost EmptyString in
  let w := storeOf sampleHierarchies in
  let run := RemountV1CgroupsRO "/root" theMap "machine" ["app.service"] in
  let file :=
    "/root/sys/fs/cgroup/cpu,cpuacct/machine/system.slice/app.service/cpu.cfs_quota_us"
  in
  let e := Errno EPERM in
  events run k w !! 2%nat =
    Some (EvMount file file EmptyString syscall.MS_BIND EmptyString (Some e)) /\
  3%nat = length (events run k w) /\
  result run k w =
    Some (wrappedError (Errorf "error bind mounting %q" [AString file]) e).
Proof.
  cbv zeta.
  assert (Hi :
    events (RemountV1CgroupsRO "/root" theMap "machine" ["app.service"])
      (busyHost EmptyString) (storeOf sampleHierarchies) !! 2%nat =
    Some (EvMount
            "/root/sys/fs/cgroup/cpu,cpuacct/machine/system.slice/app.service/cpu.cfs_quota_us"
            "/root/sys/fs/cgroup/cpu,cpuacct/machine/system.slice/app.service/cpu.cfs_quota_us"
            EmptyString syscall.MS_BIND EmptyString (Some (Errno EPERM))))
    by (vm_compute; reflexivity).
  split; [exact Hi|].
  exact (proj2 (X13_carver_mounts (busyHost EmptyString)
                  (storeOf sampleHierarchies) "/root" theMap "machine"
                  ["app.service"]) 2%nat _ _ _ _ _ _ Hi).
Defined.

(** ** The calls of a successful run *)

(** A loop that ends without an error ran its body for every element, in
    order, each time without an error. *)
Lemma forEach_blocks {A} (l : list A) (body : A -> M (option error)) k w :
  (forall x, readOnly (body x)) ->
  result (forEach l body) k w = None ->
  exists blocks,
    events (forEach l body) k w = concat blocks /\
    Forall2
      (fun x blk =>
         exists w', result (body x) k w' = None /\ blk = events (body x) k w')
      l blocks.
Proof.
  intros Hb. revert w. induction l as [|x l IH]; intros w H.
  - exists []. split; [apply events_ret | constructor].
  - change (forEach (x :: l) body) with (orReturn (body x) id (forEach l body))
      in *.
    destruct (orReturn_ok _ _ _ k w (Hb x) (readOnly_forEach l body Hb) H)
      as (Hx & Hl & ->).
    destruct (IH _ Hl) as (blocks & -> & Hblocks).
    exists (events (body x) k w :: blocks). split; [done|].
    constructor; [by exists w | done].
Qed.

Lemma bindKnob_ok appCgroup f k w :
  result (bindKnob appCgroup f) k w = None ->
  knobBlock appCgroup f (events (bindKnob appCgroup f) k w).
Proof.
  unfold bindKnob, knobBlock. cbv zeta.
  set (path := filepath.Join [appCgroup; f]).
  rewrite result_bind, events_bind;
    [|apply readOnly_call|intros; unfold env.Mount; read_only].
  unfold env.Stat. rewrite events_call, result_call, final_call.
  set (r := k_Stat k (trace w) path).
  set (w1 := {| trace := _; maps := _ |}).
  destruct (os.IsNotExist r) eqn:Hr.
  - intros _. exists r. left. by rewrite events_ret.
  - intros H. exists r. right. split; [done|].
    apply orReturn_ok in H as (H1 & _ & ->);
      [|unfold env.Mount; read_only|read_only].
    rewrite (Mount_ok _ _ _ _ _ _ _ H1), events_ret. done.
Qed.

Lemma remountService_ok c subcgroupPath serviceName k w :
  result (remountService c subcgroupPath serviceName) k w = None ->
  serviceBlock c subcgroupPath serviceName
    (events (remountService c subcgroupPath serviceName) k w).
Proof.
  unfold remountService, serviceBlock. cbv zeta. intros H.
  apply orReturn_ok in H as (H1 & H2 & ->);
    [|unfold env.MkdirAll; read_only
     |apply readOnly_forEach; intros; apply readOnly_bindKnob].
  rewrite (MkdirAll_ok _ _ _ _ H1).
  apply forEach_blocks in H2 as (knobs & -> & Hk);
    [|intros; apply readOnly_bindKnob].
  exists knobs. split; [done|].
  eapply Forall2_impl; [exact Hk|].
  intros f blk (w' & Hres & ->). by apply bindKnob_ok.
Qed.

Lemma noMount_fixCpusetKnobs cpusetPath :
  emitsOnly (fun ev => isMount ev = false) (fixCpusetKnobs cpusetPath).
Proof. unfold fixCpusetKnobs, fixCpusetKnob. quiet_call. Qed.

Lemma remountController_ok cgroupTmpfs subcgroup serviceNames c k w :
  result (remountController cgroupTmpfs subcgroup serviceNames c) k w = None ->
  controllerBlock cgroupTmpfs subcgroup serviceNames c
    (events (remountController cgroupTmpfs subcgroup serviceNames c) k w).
Proof.
  unfold remountController, controllerBlock. cbv zeta.
  set (cPath := filepath.Join [cgroupTmpfs; c]).
  set (pre := if String.eqb c "cpuset" then fixCpusetKnobs cPath else ret tt).
  assert (Hpre : emitsOnly (fun ev => isMount ev = false) pre).
  { unfold pre. destruct (String.eqb c "cpuset");
      [apply noMount_fixCpusetKnobs | apply emitsOnly_ret]. }
  assert (Hrest : readOnly
    (try! forEach serviceNames
            (remountService c
               (filepath.Join [cPath; subcgroup; "system.slice"]))
     orelse id in mountFsRO cPath)).
  { apply readOnly_orReturn; [|apply readOnly_mountFsRO].
    apply readOnly_forEach. intros. apply readOnly_remountService. }
  rewrite result_bind, events_bind; [|apply Hpre|done].
  intros H.
  apply orReturn_ok in H as (H1 & H2 & ->);
    [|apply readOnly_forEach; intros; apply readOnly_remountService
     |apply readOnly_mountFsRO].
  rewrite (mountFsRO_ok _ _ _ H2).
  apply forEach_blocks in H1 as (services & -> & Hs);
    [|intros; apply readOnly_remountService].
  exists (events pre k w), services. split_and!.
  - done.
  - intros Hc. unfold pre. apply String.eqb_neq in Hc. rewrite Hc.
    apply events_ret.
  - apply Hpre.
  - eapply Forall2_impl; [exact Hs|].
    intros s blk (w' & Hres & ->). by apply remountService_ok.
Qed.

(** X14: the calls of a [RemountV1CgroupsRO] that returns nil.  The run
    handles the controller directories one after the other, in the order
    in which [GetV1ControllerDirs] lists them, and ends with the read-only
    remount of /sys under the root.  For a directory it first runs the
    cpuset workaround if the directory is named cpuset, which mounts
    nothing; then, for each service in order, it makes the app cgroup and,
    for each writable file of the directory in order, stats the file and
    binds it over itself unless the stat says that it does not exist; and
    only then it remounts the directory read-only.  All these mkdirs and
    mounts succeeded. *)
Theorem X14_carver_success (k : Env) (w : World) (root : string) (p : mapRef)
    (subcgroup : string) (serviceNames : list string) :
  let cgroupTmpfs := filepath.Join [root; "/sys/fs/cgroup"] in
  let sysPath := filepath.Join [root; "/sys"] in
  let dirs := result (GetV1ControllerDirs p) k w in
  result (RemountV1CgroupsRO root p subcgroup serviceNames) k w = None ->
  exists blocks,
    events (RemountV1CgroupsRO root p subcgroup serviceNames) k w =
      concat blocks ++ [remountedRO sysPath] /\
    Forall2 (controllerBlock cgroupTmpfs subcgroup serviceNames) dirs blocks.
Proof.
  cbv zeta. unfold RemountV1CgroupsRO. intros H.
  match type of H with
  | result (bind ?c ?f) ?k ?w = _ =>
      destruct (silent_bind c f k w eq_refl) as [Hr He];
      rewrite Hr in H; rewrite He; clear Hr He; cbv beta in *
  end.
  apply orReturn_ok in H as (H1 & H2 & ->);
    [|apply readOnly_forEach; intros; apply readOnly_remountController
     |apply readOnly_mountFsRO].
  rewrite (mountFsRO_ok _ _ _ H2).
  apply forEach_blocks in H1 as (blocks & -> & Hb);
    [|intros; apply readOnly_remountController].
  exists blocks. split; [done|].
  eapply Forall2_impl; [exact Hb|].
  intros c blk (w' & Hres & ->). by apply remountController_ok.
Qed.

Lemma X14_carver_success_witness :
  let k := v1Host in
  let w := storeOf sampleHierarchies in
  result (RemountV1CgroupsRO "/root" theMap "machine" ["app.service"]) k w =
    None /\
  exists blocks,
    events (RemountV1CgroupsRO "/root" theMap "machine" ["app.service"]) k w =
      concat blocks ++ [remountedRO "/root/sys"] /\
    Forall2 (controllerBlock "/root/sys/fs/cgroup" "machine" ["app.service"])
      (result (GetV1ControllerDirs theMap) k w) blocks.
Proof.
  cbv zeta.
  assert (H : result (RemountV1CgroupsRO "/root" theMap "machine"
                        ["app.service"]) v1Host (storeOf sampleHierarchies) =
              None) by (vm_compute; reflexivity).
  split; [exact H|].
  exact (X14_carver_success v1Host (storeOf sampleHierarchies) "/root" theMap
           "machine" ["app.service"] H).
Defined.

Lemma Run_ok args k w :
  result (env.Run args) k w = None -> events (env.Run args) k w = [EvRun args None].
Proof. intros H. unfold env.Run in *. by apply call_ok. Qed.

Lemma enterRemountKnob_ok enterCmd appCgroup f k w :
  result (enterRemountKnob enterCmd appCgroup f) k w = None ->
  helperKnobBlock enterCmd appCgroup f
    (events (enterRemountKnob enterCmd appCgroup f) k w).
Proof.
  unfold enterRemountKnob, helperKnobBlock. cbv zeta.
  set (path := filepath.Join [appCgroup; f]).
  rewrite result_bind, events_bind;
    [|apply readOnly_call|intros; unfold env.Run; read_only].
  unfold env.Stat. rewrite events_call, result_call, final_call.
  set (r := k_Stat k (trace w) path).
  set (w1 := {| trace := _; maps := _ |}).
  destruct (os.IsNotExist r) eqn:Hr.
  - intros _. exists r. left. by rewrite events_ret.
  - intros H. exists r. right. split; [done|].
    apply orReturn_ok in H as (H1 & H2 & ->);
      [|unfold env.Run; read_only|unfold env.Run; read_only].
    apply orReturn_ok in H2 as (H2 & _ & ->);
      [|unfold env.Run; read_only|read_only].
    rewrite (Run_ok _ _ _ H1), (Run_ok _ _ _ H2), events_ret. done.
Qed.

Lemma remountKnobsOf_ok subcgroup serviceName enterCmd c k w :
  result (remountKnobsOf subcgroup serviceName enterCmd c) k w = None ->
  helperBlock subcgroup serviceName enterCmd c
    (events (remountKnobsOf subcgroup serviceName enterCmd c) k w).
Proof.
  unfold remountKnobsOf, helperBlock. cbv zeta. intros H.
  apply orReturn_ok in H as (H1 & H2 & ->);
    [|unfold env.MkdirAll; read_only
     |apply readOnly_forEach; intros; apply readOnly_enterRemountKnob].
  rewrite (MkdirAll_ok _ _ _ _ H1).
  apply forEach_blocks in H2 as (knobs & -> & Hk);
    [|intros; apply readOnly_enterRemountKnob].
  exists knobs. split; [done|].
  eapply Forall2_impl; [exact Hk|].
  intros f blk (w' & Hres & ->). by apply enterRemountKnob_ok.
Qed.

(** X15: the calls of a [RemountCgroupKnobsRW] that returns nil.  The run
    handles the controller directories one after the other, in the order
    in which [GetV1ControllerDirs] lists them.  For a directory it makes
    the app cgroup of the service and then, for each writable file of the
    directory in order, stats the file and, unless the stat says that it
    does not exist, runs the enter command twice: first to bind the file
    over itself, then to remount it read-write.  All these mkdirs and runs
    succeeded, and nothing comes after the last directory. *)
Theorem X15_helper_success (k : Env) (w : World) (p : mapRef)
    (subcgroup serviceName : string) (enterCmd : list string) :
  let dirs := result (GetV1ControllerDirs p) k w in
  result (RemountCgroupKnobsRW p subcgroup serviceName enterCmd) k w = None ->
  exists blocks,
    events (RemountCgroupKnobsRW p subcgroup serviceName enterCmd) k w =
      concat blocks /\
    Forall2 (helperBlock subcgroup serviceName enterCmd) dirs blocks.
Proof.
  cbv zeta. unfold RemountCgroupKnobsRW. intros H.
  match type of H with
  | result (bind ?c ?f) ?k ?w = _ =>
      destruct (silent_bind c f k w eq_refl) as [Hr He];
      rewrite Hr in H; rewrite He; clear Hr He; cbv beta in *
  end.
  apply forEach_blocks in H as (blocks & -> & Hb);
    [|intros; apply readOnly_remountKnobsOf].
  exists blocks. split; [done|].
  eapply Forall2_impl; [exact Hb|].
  intros c blk (w' & Hres & ->). by apply remountKnobsOf_ok.
Qed.

Lemma X15_helper_success_witness :
  let k := v1Host in
  let w := storeOf sampleHierarchies in
  let enterCmd := ["/enter"; "--pid=7"] in
  result (RemountCgroupKnobsRW theMap "machine" "app.service" enterCmd) k w =
    None /\
  exists blocks,
    events (RemountCgroupKnobsRW theMap "machine" "app.service" enterCmd) k w =
      concat blocks /\
    Forall2 (helperBlock "machine" "app.service" enterCmd)
      (result (GetV1ControllerDirs theMap) k w) blocks.
Proof.
  cbv zeta.
  assert (H : result (RemountCgroupKnobsRW theMap "machine" "app.service"
                        ["/enter"; "--pid=7"]) v1Host
                (storeOf sampleHierarchies) = None)
    by (vm_compute; reflexivity).
  split; [exact H|].
  exact (X15_helper_success v1Host (storeOf sampleHierarchies) theMap "machine"
           "app.service" ["/enter"; "--pid=7"] H).
Defined.

(** ** The calls of the hierarchy builder *)

Lemma builderCalls_CreateV1Cgroups root p mountContext :
  emitsOnly builderCall (CreateV1Cgroups root p mountContext).
Proof.
  assert (Hin : forall x : string, x ∈ ["sysfs"; "tmpfs"; "cgroup"] ->
            forall target flags data r,
              Z.land flags noSuidExecDev = noSuidExecDev ->
              builderCall (EvMount x target x flags data r)).
  { intros x Hx target flags data r Hf. cbn [builderCall]. split; [done|].
    by left. }
  assert (Hro : emitsOnly builderCall (mountFsRO (filepath.Join [root; "/sys/fs/cgroup"]))).
  { unfold mountFsRO, env.Mount. emits_only. cbn [builderCall].
    split; [done|]. by right. }
  unfold CreateV1Cgroups.
  apply emitsOnly_bind; [quiet_call|]. intros controllers.
  apply emitsOnly_orReturn; [unfold env.MkdirAll; by apply emitsOnly_call|].
  apply emitsOnly_orReturn.
  { unfold env.Mount. emits_only. apply Hin; [|done]. by repeat constructor. }
  apply emitsOnly_orReturn; [unfold env.MkdirAll; by apply emitsOnly_call|].
  apply emitsOnly_orReturn.
  { unfold env.Mount. emits_only. apply Hin; [|done]. by repeat constructor. }
  apply emitsOnly_orReturn.
  { apply emitsOnly_forEach. intros c. unfold mountController.
    apply emitsOnly_orReturn; [unfold env.MkdirAll; by apply emitsOnly_call|].
    apply emitsOnly_orReturn; [|apply emitsOnly_ret].
    unfold env.Mount. emits_only. apply Hin; [|done]. by repeat constructor. }
  apply emitsOnly_bind; [quiet_call|]. intros symlinks.
  apply emitsOnly_bind; [quiet_call|]. intros links.
  apply emitsOnly_orReturn.
  { apply emitsOnly_forEach. intros [ln tgt]. unfold makeSymlink, env.Symlink.
    emits_only. done. }
  apply emitsOnly_orReturn; [unfold env.MkdirAll; by apply emitsOnly_call|].
  exact Hro.
Qed.

(** X16: what [CreateV1Cgroups] asks of the environment, whether it
    succeeds or fails.  Each of its calls is a mkdir of mode 0700, a
    symlink or a mount; it never stats, reads, writes or runs anything.
    Every mount carries the flags nosuid, noexec and nodev, and is either
    a sysfs, tmpfs or cgroup file system whose source names its type, or
    the read-only remount of a path over itself. *)
Theorem X16_builder_calls (k : Env) (w : World) (root : string) (p : mapRef)
    (mountContext : string) :
  Forall builderCall (events (CreateV1Cgroups root p mountContext) k w).
Proof. apply builderCalls_CreateV1Cgroups. Qed.

(** ** The two resolvers on the same file *)

Lemma resolveV1CgroupPath_events pid controller k w :
  events (resolveV1CgroupPath pid controller) k w =
    [EvOpen (membershipFile pid) (k_Open k (trace w) (membershipFile pid))].
Proof.
  assert (H : forall path,
    events
      (let! '(parts, err) := parseV1CgroupController path controller in
       match err with
       | Some e => ret (EmptyString, Some e)
       | None => ret (nth 2 parts EmptyString, None)
       end) k w = [EvOpen path (k_Open k (trace w) path)]).
  { intros path. unfold events, parseV1CgroupController, env.Open, bind, call, ret.
    destruct (k_Open k (trace w) path) as [err|cg]; cbn [fst snd trace].
    - by rewrite drop_app_length.
    - destruct (findV1Controller (fst (scan cg)) controller) as [parts [e|]];
        cbn [fst snd trace]; by rewrite drop_app_length. }
  destruct pid as [pid|]; apply H.
Qed.

(** X17: the v1 and the v2 resolver on the same membership file.  Both
    open the file and make no other call, and both report a failed open
    with the same wrapped error.  They also give the same answer whenever
    the first line of the file either lacks the three colon-separated
    fields, which both report as the parse error, or lists the controller
    that the v1 resolver is asked for, which both answer with the third
    field of that line.  So the answers can differ only when the first
    line is well formed and does not list the controller, or when the file
    has no line. *)
Theorem X17_resolvers_agree (k : Env) (w : World) (pid : option Z)
    (controller : string) :
  let v1 := resolveV1CgroupPath pid controller in
  let v2 := resolveV2CgroupPath pid in
  events v1 k w = events v2 k w /\
  (forall err,
     k_Open k (trace w) (membershipFile pid) = inl err ->
     result v1 k w = result v2 k w) /\
  (forall cg first rest,
     k_Open k (trace w) (membershipFile pid) = inr cg ->
     fst (scan cg) = first :: rest ->
     hasThreeFields first = false \/ listsController first controller = true ->
     result v1 k w = result v2 k w).
Proof.
  cbv zeta. split_and!.
  - rewrite resolveV1CgroupPath_events.
    unfold events. rewrite resolveV2CgroupPath_run, parseV2ProcCgroupInfo_run.
    cbv zeta. cbn [snd trace]. by rewrite drop_app_length.
  - intros err Ho. rewrite resolveV1CgroupPath_run, Ho.
    unfold result. rewrite resolveV2CgroupPath_run, parseV2ProcCgroupInfo_run.
    cbv zeta. by rewrite Ho.
  - intros cg first rest Ho Hs Hcase.
    rewrite resolveV1CgroupPath_run, Ho.
    unfold result at 1. rewrite resolveV2CgroupPath_run, parseV2ProcCgroupInfo_run.
    cbv zeta. rewrite Ho, Hs. cbn [fst hd].
    destruct (hasThreeFields first) eqn:H3.
    + destruct Hcase as [?|Hl]; [done|].
      pose proof (findV1Controller_answer [] first rest controller
                    (Forall_nil_2 _) H3 Hl) as E.
      cbn [app] in E. rewrite E. unfold pathField.
      by destruct (Strings.SplitN first ":" 3).
    + pose proof (findV1Controller_malformed [] first rest controller
                    (Forall_nil_2 _) H3) as E.
      cbn [app] in E. by rewrite E.
Qed.

Lemma X17_resolvers_agree_witness :
  let k := oneFile "/proc/self/cgroup" unifiedMembership in
  let cg := {| rd_data := unifiedMembership; rd_err := None |} in
  let first := "0::/user.slice/session-1.scope" in
  k_Open k (trace initial) (membershipFile None) = inr cg /\
  fst (scan cg) = first :: [] /\
  (hasThreeFields first = false \/ listsController first EmptyString = true) /\
  result (resolveV1CgroupPath None EmptyString) k initial =
    result (resolveV2CgroupPath None) k initial.
Proof.
  cbv zeta.
  assert (Ho : k_Open (oneFile "/proc/self/cgroup" unifiedMembership)
                 (trace initial) (membershipFile None) =
               inr {| rd_data := unifiedMembership; rd_err := None |})
    by reflexivity.
  assert (Hs : fst (scan {| rd_data := unifiedMembership; rd_err := None |}) =
               ["0::/user.slice/session-1.scope"]) by reflexivity.
  assert (Hc : hasThreeFields "0::/user.slice/session-1.scope" = false \/
               listsController "0::/user.slice/session-1.scope" EmptyString =
                 true) by (right; reflexivity).
  split; [exact Ho | split; [exact Hs | split; [exact Hc|]]].
  exact (proj2 (proj2 (X17_resolvers_agree
                         (oneFile "/proc/self/cgroup" unifiedMembership) initial
                         None EmptyString)) _ _ _ Ho Hs Hc).
Defined.

(** ** When the translator cannot return *)

Lemma isolatorFuncs_other isolator :
  isolatorFuncs !! isolator = None <-> isolator <> "cpu" /\ isolator <> "memory".
Proof.
  unfold isolatorFuncs. rewrite lookup_insert_None, lookup_singleton_None.
  split; intros [H1 H2]; split; congruence.
Qed.

(** X18: [MaybeAddIsolator] fails to return, by calling a nil function,
    in exactly one situation: the limit is not nil, the isolator check
    answers true without an error, and the isolator is neither cpu nor
    memory.  In every other situation it returns. *)
Theorem X18_translator_panics_exactly (k : Env) (w : World)
    (opts : list UnitOption) (isolator : string) (limit : option Quantity) :
  result (MaybeAddIsolator opts isolator limit) k w = Panics <->
  limit <> None /\
  result (IsIsolatorSupported isolator) k w = (true, None) /\
  isolator <> "cpu" /\ isolator <> "memory".
Proof.
  destruct limit as [q|].
  2: { split; [done | by intros [? _]]. }
  destruct (MaybeAddIsolator_run opts isolator q k w) as [-> _].
  rewrite <- isolatorFuncs_other.
  destruct (result (IsIsolatorSupported isolator) k w) as [[|] [e|]].
  - split; [done | by intros (_ & ? & _)].
  - destruct (isolatorFuncs !! isolator) as [f|].
    + split; [|by intros (_ & _ & ?)].
      by destruct (f opts q) as [opts' [e|]].
    + done.
  - split; [done | by intros (_ & ? & _)].
  - split; [done | by intros (_ & ? & _)].
Qed.
